(** * The ESP32 SCADA gateway firmware (enhanced_esp32_scada.ino)

    A shallow embedding of the sketch's globals, of [loop] and of the
    functions it calls, followed by the properties of the energy
    accumulator, the noise clamp, the calibration phase, the irradiance
    model, the Modbus register map and the HTTP routes.

    Numeric conventions.
    - [unsigned long] (32 bits on the ESP32) is a [Z] in [0, 2^32); the
      subtraction of two clock readings wraps, as in C.
    - In the globals and in [loop], [float] and [double] values are exact
      rationals [Q]: comparisons, thresholds and scalings are the
      source's, and an equation between such values holds of the stored
      values up to their rounding.
    - Where a result depends on the rounding itself (the side of a
      threshold, the bounds of a stored value, a tolerance), the source
      lines are repeated in IEEE 754 arithmetic, [float] as binary32 and
      [double] as binary64 (section Binary floating point); these
      definitions carry the suffix [_ieee].
    - [simulateIrradiance] calls [sin]; it is defined over [R].  The
      snapshot receives its result as a reading, [sim_irradiance], that
      may be any rational, so what is proved of the snapshot holds
      whatever the irradiance is.
    - LCD, serial and uplink output never feed back into the globals and
      are left out; what [scadaServer.handleClient()] sends is kept as the
      output of a loop iteration. *)

From Stdlib Require Import ZArith QArith Qround Qabs Lia Reals Psatz List String Bool.
From Stdlib Require Import DecimalString Qpower.
From Stdlib Require Import Floats.SpecFloat.
From stdpp Require Import gmap.
Import ListNotations.

(** ** Clock readings *)

Definition ULONG_MODULUS : Z := 2 ^ 32.

Definition is_ulong (t : Z) : Prop := (0 <= t < ULONG_MODULUS)%Z.

(** [a - b] on [unsigned long]. *)
Definition ulong_sub (a b : Z) : Z := ((a - b) mod ULONG_MODULUS)%Z.

(** ** Rational comparisons as the source's [<] and [>] *)

Definition Qlt_bool (x y : Q) : bool := negb (Qle_bool y x).

(** ** The Modbus server's register banks

    [ModbusIP] belongs to the modbus-esp8266 library; the model keeps what
    the sketch relies on: [addHreg]/[addCoil]/[addIsts] create a run of
    addresses, and [Hreg]/[Coil]/[Ists] overwrite an address that exists
    and leave the bank alone otherwise. *)

Record ModbusIP := mkModbusIP {
  hregs : gmap Z Z;
  iregs : gmap Z Z;
  coils : gmap Z bool;
  ists : gmap Z bool
}.

Fixpoint addReg {V : Type} (offset : Z) (value : V) (numregs : nat)
    (bank : gmap Z V) : gmap Z V :=
  match numregs with
  | O => bank
  | S n =>
      addReg (offset + 1)%Z value n
        (match bank !! offset with
         | Some _ => bank
         | None => <[offset := value]> bank
         end)
  end.

Definition Reg {V : Type} (offset : Z) (value : V) (bank : gmap Z V) : gmap Z V :=
  match bank !! offset with
  | Some _ => <[offset := value]> bank
  | None => bank
  end.

Definition addHreg (offset value : Z) (n : nat) (mb : ModbusIP) : ModbusIP :=
  mkModbusIP (addReg offset value n (hregs mb)) (iregs mb) (coils mb) (ists mb).
Definition addIreg (offset value : Z) (n : nat) (mb : ModbusIP) : ModbusIP :=
  mkModbusIP (hregs mb) (addReg offset value n (iregs mb)) (coils mb) (ists mb).
Definition addCoil (offset : Z) (value : bool) (n : nat) (mb : ModbusIP) : ModbusIP :=
  mkModbusIP (hregs mb) (iregs mb) (addReg offset value n (coils mb)) (ists mb).
Definition addIsts (offset : Z) (value : bool) (n : nat) (mb : ModbusIP) : ModbusIP :=
  mkModbusIP (hregs mb) (iregs mb) (coils mb) (addReg offset value n (ists mb)).

Definition Hreg (offset value : Z) (mb : ModbusIP) : ModbusIP :=
  mkModbusIP (Reg offset value (hregs mb)) (iregs mb) (coils mb) (ists mb).
Definition Coil (offset : Z) (value : bool) (mb : ModbusIP) : ModbusIP :=
  mkModbusIP (hregs mb) (iregs mb) (Reg offset value (coils mb)) (ists mb).
Definition Ists (offset : Z) (value : bool) (mb : ModbusIP) : ModbusIP :=
  mkModbusIP (hregs mb) (iregs mb) (coils mb) (Reg offset value (ists mb)).

Definition emptyModbus : ModbusIP := mkModbusIP ∅ ∅ ∅ ∅.

(** ** Globals of the sketch *)

Record SCADAData := mkSCADAData {
  current_rms : Q;
  voltage : Q;
  ac_power_kw : Q;
  total_energy_kwh : Q;
  grid_frequency : Q;
  power_factor : Q;
  ambient_temp : Q;
  irradiance : Q;
  system_status : Z;  (* 0=Offline, 1=Online, 2=Fault *)
  efficiency : Q;
  timestamp : Z
}.

Record Globals := mkGlobals {
  lastSendTime : Z;
  noiseFloor : Q;
  calibrated : bool;
  calibrationStart : Z;
  calibrationReadings : Z;
  calibrationSum : Q;
  scadaData : SCADAData;
  accumulated_energy : Q;
  last_energy_update : Z;
  last_scada_update : Z;
  mbServer : ModbusIP
}.

Definition sendInterval : Z := 1000.
Definition gridVoltage : Q := 220.

(** [SCADAData scadaData = {0}] and the zero initialisers of the other
    globals. *)
Definition scadaData0 : SCADAData :=
  mkSCADAData 0 0 0 0 0 0 0 0 0 0 0.

Definition globals0 : Globals :=
  mkGlobals 0 0 false 0 0 0 scadaData0 0 0 0 emptyModbus.

(** Field updates ([scadaData.x = v], [x = v]). *)

Definition set_measurement (i v p : Q) (s : SCADAData) : SCADAData :=
  mkSCADAData i v p (total_energy_kwh s) (grid_frequency s) (power_factor s)
    (ambient_temp s) (irradiance s) (system_status s) (efficiency s) (timestamp s).

Definition set_total_energy_kwh (e : Q) (s : SCADAData) : SCADAData :=
  mkSCADAData (current_rms s) (voltage s) (ac_power_kw s) e (grid_frequency s)
    (power_factor s) (ambient_temp s) (irradiance s) (system_status s)
    (efficiency s) (timestamp s).

Definition set_simulated (f pf temp irr : Q) (status : Z) (eff : Q) (ts : Z)
    (s : SCADAData) : SCADAData :=
  mkSCADAData (current_rms s) (voltage s) (ac_power_kw s) (total_energy_kwh s)
    f pf temp irr status eff ts.

Definition set_scadaData (s : SCADAData) (g : Globals) : Globals :=
  mkGlobals (lastSendTime g) (noiseFloor g) (calibrated g) (calibrationStart g)
    (calibrationReadings g) (calibrationSum g) s (accumulated_energy g)
    (last_energy_update g) (last_scada_update g) (mbServer g).

Definition set_mbServer (mb : ModbusIP) (g : Globals) : Globals :=
  mkGlobals (lastSendTime g) (noiseFloor g) (calibrated g) (calibrationStart g)
    (calibrationReadings g) (calibrationSum g) (scadaData g) (accumulated_energy g)
    (last_energy_update g) (last_scada_update g) mb.

Definition set_accumulated_energy (e : Q) (g : Globals) : Globals :=
  mkGlobals (lastSendTime g) (noiseFloor g) (calibrated g) (calibrationStart g)
    (calibrationReadings g) (calibrationSum g) (scadaData g) e
    (last_energy_update g) (last_scada_update g) (mbServer g).

Definition set_last_energy_update (t : Z) (g : Globals) : Globals :=
  mkGlobals (lastSendTime g) (noiseFloor g) (calibrated g) (calibrationStart g)
    (calibrationReadings g) (calibrationSum g) (scadaData g) (accumulated_energy g)
    t (last_scada_update g) (mbServer g).

Definition set_last_scada_update (t : Z) (g : Globals) : Globals :=
  mkGlobals (lastSendTime g) (noiseFloor g) (calibrated g) (calibrationStart g)
    (calibrationReadings g) (calibrationSum g) (scadaData g) (accumulated_energy g)
    (last_energy_update g) t (mbServer g).

Definition set_lastSendTime (t : Z) (g : Globals) : Globals :=
  mkGlobals t (noiseFloor g) (calibrated g) (calibrationStart g)
    (calibrationReadings g) (calibrationSum g) (scadaData g) (accumulated_energy g)
    (last_energy_update g) (last_scada_update g) (mbServer g).

Definition set_calibration (sum : Q) (readings : Z) (g : Globals) : Globals :=
  mkGlobals (lastSendTime g) (noiseFloor g) (calibrated g) (calibrationStart g)
    readings sum (scadaData g) (accumulated_energy g)
    (last_energy_update g) (last_scada_update g) (mbServer g).

Definition set_noiseFloor (nf : Q) (done : bool) (g : Globals) : Globals :=
  mkGlobals (lastSendTime g) nf done (calibrationStart g)
    (calibrationReadings g) (calibrationSum g) (scadaData g) (accumulated_energy g)
    (last_energy_update g) (last_scada_update g) (mbServer g).

Definition set_calibrationStart (t : Z) (g : Globals) : Globals :=
  mkGlobals (lastSendTime g) (noiseFloor g) (calibrated g) t
    (calibrationReadings g) (calibrationSum g) (scadaData g) (accumulated_energy g)
    (last_energy_update g) (last_scada_update g) (mbServer g).

(** ** setup()

    Of [setup] the globals see the register banks being created and
    [calibrationStart = millis()]; [ms_start] is that clock reading. *)

Definition setup (ms_start : Z) : Globals :=
  let mb := addHreg 30001 0 10 emptyModbus in
  let mb := addIreg 30001 0 10 mb in
  let mb := addCoil 1 false 8 mb in
  let mb := addIsts 1 false 8 mb in
  set_calibrationStart ms_start (set_mbServer mb globals0).

(** ** updateSCADAData()

    What one call reads from outside the globals, in source order. *)

Record SlowTickReads := mkSlowTickReads {
  ms_energy : Z;         (* millis() in hours_elapsed *)
  ms_energy_mark : Z;    (* millis() stored in last_energy_update *)
  rnd_frequency : Z;     (* random(-10, 10) *)
  rnd_power_factor : Z;  (* random(-5, 5) *)
  rnd_temp : Z;          (* random(-50, 150) *)
  sim_irradiance : Q;    (* the float returned by simulateIrradiance() *)
  rnd_efficiency : Z;    (* random(-20, 20) *)
  ms_timestamp : Z       (* millis() stored in scadaData.timestamp *)
}.

(** Arduino's [random(min, max)] returns a value in [min, max-1]. *)
Definition random_range (lo hi r : Z) : bool := ((lo <=? r) && (r <? hi))%Z.

Definition slow_reads_ok (t : SlowTickReads) : bool :=
  random_range (-10) 10 (rnd_frequency t)
  && random_range (-5) 5 (rnd_power_factor t)
  && random_range (-50) 150 (rnd_temp t)
  && random_range (-20) 20 (rnd_efficiency t).

Definition hours_elapsed (now last : Z) : Q :=
  (inject_Z (ulong_sub now last) / 3600000.0)%Q.

Definition accumulate_energy (t : SlowTickReads) (g : Globals) : Globals :=
  let g :=
    if (0 <? last_energy_update g)%Z then
      let acc := (accumulated_energy g
                  + ac_power_kw (scadaData g)
                    * hours_elapsed (ms_energy t) (last_energy_update g))%Q in
      set_scadaData (set_total_energy_kwh acc (scadaData g))
        (set_accumulated_energy acc g)
    else g in
  set_last_energy_update (ms_energy_mark t) g.

Definition updateSCADAData (t : SlowTickReads) (g : Globals) : Globals :=
  let g := accumulate_energy t g in
  set_scadaData
    (set_simulated
       (50.0 + inject_Z (rnd_frequency t) / 100.0)%Q
       (0.95 + inject_Z (rnd_power_factor t) / 1000.0)%Q
       (25.0 + inject_Z (rnd_temp t) / 10.0)%Q
       (sim_irradiance t)
       1
       (0.96 + inject_Z (rnd_efficiency t) / 1000.0)%Q
       (ms_timestamp t)
       (scadaData g))
    g.

(** ** simulateIrradiance()

    [ms] is the [millis()] reading and [rnd] the value of
    [random(-100, 100)].  [time_of_day] is [unsigned long] arithmetic;
    [hour] and the result are floats, taken here as reals. *)

Definition time_of_day (ms : Z) : Z :=
  (((ms / 1000 + 8 * 3600) mod ULONG_MODULUS) mod 86400)%Z.

Definition hour_of (ms : Z) : R := (IZR (time_of_day ms) / 3600)%R.

Definition simulateIrradiance (ms rnd : Z) : R :=
  let hour := hour_of ms in
  if Rlt_dec hour 6 then 0%R
  else if Rgt_dec hour 18 then 0%R
  else
    let irradiance := (1200 * sin (PI * (hour - 6) / 12))%R in
    Rmax 0 (irradiance + IZR rnd).

(** The irradiance model in the words of the specification: the day as a
    sine arc between 6 h and 18 h, [offsetSeconds] being the 8 hours the
    sketch adds. *)

Definition offsetSeconds : Z := 28800.

Definition spec_hourOfDay (nowTimestamp : Z) : R :=
  (IZR ((nowTimestamp / 1000 + offsetSeconds) mod 86400) / 3600)%R.

Definition spec_irradiance (hourOfDay jitter : R) : R :=
  match Rlt_dec hourOfDay 6, Rgt_dec hourOfDay 18 with
  | right _, right _ =>
      Rmax 0 (1200 * sin (PI * (hourOfDay - 6) / 12) + jitter)
  | _, _ => 0%R
  end.

(** ** updateModbusRegisters() *)

(** [(uint16_t) x] for a float [x]: the fraction is dropped (towards
    zero); a value outside [0, 65535] is not representable, and the low 16
    bits are kept, as a conversion through a wider integer gives. *)
Definition uint16_of_float (x : Q) : Z :=
  ((Qnum x ÷ Z.pos (Qden x)) mod 65536)%Z.

Definition uint16_of_int (x : Z) : Z := (x mod 65536)%Z.

Definition updateModbusRegisters (g : Globals) : Globals :=
  let s := scadaData g in
  let mb := mbServer g in
  let mb := Hreg 30001 (uint16_of_float (ac_power_kw s * 1000)) mb in
  let mb := Hreg 30002 (uint16_of_float (total_energy_kwh s * 100)) mb in
  let mb := Hreg 30003 (uint16_of_float (grid_frequency s * 100)) mb in
  let mb := Hreg 30004 (uint16_of_float (current_rms s * 1000)) mb in
  let mb := Hreg 30005 (uint16_of_float (voltage s)) mb in
  let mb := Hreg 30006 (uint16_of_float (power_factor s * 1000)) mb in
  let mb := Hreg 30007 (uint16_of_float (ambient_temp s * 10)) mb in
  let mb := Hreg 30008 (uint16_of_float (irradiance s)) mb in
  let mb := Hreg 30009 (uint16_of_float (efficiency s * 1000)) mb in
  let mb := Hreg 30010 (uint16_of_int (system_status s)) mb in
  let mb := Coil 1 (system_status s =? 1)%Z mb in
  let mb := Coil 2 (Qlt_bool 0.1 (ac_power_kw s)) mb in
  let mb := Coil 3 (Qlt_bool 100 (irradiance s)) mb in
  let mb := Coil 4 (Qlt_bool 49.5 (grid_frequency s)
                    && Qlt_bool (grid_frequency s) 50.5) mb in
  let mb := Ists 1 (Qlt_bool 40 (ambient_temp s)) mb in
  let mb := Ists 2 (Qlt_bool (power_factor s) 0.9) mb in
  let mb := Ists 3 (Qlt_bool (efficiency s) 0.9) mb in
  let mb := Ists 4 false mb in
  set_mbServer mb g.

(** The scale factor of each holding register that carries a float, as
    [updateModbusRegisters] applies it. *)
Definition register_map : list (Z * (SCADAData -> Q) * Z) :=
  [ (30001, ac_power_kw, 1000);
    (30002, total_energy_kwh, 100);
    (30003, grid_frequency, 100);
    (30004, current_rms, 1000);
    (30005, voltage, 1);
    (30006, power_factor, 1000);
    (30007, ambient_temp, 10);
    (30008, irradiance, 1);
    (30009, efficiency, 1000) ]%Z.

Definition encode (value : Q) (S : Z) : Z := uint16_of_float (value * inject_Z S).

(** Modelled from the spec: the client-side reading of a holding register,
    which the firmware does not contain: the register divided by its
    scale factor. *)
Definition decode (reg S : Z) : Q := (inject_Z reg / inject_Z S)%Q.

(** pollModbusDevices() only prints; its polling code is commented out. *)
Definition pollModbusDevices (g : Globals) : Globals := g.

(** ** The HTTP server

    [WebServer] dispatches a request to the handler registered with [on]
    for exactly its URI and method, and to the [onNotFound] handler
    otherwise.  A JSON document is kept as a tree; its serialisation to
    text is ArduinoJson's. *)

Inductive HTTPMethod := HTTP_GET | HTTP_POST | HTTP_PUT | HTTP_DELETE.

Record Request := mkRequest { req_method : HTTPMethod; req_uri : string }.

#[warnings="-register-all"]
Inductive JsonVariant :=
| JFloat (x : Q)
| JInteger (n : Z)
| JString (s : string)
| JObject (members : list (string * JsonVariant)).

Inductive Content :=
| Json (doc : JsonVariant)
| Text (s : string)
| Html.  (* the page text returned by buildSCADAWebInterface() *)

Record Response := mkResponse {
  code : Z;
  headers : list (string * string);
  content_type : string;
  content : Content
}.

Definition cors : string * string := ("Access-Control-Allow-Origin", "*")%string.
Definition json_header : string * string := ("Content-Type", "application/json")%string.

(** [doc[key]] on an object. *)
Fixpoint member (key : string) (members : list (string * JsonVariant))
    : option JsonVariant :=
  match members with
  | [] => None
  | (k, v) :: rest => if String.eqb k key then Some v else member key rest
  end.

Definition field (key : string) (doc : JsonVariant) : option JsonVariant :=
  match doc with
  | JObject members => member key members
  | _ => None
  end.

Definition field_in (outer key : string) (doc : JsonVariant) : option JsonVariant :=
  match field outer doc with
  | Some inner => field key inner
  | None => None
  end.

(** GET /scada/data *)
Definition scada_data_doc (s : SCADAData) : JsonVariant :=
  JObject
    [ ("ac_power_kw", JFloat (ac_power_kw s));
      ("total_energy_kwh", JFloat (total_energy_kwh s));
      ("grid_frequency_hz", JFloat (grid_frequency s));
      ("power_factor", JFloat (power_factor s));
      ("ambient_temp_c", JFloat (ambient_temp s));
      ("irradiance_w_m2", JFloat (irradiance s));
      ("system_status", JInteger (system_status s));
      ("efficiency", JFloat (efficiency s));
      ("current_rms", JFloat (current_rms s));
      ("voltage", JFloat (voltage s));
      ("timestamp", JInteger (timestamp s)) ]%string.

Definition handle_scada_data (g : Globals) : Globals * Response :=
  (g, mkResponse 200 [cors; json_header] "application/json"
        (Json (scada_data_doc (scadaData g)))).

(** GET /scada/guardian *)
Definition morocco_ef : Q := 0.81.

Definition scada_guardian_doc (s : SCADAData) : JsonVariant :=
  let export_mwh := ((total_energy_kwh s * 0.98) / 1000.0)%Q in
  JObject
    [ ("methodology", JString "GCCM001_v4");
      ("reporting_period", JString "2025-09-21T00:00:00Z");
      ("project_info",
        JObject
          [ ("project_name", JString "VerifiedCC ESP32 Demo");
            ("project_id", JString "VCC-ESP32-001");
            ("location", JString "Casablanca, Morocco");
            ("capacity_mw", JFloat 0.001) ]);
      ("monitoring_data",
        JObject
          [ ("gross_generation_mwh", JFloat (total_energy_kwh s / 1000.0));
            ("net_export_mwh", JFloat ((total_energy_kwh s * 0.98) / 1000.0));
            ("capacity_factor", JFloat ((ac_power_kw s / 0.001) * 100));
            ("average_irradiance", JFloat (irradiance s));
            ("current_rms", JFloat (current_rms s)) ]);
      ("calculations",
        JObject
          [ ("baseline_emissions_tco2", JFloat (export_mwh * morocco_ef));
            ("project_emissions_tco2", JInteger 0);
            ("emission_reductions_tco2", JFloat (export_mwh * morocco_ef)) ]) ]%string.

Definition handle_scada_guardian (g : Globals) : Globals * Response :=
  (g, mkResponse 200 [cors; json_header] "application/json"
        (Json (scada_guardian_doc (scadaData g)))).

(** GET / *)
Definition handle_root (g : Globals) : Globals * Response :=
  (g, mkResponse 200 [cors] "text/html" Html).

Definition handle_not_found (g : Globals) : Globals * Response :=
  (g, mkResponse 404 [cors] "text/plain" (Text "SCADA Endpoint Not Found")).

(** The routes registered by setupSCADAServers(), in order. *)
Definition setupSCADAServers
    : list (string * HTTPMethod * (Globals -> Globals * Response)) :=
  [ ("/scada/data"%string, HTTP_GET, handle_scada_data);
    ("/scada/guardian"%string, HTTP_GET, handle_scada_guardian);
    ("/"%string, HTTP_GET, handle_root) ].

Definition HTTPMethod_eqb (a b : HTTPMethod) : bool :=
  match a, b with
  | HTTP_GET, HTTP_GET | HTTP_POST, HTTP_POST
  | HTTP_PUT, HTTP_PUT | HTTP_DELETE, HTTP_DELETE => true
  | _, _ => false
  end.

Fixpoint dispatch (routes : list (string * HTTPMethod * (Globals -> Globals * Response)))
    (rq : Request) : Globals -> Globals * Response :=
  match routes with
  | [] => handle_not_found
  | (uri, m, h) :: rest =>
      if String.eqb uri (req_uri rq) && HTTPMethod_eqb m (req_method rq)
      then h else dispatch rest rq
  end.

(** scadaServer.handleClient(): at most one pending request is served. *)
Definition handleClient (pending : option Request) (g : Globals)
    : Globals * option Response :=
  match pending with
  | None => (g, None)
  | Some rq =>
      let (g', resp) := dispatch setupSCADAServers rq g in (g', Some resp)
  end.

(** ** loop()

    What one iteration reads from outside the globals, in source order.
    A reading that the taken branch does not reach is ignored.
    [mbServer.task()] answers the read requests of Modbus clients from
    the register banks and leaves the globals alone; the 100 raw
    [analogRead]s of the 1 s block feed only [avgADC], which nothing
    uses. *)

Record LoopReads := mkLoopReads {
  ms_calibration : Z;        (* millis() in the calibration test *)
  cal_irms : Q;              (* emon1.calcIrms(1484) while calibrating *)
  pending : option Request;  (* the request scadaServer.handleClient() serves *)
  ms_scada : Z;              (* millis() in the 5 s test *)
  slow : SlowTickReads;      (* the reads of updateSCADAData() *)
  ms_scada_mark : Z;         (* millis() stored in last_scada_update *)
  ms_send : Z;               (* millis() in the sendInterval test *)
  irms : Q;                  (* emon1.calcIrms(1484) *)
  ms_send_mark : Z           (* millis() stored in lastSendTime *)
}.

(** [!calibrated && millis() - calibrationStart < 120000] *)
Definition calibrating (r : LoopReads) (g : Globals) : bool :=
  negb (calibrated g)
  && (ulong_sub (ms_calibration r) (calibrationStart g) <? 120000)%Z.

(** The calibration branch: one more raw reading in the running sum.
    [calibrationReadings] is an [int]; at 200 ms or more per iteration the
    120 s window holds at most 600 increments. *)
Definition calibration_sample (r : LoopReads) (g : Globals) : Globals :=
  set_calibration (calibrationSum g + cal_irms r)%Q
    (calibrationReadings g + 1)%Z g.

(** [if (!calibrated) { noiseFloor = calibrationSum / calibrationReadings;
    calibrated = true; }].  With no reading taken the source divides 0.0
    by 0, which no rational stands for; what is proved of the noise floor
    is proved for at least one reading. *)
Definition finish_calibration (g : Globals) : Globals :=
  if negb (calibrated g) then
    set_noiseFloor (calibrationSum g / inject_Z (calibrationReadings g))%Q true g
  else g.

(** [millis() - last_scada_update > 5000] *)
Definition slow_tick_due (r : LoopReads) (g : Globals) : bool :=
  (5000 <? ulong_sub (ms_scada r) (last_scada_update g))%Z.

Definition slow_tick (r : LoopReads) (g : Globals) : Globals :=
  let g := updateSCADAData (slow r) g in
  let g := updateModbusRegisters g in
  let g := pollModbusDevices g in
  set_last_scada_update (ms_scada_mark r) g.

(** [millis() - lastSendTime > sendInterval] *)
Definition fast_tick_due (r : LoopReads) (g : Globals) : bool :=
  (sendInterval <? ulong_sub (ms_send r) (lastSendTime g))%Z.

(** [Irms = rawCurrent - noiseFloor; if (Irms < 0.01) Irms = 0.0;] *)
Definition corrected_Irms (rawCurrent noiseFloor : Q) : Q :=
  let Irms := (rawCurrent - noiseFloor)%Q in
  if Qlt_bool Irms 0.01 then 0%Q else Irms.

(** [watts = Irms * gridVoltage; if (watts < 1.0) watts = 0.0;] *)
Definition reported_watts (Irms : Q) : Q :=
  let watts := (Irms * gridVoltage)%Q in
  if Qlt_bool watts 1.0 then 0%Q else watts.

Definition fast_tick (r : LoopReads) (g : Globals) : Globals :=
  let rawCurrent := irms r in
  let Irms := corrected_Irms rawCurrent (noiseFloor g) in
  let watts := reported_watts Irms in
  let g :=
    set_scadaData
      (set_measurement Irms gridVoltage (watts / 1000.0)%Q (scadaData g)) g in
  set_lastSendTime (ms_send_mark r) g.

Definition loop (r : LoopReads) (g : Globals) : Globals * option Response :=
  if calibrating r g then (calibration_sample r g, None)
  else
    let g := finish_calibration g in
    let (g, sent) := handleClient (pending r) g in
    let g := if slow_tick_due r g then slow_tick r g else g in
    let g := if fast_tick_due r g then fast_tick r g else g in
    (g, sent).

(** ** Runs of the sketch *)

(** The globals after the iterations [rs], oldest first. *)
Fixpoint run (rs : list LoopReads) (g : Globals) : Globals :=
  match rs with
  | [] => g
  | r :: rest => run rest (fst (loop r g))
  end.

(** The iterations of a run, each with the globals before and after. *)
Fixpoint steps (rs : list LoopReads) (g : Globals)
    : list (Globals * LoopReads * Globals) :=
  match rs with
  | [] => []
  | r :: rest => (g, r, fst (loop r g)) :: steps rest (fst (loop r g))
  end.

(** What the HTTP clients receive during a run. *)
Fixpoint responses (rs : list LoopReads) (g : Globals) : list (option Response) :=
  match rs with
  | [] => []
  | r :: rest => snd (loop r g) :: responses rest (fst (loop r g))
  end.

(** The number of iterations of a run in which [calibrated] turns true. *)
Fixpoint calibrations (rs : list LoopReads) (g : Globals) : nat :=
  match rs with
  | [] => O
  | r :: rest =>
      let g' := fst (loop r g) in
      ((if negb (calibrated g) && calibrated g' then 1 else 0)
       + calibrations rest g')%nat
  end.

(** ** Ticks of a run *)

(** The iteration [r] runs the 5 s block, resp. the 1 s block. *)
Definition slow_tick_fires (r : LoopReads) (g : Globals) : bool :=
  negb (calibrating r g) && slow_tick_due r g.

Definition fast_tick_fires (r : LoopReads) (g : Globals) : bool :=
  negb (calibrating r g) && fast_tick_due r g.

Fixpoint no_slow_tick (rs : list LoopReads) (g : Globals) : bool :=
  match rs with
  | [] => true
  | r :: rest => negb (slow_tick_fires r g) && no_slow_tick rest (fst (loop r g))
  end.

Fixpoint no_fast_tick (rs : list LoopReads) (g : Globals) : bool :=
  match rs with
  | [] => true
  | r :: rest => negb (fast_tick_fires r g) && no_fast_tick rest (fst (loop r g))
  end.

(** The snapshot fields that only updateSCADAData() writes, under their
    keys in the /scada/data document. *)
Definition slow_tick_keys : list string :=
  [ "total_energy_kwh"; "grid_frequency_hz"; "power_factor"; "ambient_temp_c";
    "irradiance_w_m2"; "system_status"; "efficiency"; "timestamp" ]%string.

Definition slow_tick_fields (s : SCADAData) : Q * Q * Q * Q * Q * Z * Q * Z :=
  (total_energy_kwh s, grid_frequency s, power_factor s, ambient_temp s,
   irradiance s, system_status s, efficiency s, timestamp s).

(** The answer to GET /scada/data for the snapshot [s]. *)
Definition scada_data_response (s : SCADAData) : Response :=
  mkResponse 200 [cors; json_header] "application/json"
    (Json (scada_data_doc s)).

(** ** Ranges of the simulated fields and the alarm flags *)

Definition loop_reads_ok (r : LoopReads) : Prop := slow_reads_ok (slow r) = true.

Definition simulated_in_range (s : SCADAData) : Prop :=
  (49.90 <= grid_frequency s <= 50.09)%Q
  /\ (0.945 <= power_factor s <= 0.954)%Q
  /\ (0.940 <= efficiency s <= 0.979)%Q
  /\ (20.0 <= ambient_temp s <= 39.9)%Q.

(** Discrete inputs 1 to 3: high temperature, low power factor, low
    efficiency; 4 is reserved. *)
Definition alarms_clear (mb : ModbusIP) : Prop :=
  ists mb !! 1%Z = Some false /\ ists mb !! 2%Z = Some false
  /\ ists mb !! 3%Z = Some false /\ ists mb !! 4%Z = Some false.

(** Coil 4: Grid OK. *)
Definition grid_ok (mb : ModbusIP) : Prop := coils mb !! 4%Z = Some true.

Definition no_alarm_inv (g : Globals) : Prop :=
  alarms_clear (mbServer g)
  /\ is_Some (coils (mbServer g) !! 4%Z)
  /\ (system_status (scadaData g) = 1%Z ->
      simulated_in_range (scadaData g) /\ grid_ok (mbServer g)).

(** The ten holding registers created by setup(). *)
Definition registers_exist (g : Globals) : Prop :=
  forall a : Z, (30001 <= a <= 30010)%Z -> is_Some (hregs (mbServer g) !! a).

(** Daylight hours of the irradiance model, on the integer seconds of
    [time_of_day]. *)
Definition night (ms : Z) : bool :=
  ((time_of_day ms <? 6 * 3600) || (18 * 3600 <? time_of_day ms))%Z.

(** ** Invariants of the globals *)

(** The snapshot's energy is the accumulator, the measured power is never
    negative, and until the first slow tick (status still 0) no energy
    timestamp has been stored. *)
Definition energy_inv (g : Globals) : Prop :=
  total_energy_kwh (scadaData g) = accumulated_energy g
  /\ (0 <= ac_power_kw (scadaData g))%Q
  /\ (system_status (scadaData g) = 0%Z -> last_energy_update g = 0%Z).

Definition energy_le (g g' : Globals) : Prop :=
  (total_energy_kwh (scadaData g) <= total_energy_kwh (scadaData g'))%Q.

(** While the noise floor is not yet fixed, at least one calibration
    reading has been taken. *)
Definition calibration_inv (g : Globals) : Prop :=
  calibrated g = false -> (1 <= calibrationReadings g)%Z.

(** ** Sample inputs

    An iteration in which every clock reading is [ms], the current sensor
    reads [raw], the random draws are 0 and the simulated irradiance is
    0. *)

Definition slow_reads_at (ms : Z) : SlowTickReads :=
  mkSlowTickReads ms ms 0 0 0 0 0 ms.

Definition reads_at (ms : Z) (raw : Q) (rq : option Request) : LoopReads :=
  mkLoopReads ms raw rq ms (slow_reads_at ms) ms ms raw ms.

Definition GET (uri : string) : option Request := Some (mkRequest HTTP_GET uri).

(** ** The calibration phase of a run *)

(** Every iteration of [rs] takes the calibration branch. *)
Fixpoint all_calibrating (rs : list LoopReads) (g : Globals) : bool :=
  match rs with
  | [] => true
  | r :: rest => calibrating r g && all_calibrating rest (fst (loop r g))
  end.

Definition Qsum (l : list Q) : Q := fold_right Qplus 0%Q l.

(** ** Invariants of the measurement and of the register banks *)

(** The measured triple written by the 1 s block: the current is 0 or at
    least 0.01 A, the voltage is the nominal one once a measurement has
    been stored, and the power is their product in kW. *)
Definition measurement_inv (g : Globals) : Prop :=
  let s := scadaData g in
  ((current_rms s == 0)%Q \/ (0.01 <= current_rms s)%Q)
  /\ ((voltage s == 0)%Q /\ (current_rms s == 0)%Q \/ voltage s = gridVoltage)
  /\ (ac_power_kw s * 1000 == current_rms s * voltage s)%Q.

(** The status of the snapshot, holding register 30010 and coil 1 (System
    Online) agree, and the status is Offline or Online. *)
Definition status_inv (g : Globals) : Prop :=
  (system_status (scadaData g) = 0%Z
   /\ hregs (mbServer g) !! 30010%Z = Some 0%Z
   /\ coils (mbServer g) !! 1%Z = Some false)
  \/ (system_status (scadaData g) = 1%Z
      /\ hregs (mbServer g) !! 30010%Z = Some 1%Z
      /\ coils (mbServer g) !! 1%Z = Some true).

(** Holding registers exist at 30001 to 30010 only and hold 16-bit
    values. *)
Definition hregs_inv (g : Globals) : Prop :=
  forall a v, hregs (mbServer g) !! a = Some v ->
    (30001 <= a <= 30010)%Z /\ (0 <= v < 65536)%Z.

(** What no function of the sketch writes: the input registers, coils 5
    to 8 and discrete inputs 5 to 8. *)
Definition untouched_inv (g : Globals) : Prop :=
  iregs (mbServer g) = iregs (mbServer (setup 0))
  /\ (forall a, (5 <= a <= 8)%Z ->
      coils (mbServer g) !! a = Some false /\ ists (mbServer g) !! a = Some false).

(** ** Text output of the 1 s block *)

(** [String(n)] for a non-negative integer: its decimal digits. *)
Definition String_of_int (n : Z) : string :=
  NilZero.string_of_uint (N.to_uint (Z.to_N n)).

(** The uplink timestamp; the three arguments are the three [millis()]
    readings of the expression. *)
Definition isoTimestamp (ms_h ms_m ms_s : Z) : string :=
  ("2025-01-20T"
   ++ String_of_int ((ms_h / 3600000) mod 24) ++ ":"
   ++ String_of_int ((ms_m / 60000) mod 60) ++ ":"
   ++ String_of_int ((ms_s / 1000) mod 60) ++ ".000Z")%string.

(** The uptime shown on the first LCD row, [hh:mm:ss]. *)
Definition timeStr (ms : Z) : string :=
  let uptimeSeconds := (ms / 1000)%Z in
  let hours := (uptimeSeconds / 3600)%Z in
  let minutes := ((uptimeSeconds mod 3600) / 60)%Z in
  let seconds := (uptimeSeconds mod 60)%Z in
  let timeStr := ""%string in
  let timeStr := if (hours <? 10)%Z then (timeStr ++ "0")%string else timeStr in
  let timeStr := (timeStr ++ (String_of_int hours ++ ":"))%string in
  let timeStr := if (minutes <? 10)%Z then (timeStr ++ "0")%string else timeStr in
  let timeStr := (timeStr ++ (String_of_int minutes ++ ":"))%string in
  let timeStr := if (seconds <? 10)%Z then (timeStr ++ "0")%string else timeStr in
  (timeStr ++ String_of_int seconds)%string.

(** [p] holds of 0, ..., [n - 1]. *)
Fixpoint below (n : nat) (p : Z -> bool) : bool :=
  match n with
  | O => true
  | S k => p (Z.of_nat k) && below k p
  end.

(** ** The status page's script

    Of buildSCADAWebInterface() the model keeps what its script asks of
    the server: the URLs it fetches or opens, and the members of the
    /scada/data answer it reads, those it formats with [toFixed] apart
    from the status it compares with 1. *)

Definition page_urls : list string := [ "/scada/data"; "/scada/guardian" ]%string.

Definition page_number_keys : list string :=
  [ "ac_power_kw"; "current_rms"; "voltage"; "total_energy_kwh";
    "irradiance_w_m2"; "ambient_temp_c"; "grid_frequency_hz"; "power_factor";
    "efficiency" ]%string.

Definition page_status_key : string := "system_status".

(** The registers of the fields that only the 5 s block writes. *)
Definition slow_register_map : list (Z * (SCADAData -> Q) * Z) :=
  [ (30002, total_energy_kwh, 100);
    (30003, grid_frequency, 100);
    (30006, power_factor, 1000);
    (30007, ambient_temp, 10);
    (30008, irradiance, 1);
    (30009, efficiency, 1000) ]%Z.

Definition slow_registers_inv (g : Globals) : Prop :=
  registers_exist g
  /\ forall addr fld S, In (addr, fld, S) slow_register_map ->
       hregs (mbServer g) !! addr = Some (encode (fld (scadaData g)) S).

(** ** Binary floating point

    On the ESP32 [float] is IEEE 754 binary32 and [double] is binary64:
    values of [spec_float], rounded to nearest, ties to even, after every
    operation.  The definitions of this section repeat source lines with
    the conversions that C inserts: an operation with a [double] operand
    is done in binary64, an [int] meeting a [float] becomes a [float], and
    a store into a [float] rounds to binary32. *)

Definition float : Type := spec_float.
Definition double : Type := spec_float.

(** [(float)x] *)
Definition float_of_double (x : double) : float :=
  match x with
  | S754_finite s m e => binary_normalize 24 128 (cond_Zopp s (Z.pos m)) e s
  | _ => x
  end.

(** [(double)x]; no rounding takes place. *)
Definition double_of_float (x : float) : double :=
  match x with
  | S754_finite s m e => binary_normalize 53 1024 (cond_Zopp s (Z.pos m)) e s
  | _ => x
  end.

(** [(double)n] for a [long] or [unsigned long]. *)
Definition double_of_long (n : Z) : double := binary_normalize 53 1024 n 0 false.

(** [(float)n] for an [int]. *)
Definition float_of_int (n : Z) : float := binary_normalize 24 128 n 0 false.

(** The [double] literal of decimal value [n / d], [d] a power of ten: the
    binary64 value nearest to it. *)
Definition double_literal (n d : Z) : double :=
  SFdiv 53 1024 (double_of_long n) (double_of_long d).

(** The rational that a finite value stands for (0 for an infinity or a
    NaN). *)
Definition value_of (x : spec_float) : Q :=
  match x with
  | S754_finite s m e => (inject_Z (cond_Zopp s (Z.pos m)) * 2 ^ e)%Q
  | _ => 0%Q
  end.

Definition is_finite (x : spec_float) : bool :=
  match x with
  | S754_zero _ | S754_finite _ _ _ => true
  | _ => false
  end.

(** Zero or a positive finite value. *)
Definition nonneg_finite (x : spec_float) : bool :=
  match x with
  | S754_zero _ | S754_finite false _ _ => true
  | _ => false
  end.

(** [double Irms = rawCurrent - noiseFloor; if (Irms < 0.01) Irms = 0.0;] *)
Definition corrected_Irms_ieee (rawCurrent : double) (noiseFloor : float) : double :=
  let Irms := SFsub 53 1024 rawCurrent (double_of_float noiseFloor) in
  if SFltb Irms (double_literal 1 100) then S754_zero false else Irms.

(** [scadaData.current_rms = Irms;] *)
Definition current_rms_ieee (rawCurrent : double) (noiseFloor : float) : float :=
  float_of_double (corrected_Irms_ieee rawCurrent noiseFloor).

(** [const float gridVoltage = 220.0;] *)
Definition gridVoltage_ieee : float := float_of_double (double_literal 220 1).

(** [float watts = Irms * gridVoltage;] *)
Definition watts_ieee (Irms : double) : float :=
  float_of_double (SFmul 53 1024 Irms (double_of_float gridVoltage_ieee)).

(** [if (watts < 1.0) watts = 0.0;] *)
Definition reported_watts_ieee (Irms : double) : float :=
  let watts := watts_ieee Irms in
  if SFltb (double_of_float watts) (double_literal 1 1) then S754_zero false
  else watts.

(** [scadaData.ac_power_kw = watts / 1000.0;] *)
Definition ac_power_kw_ieee (rawCurrent : double) (noiseFloor : float) : float :=
  let watts := reported_watts_ieee (corrected_Irms_ieee rawCurrent noiseFloor) in
  float_of_double (SFdiv 53 1024 (double_of_float watts) (double_literal 1000 1)).

(** [(scadaData.ac_power_kw / 0.001) * 100] of the /scada/guardian
    handler. *)
Definition capacity_factor_ieee (ac_power_kw : float) : double :=
  SFmul 53 1024
    (SFdiv 53 1024 (double_of_float ac_power_kw) (double_literal 1 1000))
    (double_of_long 100).



(** [field = base + random(lo, hi) / scale;] with [base] the literal
    [base_n / base_d] and [scale] the literal [scale.0]. *)
Definition simulated_ieee (base_n base_d rnd scale : Z) : float :=
  float_of_double
    (SFadd 53 1024 (double_literal base_n base_d)
       (SFdiv 53 1024 (double_of_long rnd) (double_literal scale 1))).

Definition grid_frequency_ieee (rnd : Z) : float := simulated_ieee 50 1 rnd 100.
Definition power_factor_ieee (rnd : Z) : float := simulated_ieee 95 100 rnd 1000.
Definition ambient_temp_ieee (rnd : Z) : float := simulated_ieee 25 1 rnd 10.
Definition efficiency_ieee (rnd : Z) : float := simulated_ieee 96 100 rnd 1000.

(** [scadaData.grid_frequency > 49.5 && scadaData.grid_frequency < 50.5] *)
Definition grid_ok_ieee (grid_frequency : float) : bool :=
  SFltb (double_literal 495 10) (double_of_float grid_frequency)
  && SFltb (double_of_float grid_frequency) (double_literal 505 10).

(** [scadaData.ambient_temp > 40] *)
Definition high_temp_ieee (ambient_temp : float) : bool :=
  SFltb (float_of_int 40) ambient_temp.

(** [scadaData.power_factor < 0.9] *)
Definition low_power_factor_ieee (power_factor : float) : bool :=
  SFltb (double_of_float power_factor) (double_literal 9 10).

(** [scadaData.efficiency < 0.9] *)
Definition low_efficiency_ieee (efficiency : float) : bool :=
  SFltb (double_of_float efficiency) (double_literal 9 10).

(** [x] is finite and within [margin] of the interval from [lo] to
    [hi]. *)
Definition within (margin lo hi : Q) (x : float) : bool :=
  is_finite x
  && Qle_bool (lo - margin) (value_of x) && Qle_bool (value_of x) (hi + margin).

(** The largest distance between a stored simulated field and the
    decimal it was computed for: half the spacing of binary32 below 64. *)
Definition float_margin : Q := 0.000002.

(** What a slow tick leaves in the four simulated fields, for draws
    [f], [p], [c] and [e] of the four [random] calls: the ranges, up to
    [float_margin], and the outcome of the four tests of
    updateModbusRegisters(). *)
Definition frequency_draw_ok (f : Z) : bool :=
  within float_margin 49.90 50.09 (grid_frequency_ieee f)
  && grid_ok_ieee (grid_frequency_ieee f).

Definition power_factor_draw_ok (p : Z) : bool :=
  within float_margin 0.945 0.954 (power_factor_ieee p)
  && negb (low_power_factor_ieee (power_factor_ieee p)).

Definition temp_draw_ok (c : Z) : bool :=
  within float_margin 20.0 39.9 (ambient_temp_ieee c)
  && negb (high_temp_ieee (ambient_temp_ieee c)).

Definition efficiency_draw_ok (e : Z) : bool :=
  within float_margin 0.940 0.979 (efficiency_ieee e)
  && negb (low_efficiency_ieee (efficiency_ieee e)).

(** [(uint16_t)x] for a finite [x]: truncation toward zero, then the low
    16 bits. *)
Definition uint16_of_float_ieee (x : float) : Z :=
  match x with
  | S754_finite s m e => (cond_Zopp s (Z.shiftl (Z.pos m) e) mod 65536)%Z
  | _ => 0%Z
  end.

(** [(uint16_t)(field * S)]: [S] is an [int], the product a [float];
    [(uint16_t)(field)] where the register map has the scale 1. *)
Definition encode_ieee (value : float) (S : Z) : Z :=
  uint16_of_float_ieee
    (if (S =? 1)%Z then value else SFmul 24 128 value (float_of_int S)).

(** The scales of the register map. *)
Definition is_scale (S : Z) : bool :=
  ((S =? 1) || (S =? 10) || (S =? 100) || (S =? 1000))%Z.

(** * Properties *)

(** ** Comparisons and clock arithmetic *)

Lemma Qlt_bool_iff (x y : Q) : Qlt_bool x y = true <-> (x < y)%Q.
Proof.
  unfold Qlt_bool. rewrite negb_true_iff.
  split; intros H.
  - apply Qnot_le_lt. intros Hle. apply Qle_bool_iff in Hle. congruence.
  - destruct (Qle_bool y x) eqn:E; [|reflexivity].
    apply Qle_bool_iff in E. exfalso. apply (Qlt_not_le _ _ H E).
Qed.

Lemma Qlt_bool_false_iff (x y : Q) : Qlt_bool x y = false <-> (y <= x)%Q.
Proof.
  unfold Qlt_bool. rewrite negb_false_iff. apply Qle_bool_iff.
Qed.

Lemma ulong_sub_nonneg (a b : Z) : (0 <= ulong_sub a b)%Z.
Proof.
  unfold ulong_sub, ULONG_MODULUS. apply Z.mod_pos_bound. lia.
Qed.

Lemma ulong_sub_no_wrap (a b : Z) :
  is_ulong a -> (0 <= b <= a)%Z -> ulong_sub a b = (a - b)%Z.
Proof.
  unfold is_ulong, ulong_sub, ULONG_MODULUS. intros Ha Hb.
  apply Z.mod_small. lia.
Qed.

Lemma hours_elapsed_nonneg (now last : Z) : (0 <= hours_elapsed now last)%Q.
Proof.
  unfold hours_elapsed.
  apply Qle_shift_div_l; [reflexivity|].
  rewrite Qmult_0_l.
  change 0%Q with (inject_Z 0). rewrite <- Zle_Qle. apply ulong_sub_nonneg.
Qed.

Lemma below_spec (n : nat) (p : Z -> bool) :
  below n p = true -> forall z, (0 <= z < Z.of_nat n)%Z -> p z = true.
Proof.
  induction n as [|n IH]; intros H z Hz; [lia|].
  cbn [below] in H. apply andb_true_iff in H. destruct H as [H0 H].
  destruct (Z.eq_dec z (Z.of_nat n)) as [->|Hne]; [exact H0|].
  apply IH; [exact H|lia].
Qed.

(** ** Rounding to binary32 and binary64

    [binary_normalize] shifts the mantissa right until it has [prec]
    bits and rounds to nearest; the result is on the grid of [2^E], [E]
    the exponent of the shifted mantissa, and within half a grid step of
    the exact value. *)

Lemma nonneg_finite_is_finite (x : spec_float) :
  nonneg_finite x = true -> is_finite x = true.
Proof. destruct x as [s|s| |[|] m e]; intros H; try discriminate H; reflexivity. Qed.

Lemma digits2_pos_bounds (p : positive) :
  (2 ^ (Z.pos (digits2_pos p) - 1) <= Z.pos p < 2 ^ Z.pos (digits2_pos p))%Z.
Proof.
  induction p as [p IH|p IH|]; cbn [digits2_pos].
  - rewrite Pos2Z.inj_succ.
    replace (Z.succ (Z.pos (digits2_pos p)) - 1)%Z with (Z.pos (digits2_pos p)) by lia.
    rewrite Z.pow_succ_r by lia.
    replace (Z.pos (digits2_pos p)) with (Z.succ (Z.pos (digits2_pos p) - 1)) at 1 by lia.
    rewrite Z.pow_succ_r by lia. lia.
  - rewrite Pos2Z.inj_succ.
    replace (Z.succ (Z.pos (digits2_pos p)) - 1)%Z with (Z.pos (digits2_pos p)) by lia.
    rewrite Z.pow_succ_r by lia.
    replace (Z.pos (digits2_pos p)) with (Z.succ (Z.pos (digits2_pos p) - 1)) at 1 by lia.
    rewrite Z.pow_succ_r by lia. lia.
  - cbn. lia.
Qed.

Lemma iter_pos_nat {A : Type} (f : A -> A) (p : positive) (x : A) :
  SpecFloat.iter_pos f p x = Nat.iter (Pos.to_nat p) f x.
Proof.
  revert x. induction p as [p IH|p IH|]; intros x; cbn [SpecFloat.iter_pos].
  - rewrite !IH. rewrite Pos2Nat.inj_xI.
    replace (S (2 * Pos.to_nat p)) with (Pos.to_nat p + (Pos.to_nat p + 1))%nat by lia.
    rewrite !Nat.iter_add. reflexivity.
  - rewrite !IH. rewrite Pos2Nat.inj_xO.
    replace (2 * Pos.to_nat p)%nat with (Pos.to_nat p + Pos.to_nat p)%nat by lia.
    rewrite Nat.iter_add. reflexivity.
  - reflexivity.
Qed.

Lemma shr_1_nonneg (q : Z) (r s : bool) :
  (0 <= q)%Z ->
  shr_1 (Build_shr_record q r s) = Build_shr_record (q / 2) (Z.odd q) (r || s).
Proof.
  intros Hq. destruct q as [|[p|p|]|p]; try lia; cbn [shr_1].
  - reflexivity.
  - f_equal. rewrite Pos2Z.inj_xI.
    apply Z.div_unique with 1%Z; lia.
  - f_equal. rewrite Pos2Z.inj_xO.
    apply Z.div_unique with 0%Z; lia.
  - reflexivity.
Qed.

(** After [n + 1] shifts, the record holds the quotient by [2^(n+1)],
    the bit below it and whether anything lies below that bit. *)
Lemma shr_iter_spec (n : nat) (m : Z) :
  (0 <= m)%Z ->
  let mrs := Nat.iter (S n) shr_1 (Build_shr_record m false false) in
  exists low : Z,
    (0 <= low < 2 ^ Z.of_nat n)%Z
    /\ (m = shr_m mrs * 2 ^ (Z.of_nat n + 1)
            + (if shr_r mrs then 2 ^ Z.of_nat n else 0) + low)%Z
    /\ (shr_s mrs = true <-> (0 < low)%Z)
    /\ (0 <= shr_m mrs)%Z.
Proof.
  intros Hm. induction n as [|n IH].
  - cbv zeta.
    change (Nat.iter 1 shr_1 (Build_shr_record m false false))
      with (shr_1 (Build_shr_record m false false)).
    rewrite (shr_1_nonneg m false false Hm).
    cbn [shr_m shr_r shr_s orb]. exists 0%Z.
    change (Z.of_nat 0) with 0%Z. cbn [Z.add Z.pow Z.pow_pos Pos.iter Z.mul Pos.mul].
    split; [lia|]. split.
    + rewrite Zodd_mod. pose proof (Z.mod_pos_bound m 2 ltac:(lia)) as Hb.
      pose proof (Z.div_mod m 2 ltac:(lia)) as Hd.
      destruct (Z.eqb_spec (m mod 2) 1); lia.
    + split; [split; [discriminate|lia]|]. apply Z.div_pos; lia.
  - cbv zeta in IH. destruct IH as (low & Hlow & Hval & Hs & Hq).
    cbv zeta.
    change (Nat.iter (S (S n)) shr_1 (Build_shr_record m false false))
      with (shr_1 (Nat.iter (S n) shr_1 (Build_shr_record m false false))).
    destruct (Nat.iter (S n) shr_1 (Build_shr_record m false false)) as [q r s].
    cbn [shr_m shr_r shr_s] in *.
    rewrite (shr_1_nonneg q r s Hq). cbn [shr_m shr_r shr_s].
    exists ((if r then 2 ^ Z.of_nat n else 0) + low)%Z.
    rewrite Nat2Z.inj_succ.
    assert (Hp : (0 < 2 ^ Z.of_nat n)%Z) by (apply Z.pow_pos_nonneg; lia).
    assert (Hp1 : (2 ^ (Z.of_nat n + 1) = 2 * 2 ^ Z.of_nat n)%Z)
      by (rewrite Z.pow_add_r by lia; lia).
    assert (Hp2 : (2 ^ (Z.succ (Z.of_nat n)) = 2 * 2 ^ Z.of_nat n)%Z)
      by (rewrite Z.pow_succ_r by lia; lia).
    assert (Hp3 : (2 ^ (Z.succ (Z.of_nat n) + 1) = 4 * 2 ^ Z.of_nat n)%Z)
      by (rewrite Z.pow_add_r, Hp2 by lia; lia).
    rewrite Hp2, Hp3. rewrite Hp1 in Hval.
    pose proof (Z.mod_pos_bound q 2 ltac:(lia)) as Hb.
    pose proof (Z.div_mod q 2 ltac:(lia)) as Hd.
    split; [destruct r; lia|]. split.
    + rewrite Zodd_mod. destruct (Z.eqb_spec (q mod 2) 1); destruct r; nia.
    + split; [|apply Z.div_pos; lia].
      destruct r, s; cbn [orb]; split; intros H; try reflexivity; try lia.
Qed.

(** Rounding to nearest after [n] shifts: the result is within half a
    unit, [2^(n-1)], of the shifted value. *)
Lemma shr_round_spec (n : positive) (m : Z) :
  (0 <= m)%Z ->
  let mrs := SpecFloat.iter_pos shr_1 n (Build_shr_record m false false) in
  let m1 := round_nearest_even (shr_m mrs) (loc_of_shr_record mrs) in
  (0 <= m1)%Z
  /\ (m1 * 2 ^ Z.pos n <= m + 2 ^ (Z.pos n - 1))%Z
  /\ (m <= m1 * 2 ^ Z.pos n + 2 ^ (Z.pos n - 1))%Z
  /\ ((m1 - 1) * 2 ^ Z.pos n <= m)%Z.
Proof.
  intros Hm. cbv zeta. rewrite iter_pos_nat.
  destruct (Pos2Nat.is_succ n) as [k Hk]. rewrite Hk.
  assert (Hn : Z.pos n = (Z.of_nat k + 1)%Z) by lia.
  destruct (shr_iter_spec k m Hm) as (low & Hlow & Hval & Hs & Hq).
  cbv zeta in Hval, Hs, Hq.
  destruct (Nat.iter (S k) shr_1 (Build_shr_record m false false)) as [q r s].
  cbn [shr_m shr_r shr_s] in *.
  rewrite Hn. replace (Z.of_nat k + 1 - 1)%Z with (Z.of_nat k) by lia.
  assert (Hp : (0 < 2 ^ Z.of_nat k)%Z) by (apply Z.pow_pos_nonneg; lia).
  assert (Hp1 : (2 ^ (Z.of_nat k + 1) = 2 * 2 ^ Z.of_nat k)%Z)
    by (rewrite Z.pow_add_r by lia; lia).
  rewrite Hp1 in *.
  set (h := (2 ^ Z.of_nat k)%Z) in *. clearbody h.
  destruct r, s; cbn [loc_of_shr_record round_nearest_even].
  - assert (0 < low)%Z by (apply Hs; reflexivity). nia.
  - assert (low = 0)%Z.
    { destruct (Z.eq_dec low 0%Z) as [E|E]; [exact E|].
      assert (Hl : (0 < low)%Z) by lia. apply Hs in Hl. discriminate. }
    destruct (Z.even q); nia.
  - nia.
  - assert (low = 0)%Z.
    { destruct (Z.eq_dec low 0%Z) as [E|E]; [exact E|].
      assert (Hl : (0 < low)%Z) by lia. apply Hs in Hl. discriminate. }
    nia.
Qed.

Lemma shr_fexp_noshift (prec emax m e : Z) (l : location) :
  (fexp prec emax (Zdigits2 m + e) <= e)%Z ->
  shr_fexp prec emax m e l = (shr_record_of_loc m l, e).
Proof.
  intros H. unfold shr_fexp, shr.
  destruct (fexp prec emax (Zdigits2 m + e) - e)%Z eqn:E; try reflexivity. lia.
Qed.

Lemma shr_fexp_shift (prec emax m e : Z) (l : location) :
  (e < fexp prec emax (Zdigits2 m + e))%Z ->
  exists n : positive,
    Z.pos n = (fexp prec emax (Zdigits2 m + e) - e)%Z
    /\ shr_fexp prec emax m e l
       = (SpecFloat.iter_pos shr_1 n (shr_record_of_loc m l),
          fexp prec emax (Zdigits2 m + e)).
Proof.
  intros H. unfold shr_fexp, shr.
  destruct (fexp prec emax (Zdigits2 m + e) - e)%Z as [|n|n] eqn:E; try lia.
  exists n. split; [reflexivity|]. f_equal. lia.
Qed.

Lemma Qpower_2_pos (e : Z) : (0 < 2 ^ e)%Q.
Proof. apply Qpower_0_lt. reflexivity. Qed.

Lemma Qpower_2_plus (a b : Z) : (2 ^ (a + b) == 2 ^ a * 2 ^ b)%Q.
Proof. apply Qpower_plus. discriminate. Qed.

Lemma Qpower_2_Z (n : Z) : (0 <= n)%Z -> (2 ^ n == inject_Z (2 ^ n))%Q.
Proof. intros H. rewrite Zpower_Qpower by exact H. reflexivity. Qed.

Lemma fexp_ge_emin (prec emax x : Z) : (emin prec emax <= fexp prec emax x)%Z.
Proof. unfold fexp. lia. Qed.

(** The last step of [binary_round_aux]: a rounded mantissa of at most
    [2^prec] is stored exactly, with one more shift when it is [2^prec]. *)
Lemma round_finish_spec (prec emax m1 E : Z) :
  (0 < prec)%Z -> (0 <= m1 <= 2 ^ prec)%Z ->
  (emin prec emax <= E)%Z -> (E < emax - prec)%Z ->
  let r :=
    let '(mrs, e) := shr_fexp prec emax m1 E loc_Exact in
    match shr_m mrs with
    | Z0 => S754_zero false
    | Zpos m => if (e <=? emax - prec)%Z then S754_finite false m e
                else S754_infinity false
    | _ => S754_nan
    end in
  nonneg_finite r = true /\ (value_of r == inject_Z m1 * 2 ^ E)%Q.
Proof.
  intros Hprec Hm1 Hemin Hmax.
  destruct m1 as [|p1|p1]; [| |lia].
  - cbv zeta. rewrite shr_fexp_noshift by (cbn [Zdigits2 Z.add]; unfold fexp; lia).
    cbn. split; [reflexivity|]. ring.
  - pose proof (digits2_pos_bounds p1) as Hd.
    set (d1 := Z.pos (digits2_pos p1)) in *.
    assert (Hd1 : (0 < d1)%Z) by (unfold d1; lia).
    destruct (Z.eq_dec (Z.pos p1) (2 ^ prec)%Z) as [Heq|Hne].
    + assert (Hdp : d1 = (prec + 1)%Z).
      { rewrite Heq in Hd. destruct Hd as [Hlo Hhi].
        apply Z.pow_le_mono_r_iff in Hlo; [|lia|lia].
        apply Z.pow_lt_mono_r_iff in Hhi; [|lia|lia]. lia. }
      assert (Hf : fexp prec emax (Zdigits2 (Z.pos p1) + E) = (E + 1)%Z).
      { cbn [Zdigits2]. fold d1. rewrite Hdp. unfold fexp. lia. }
      destruct (shr_fexp_shift prec emax (Z.pos p1) E loc_Exact) as (n & Hn & Hs);
        [rewrite Hf; lia|].
      rewrite Hf in Hn, Hs.
      assert (n = 1%positive) by lia. subst n.
      cbv zeta. rewrite Hs.
      cbn [SpecFloat.iter_pos shr_record_of_loc].
      rewrite shr_1_nonneg by lia. cbn [shr_m].
      assert (Hhalf : (Z.pos p1 / 2 = 2 ^ (prec - 1))%Z).
      { rewrite Heq. replace prec with (Z.succ (prec - 1)) at 1 by lia.
        rewrite Z.pow_succ_r by lia. rewrite Z.mul_comm, Z.div_mul; lia. }
      assert (Hpos : (0 < 2 ^ (prec - 1))%Z) by (apply Z.pow_pos_nonneg; lia).
      rewrite Hhalf.
      destruct (2 ^ (prec - 1))%Z as [|h|h] eqn:Eh; try lia.
      assert (Hle : (E + 1 <=? emax - prec)%Z = true) by (apply Z.leb_le; lia).
      rewrite Hle. split; [reflexivity|].
      assert (Hdbl : Z.pos p1 = (2 * Z.pos h)%Z).
      { rewrite Heq, <- Eh. replace prec with (Z.succ (prec - 1)) at 1 by lia.
        rewrite Z.pow_succ_r by lia. reflexivity. }
      cbn [value_of cond_Zopp]. rewrite Qpower_2_plus, Hdbl, inject_Z_mult.
      change (2 ^ 1)%Q with 2%Q. change (inject_Z 2) with 2%Q. ring.
    + assert (Hlt : (Z.pos p1 < 2 ^ prec)%Z) by lia.
      assert (Hdp : (d1 <= prec)%Z).
      { destruct Hd as [Hlo _].
        assert (H : (2 ^ (d1 - 1) < 2 ^ prec)%Z) by lia.
        apply Z.pow_lt_mono_r_iff in H; lia. }
      cbv zeta. rewrite shr_fexp_noshift
        by (cbn [Zdigits2]; fold d1; unfold fexp; lia).
      cbn [shr_record_of_loc shr_m].
      assert (Hle : (E <=? emax - prec)%Z = true) by (apply Z.leb_le; lia).
      rewrite Hle. split; reflexivity.
Qed.

Lemma binary_round_aux_error (prec emax : Z) (m : positive) (e : Z) :
  (0 < prec)%Z ->
  let E := fexp prec emax (Z.pos (digits2_pos m) + e) in
  (e <= E)%Z -> (E < emax - prec)%Z ->
  let r := binary_round_aux prec emax false (Z.pos m) e loc_Exact in
  nonneg_finite r = true
  /\ (exists m1 : Z, (0 <= m1)%Z /\ (value_of r == inject_Z m1 * 2 ^ E)%Q)
  /\ (Qabs (value_of r - inject_Z (Z.pos m) * 2 ^ e) <= 2 ^ (E - 1))%Q.
Proof.
  intros Hprec E HeE Hmax r.
  assert (Hemin : (emin prec emax <= E)%Z) by apply fexp_ge_emin.
  pose proof (digits2_pos_bounds m) as Hd.
  set (d := Z.pos (digits2_pos m)) in *.
  assert (HEd : (d + e - prec <= E)%Z) by (unfold E, fexp; lia).
  unfold r, binary_round_aux.
  destruct (Z.eq_dec e E) as [Heq|Hne].
  - rewrite shr_fexp_noshift by (cbn [Zdigits2]; fold d; fold E; lia).
    cbn [shr_record_of_loc shr_m loc_of_shr_record round_nearest_even].
    assert (Hm : (0 <= Z.pos m <= 2 ^ prec)%Z).
    { split; [lia|]. destruct Hd as [_ Hhi].
      apply Z.lt_le_incl, Z.lt_le_trans with (2 ^ d)%Z; [exact Hhi|].
      apply Z.pow_le_mono_r; lia. }
    destruct (round_finish_spec prec emax (Z.pos m) e Hprec Hm) as [Hfin Hval];
      [lia|lia|].
    cbv zeta in Hfin, Hval. split; [exact Hfin|].
    split; [exists (Z.pos m); split; [lia|rewrite Hval, Heq; reflexivity]|].
    rewrite Hval.
    assert (Hz : (inject_Z (Z.pos m) * 2 ^ e - inject_Z (Z.pos m) * 2 ^ e == 0)%Q)
      by ring.
    rewrite Hz. cbn [Qabs Z.abs Qnum Qden].
    apply Qlt_le_weak, Qpower_2_pos.
  - destruct (shr_fexp_shift prec emax (Z.pos m) e loc_Exact) as (n & Hn & Hs);
      [cbn [Zdigits2]; fold d; fold E; lia|].
    cbn [Zdigits2] in Hn, Hs. fold d in Hn, Hs. fold E in Hn, Hs.
    rewrite Hs. cbn [shr_record_of_loc].
    destruct (shr_round_spec n (Z.pos m) ltac:(lia)) as (H0 & Hup & Hlo & Hq).
    cbv zeta in H0, Hup, Hlo, Hq.
    set (m1 := round_nearest_even
                 (shr_m (SpecFloat.iter_pos shr_1 n (Build_shr_record (Z.pos m) false false)))
                 (loc_of_shr_record
                    (SpecFloat.iter_pos shr_1 n (Build_shr_record (Z.pos m) false false)))) in *.
    assert (Hpn : (0 < 2 ^ Z.pos n)%Z) by (apply Z.pow_pos_nonneg; lia).
    assert (Hm1 : (0 <= m1 <= 2 ^ prec)%Z).
    { split; [exact H0|].
      assert (Hlt : ((m1 - 1) * 2 ^ Z.pos n < 2 ^ prec * 2 ^ Z.pos n)%Z).
      { apply Z.le_lt_trans with (Z.pos m); [exact Hq|].
        rewrite <- Z.pow_add_r by lia.
        apply Z.lt_le_trans with (2 ^ d)%Z; [apply Hd|].
        apply Z.pow_le_mono_r; lia. }
      apply Z.mul_lt_mono_pos_r in Hlt; lia. }
    destruct (round_finish_spec prec emax m1 E Hprec Hm1 Hemin Hmax) as [Hfin Hval].
    cbv zeta in Hfin, Hval. split; [exact Hfin|].
    split; [exists m1; split; [lia|exact Hval]|].
    rewrite Hval. clear Hfin Hval Hs.
    assert (HE : E = (e + Z.pos n)%Z) by lia.
    assert (Hh : (2 ^ Z.pos n = 2 * 2 ^ (Z.pos n - 1))%Z).
    { replace (Z.pos n) with (Z.succ (Z.pos n - 1)) at 1 by lia.
      rewrite Z.pow_succ_r by lia. reflexivity. }
    assert (HE1 : (2 ^ (E - 1) == 2 ^ e * inject_Z (2 ^ (Z.pos n - 1)))%Q).
    { replace (E - 1)%Z with (e + (Z.pos n - 1))%Z by lia.
      rewrite Qpower_2_plus, (Qpower_2_Z (Z.pos n - 1)) by lia. reflexivity. }
    assert (HEq : (2 ^ E == 2 ^ e * inject_Z (2 ^ Z.pos n))%Q).
    { rewrite HE, Qpower_2_plus, (Qpower_2_Z (Z.pos n)) by lia. reflexivity. }
    rewrite HE1, HEq.
    pose proof (Qpower_2_pos e) as Ht.
    set (t := (2 ^ e)%Q) in *. clearbody t.
    rewrite Hh in *. rewrite !inject_Z_mult. change (inject_Z 2) with 2%Q.
    set (h := (2 ^ (Z.pos n - 1))%Z) in *.
    rewrite Zle_Qle in Hup, Hlo. rewrite !inject_Z_plus, !inject_Z_mult in Hup, Hlo.
    change (inject_Z 2) with 2%Q in Hup, Hlo.
    set (qh := inject_Z h) in *. set (qm := inject_Z (Z.pos m)) in *.
    set (q1 := inject_Z m1) in *. clearbody qh qm q1.
    apply Qabs_Qle_condition. split; nra.
Qed.

Lemma iter_xO_spec (m d : positive) :
  Z.pos (Pos.iter xO m d) = (Z.pos m * 2 ^ Z.pos d)%Z
  /\ Z.pos (digits2_pos (Pos.iter xO m d)) = (Z.pos (digits2_pos m) + Z.pos d)%Z.
Proof.
  induction d as [|d IH] using Pos.peano_ind.
  - cbn [Pos.iter digits2_pos]. split; lia.
  - rewrite Pos.iter_succ. cbn [digits2_pos]. destruct IH as [IH1 IH2].
    rewrite Pos2Z.inj_xO, IH1, !Pos2Z.inj_succ, IH2.
    rewrite Z.pow_succ_r by lia. split; lia.
Qed.

Lemma shl_align_spec (m : positive) (e e' : Z) :
  let mz := fst (shl_align m e e') in
  let ez := snd (shl_align m e e') in
  (inject_Z (Z.pos mz) * 2 ^ ez == inject_Z (Z.pos m) * 2 ^ e)%Q
  /\ (Z.pos (digits2_pos mz) + ez = Z.pos (digits2_pos m) + e)%Z
  /\ ez = Z.min e e'.
Proof.
  unfold shl_align. destruct (e' - e)%Z as [|d|d] eqn:Hd; cbn [fst snd].
  - split; [reflexivity|]. split; lia.
  - split; [reflexivity|]. split; lia.
  - destruct (iter_xO_spec m d) as [Hv Hg]. rewrite Hv, Hg.
    split; [|split; lia].
    assert (He : e = (e' + Z.pos d)%Z) by lia.
    rewrite He, Qpower_2_plus, inject_Z_mult, (Qpower_2_Z (Z.pos d)) by lia.
    ring.
Qed.

(** Rounding a positive integer multiple of a power of two to [prec]
    bits: the result is finite and within half a unit in the last place,
    [2^(E-1)], of the exact value. *)
Lemma binary_normalize_error (prec emax : Z) (m : positive) (e : Z) :
  (0 < prec)%Z ->
  let E := fexp prec emax (Z.pos (digits2_pos m) + e) in
  (E < emax - prec)%Z ->
  let r := binary_normalize prec emax (Z.pos m) e false in
  nonneg_finite r = true
  /\ (exists m1 : Z, (0 <= m1)%Z /\ (value_of r == inject_Z m1 * 2 ^ E)%Q)
  /\ (Qabs (value_of r - inject_Z (Z.pos m) * 2 ^ e) <= 2 ^ (E - 1))%Q.
Proof.
  intros Hprec E Hmax r. unfold r, binary_normalize, binary_round.
  fold E.
  destruct (shl_align_spec m e E) as (Hv & Hd & Hz). cbv zeta in Hv, Hd, Hz.
  destruct (shl_align m e E) as [mz ez]. cbn [fst snd] in Hv, Hd, Hz.
  pose proof (binary_round_aux_error prec emax mz ez Hprec) as H.
  cbv zeta in H. rewrite Hd in H. fold E in H.
  rewrite <- Hv. apply H; lia.
Qed.

Lemma digits_of_bound (M : positive) (ez k : Z) :
  (inject_Z (Z.pos M) * 2 ^ ez < 2 ^ k)%Q ->
  (Z.pos (digits2_pos M) + ez <= k)%Z.
Proof.
  intros H. destruct (digits2_pos_bounds M) as [Hlo _].
  set (d := Z.pos (digits2_pos M)) in *.
  assert (Hd : (0 <= d - 1)%Z) by (unfold d; lia).
  assert (Hp : (2 ^ (d - 1 + ez) < 2 ^ k)%Q).
  { apply Qle_lt_trans with (inject_Z (Z.pos M) * 2 ^ ez)%Q; [|exact H].
    rewrite Qpower_2_plus, (Qpower_2_Z (d - 1)) by exact Hd.
    apply Qmult_le_compat_r; [|apply Qlt_le_weak, Qpower_2_pos].
    rewrite <- Zle_Qle. exact Hlo. }
  apply Qpower_lt_compat_l_inv in Hp; [lia|reflexivity].
Qed.


Lemma float_of_double_error (m : positive) (e k : Z) :
  let x := S754_finite false m e in
  (value_of x < 2 ^ k)%Q -> (-125 <= k < 128)%Z ->
  let r := float_of_double x in
  nonneg_finite r = true
  /\ (Qabs (value_of r - value_of x) <= 2 ^ (k - 25))%Q.
Proof.
  intros x Hlt Hk r. unfold r, x, float_of_double. cbn [cond_Zopp].
  unfold x in Hlt. cbn [value_of cond_Zopp] in Hlt |- *.
  apply digits_of_bound in Hlt.
  destruct (binary_normalize_error 24 128 m e ltac:(lia)) as (Hfin & _ & Herr).
  { unfold fexp, emin. lia. }
  cbv zeta in Hfin, Herr. split; [exact Hfin|].
  eapply Qle_trans; [exact Herr|].
  apply Qpower_le_compat_l; [unfold fexp, emin; lia|discriminate].
Qed.

Lemma Qfloor_unique (q : Q) (z : Z) :
  (inject_Z z <= q < inject_Z z + 1)%Q -> Qfloor q = z.
Proof.
  intros [Hlo Hhi].
  pose proof (Qfloor_le q) as Hf. pose proof (Qlt_floor q) as Hg.
  rewrite inject_Z_plus in Hg. change (inject_Z 1) with 1%Q in Hg.
  assert (H1 : (inject_Z z < inject_Z (Qfloor q) + 1)%Q) by lra.
  assert (H2 : (inject_Z (Qfloor q) < inject_Z z + 1)%Q) by lra.
  change 1%Q with (inject_Z 1) in H1, H2.
  rewrite <- inject_Z_plus, <- Zlt_Qlt in H1, H2. lia.
Qed.

Lemma shiftl_floor (m : positive) (e : Z) :
  Z.shiftl (Z.pos m) e = Qfloor (inject_Z (Z.pos m) * 2 ^ e).
Proof.
  symmetry. apply Qfloor_unique.
  destruct (Z.le_gt_cases 0 e) as [He|He].
  - rewrite Z.shiftl_mul_pow2 by exact He.
    rewrite inject_Z_mult, (Qpower_2_Z e He).
    set (v := (inject_Z (Z.pos m) * inject_Z (2 ^ e))%Q). clearbody v.
    split; lra.
  - rewrite Z.shiftl_div_pow2 by lia.
    set (k := (- e)%Z). assert (Hk : (0 < k)%Z) by (unfold k; lia).
    assert (Hp : (0 < 2 ^ k)%Z) by (apply Z.pow_pos_nonneg; lia).
    pose proof (Z.div_mod (Z.pos m) (2 ^ k) ltac:(lia)) as Hd.
    pose proof (Z.mod_pos_bound (Z.pos m) (2 ^ k) Hp) as Hb.
    set (z := (Z.pos m / 2 ^ k)%Z) in *.
    assert (Hlo : (z * 2 ^ k <= Z.pos m)%Z) by lia.
    assert (Hhi : (Z.pos m < (z + 1) * 2 ^ k)%Z) by lia.
    rewrite Zle_Qle in Hlo. rewrite Zlt_Qlt in Hhi.
    rewrite inject_Z_mult in Hlo. rewrite inject_Z_mult, inject_Z_plus in Hhi.
    change (inject_Z 1) with 1%Q in Hhi.
    assert (Ht : (2 ^ e * inject_Z (2 ^ k) == 1)%Q).
    { rewrite <- (Qpower_2_Z k) by lia. rewrite <- Qpower_2_plus.
      replace (e + k)%Z with 0%Z by (unfold k; lia). reflexivity. }
    pose proof (Qpower_2_pos e) as Hte.
    set (t := (2 ^ e)%Q) in *. set (T := inject_Z (2 ^ k)) in *.
    set (qz := inject_Z z) in *. set (qm := inject_Z (Z.pos m)) in *.
    clearbody t T qz qm.
    assert (HT : (0 < T)%Q) by nra.
    split.
    + assert (H : (qz * T * t <= qm * t)%Q) by nra.
      assert (E1 : (qz * T * t == qz * (t * T))%Q) by ring.
      rewrite Ht in E1. lra.
    + assert (H : (qm * t < (qz + 1) * T * t)%Q)
        by (apply Qmult_lt_compat_r; [exact Hte|exact Hhi]).
      assert (E1 : ((qz + 1) * T * t == (qz + 1) * (t * T))%Q) by ring.
      rewrite Ht in E1. lra.
Qed.

Lemma uint16_of_float_ieee_floor (x : float) :
  nonneg_finite x = true -> (value_of x < 65536)%Q ->
  uint16_of_float_ieee x = Qfloor (value_of x).
Proof.
  intros Hnn Hlt. destruct x as [s|s| |[|] m e]; try discriminate Hnn.
  - reflexivity.
  - cbn [uint16_of_float_ieee value_of cond_Zopp] in *.
    rewrite shiftl_floor. apply Z.mod_small. split.
    + change 0%Z with (Qfloor 0). apply Qfloor_resp_le.
      apply Qmult_le_0_compat; [discriminate|apply Qlt_le_weak, Qpower_2_pos].
    + rewrite Zlt_Qlt. eapply Qle_lt_trans; [apply Qfloor_le|exact Hlt].
Qed.

(** A value [p] that lies between the floor [k] of [x] and [k + 1], and
    reaches [k + 1] only when [x] is above [k], has its own floor less
    than one away from [x]. *)
Lemma floor_within_one (x p : Q) :
  (0 <= x)%Q -> (x <= 65535)%Q ->
  (inject_Z (Qfloor x) <= p)%Q ->
  (p <= inject_Z (Qfloor x) + 1)%Q ->
  ((x <= inject_Z (Qfloor x))%Q -> (p <= inject_Z (Qfloor x))%Q) ->
  (p <= 65535)%Q ->
  (0 <= p)%Q /\ (p < 65536)%Q /\ (-1 < inject_Z (Qfloor p) - x < 1)%Q.
Proof.
  intros H0 H1 Hlo Hhi Htie Hmax.
  set (k := Qfloor x) in *.
  assert (Hk0 : (0 <= k)%Z)
    by (change 0%Z with (Qfloor 0); apply Qfloor_resp_le, H0).
  assert (Hkq : (0 <= inject_Z k)%Q)
    by (change 0%Q with (inject_Z 0); rewrite <- Zle_Qle; exact Hk0).
  assert (Hkx : (inject_Z k <= x)%Q) by apply Qfloor_le.
  assert (Hxk : (x < inject_Z k + 1)%Q).
  { pose proof (Qlt_floor x) as H. rewrite inject_Z_plus in H. exact H. }
  split; [lra|]. split; [lra|].
  set (reg := Qfloor p).
  assert (Hkr : (k <= reg)%Z).
  { unfold reg. rewrite <- (Qfloor_Z k). apply Qfloor_resp_le, Hlo. }
  assert (Hrp : (inject_Z reg <= p)%Q) by apply Qfloor_le.
  rewrite Zle_Qle in Hkr.
  destruct (Qlt_le_dec (inject_Z k) x) as [Hgt|Hle].
  - split; lra.
  - specialize (Htie Hle). split; lra.
Qed.

Lemma digits2_pos_mul_ge (a b : positive) :
  (Z.pos (digits2_pos b) <= Z.pos (digits2_pos (a * b)))%Z.
Proof.
  destruct (digits2_pos_bounds b) as [Hlo _].
  destruct (digits2_pos_bounds (a * b)) as [_ Hhi].
  assert (H : (2 ^ (Z.pos (digits2_pos b) - 1) < 2 ^ Z.pos (digits2_pos (a * b)))%Z).
  { eapply Z.le_lt_trans; [exact Hlo|].
    eapply Z.le_lt_trans; [|exact Hhi]. rewrite Pos2Z.inj_mul. nia. }
  apply Z.pow_lt_mono_r_iff in H; lia.
Qed.

(** A value on the grid of [2^E], [E <= 0], within half a grid step of
    [x], is on the same side of every integer as [x]. *)
Lemma grid_side (m1 j E : Z) (x : Q) :
  (E <= 0)%Z ->
  (Qabs (inject_Z m1 * 2 ^ E - x) <= 2 ^ (E - 1))%Q ->
  ((inject_Z j <= x)%Q -> (inject_Z j <= inject_Z m1 * 2 ^ E)%Q)
  /\ ((x <= inject_Z j)%Q -> (inject_Z m1 * 2 ^ E <= inject_Z j)%Q).
Proof.
  intros HE Herr.
  set (g := (2 ^ (- E))%Z).
  assert (Hg : (0 < g)%Z) by (apply Z.pow_pos_nonneg; lia).
  assert (Ht : (2 ^ E * inject_Z g == 1)%Q).
  { unfold g. rewrite <- (Qpower_2_Z (- E)) by lia. rewrite <- Qpower_2_plus.
    replace (E + - E)%Z with 0%Z by lia. reflexivity. }
  assert (Hh : (2 ^ (E - 1) == 2 ^ E * (1 # 2))%Q).
  { replace (E - 1)%Z with (E + -1)%Z by lia. rewrite Qpower_2_plus. reflexivity. }
  rewrite Hh in Herr. apply Qabs_Qle_condition in Herr. destruct Herr as [Hlo Hhi].
  pose proof (Qpower_2_pos E) as Hte.
  assert (Hgq : (0 < inject_Z g)%Q)
    by (change 0%Q with (inject_Z 0); rewrite <- Zlt_Qlt; exact Hg).
  set (t := (2 ^ E)%Q) in *. clearbody t.
  split; intros H.
  - assert (Hz : (j * g <= m1)%Z).
    { assert (Hq : (inject_Z (j * g) - 1 < inject_Z m1)%Q).
      { rewrite inject_Z_mult.
        set (qm := inject_Z m1) in *. set (qj := inject_Z j) in *.
        set (G := inject_Z g) in *. clearbody qm qj G.
        assert (H1 : ((qj - t * (1 # 2)) * G <= qm * t * G)%Q) by nra.
        assert (E3 : (t * (1 # 2) * G == 1 # 2)%Q)
          by (assert (E4 : (t * (1 # 2) * G == (t * G) * (1 # 2))%Q) by ring;
              rewrite E4, Ht; reflexivity).
        assert (E5 : (qm * t * G == qm)%Q)
          by (assert (E6 : (qm * t * G == qm * (t * G))%Q) by ring;
              rewrite E6, Ht; ring).
        nra. }
      change 1%Q with (inject_Z 1) in Hq.
      unfold Qminus in Hq. rewrite <- inject_Z_opp, <- inject_Z_plus in Hq.
      rewrite <- Zlt_Qlt in Hq. lia. }
    rewrite Zle_Qle, inject_Z_mult in Hz.
    assert (E2 : (inject_Z j == inject_Z j * inject_Z g * t)%Q)
      by (assert (E4 : (inject_Z j * inject_Z g * t == inject_Z j * (t * inject_Z g))%Q)
            by ring; rewrite E4, Ht; ring).
    rewrite E2. apply Qmult_le_compat_r; [exact Hz|apply Qlt_le_weak, Hte].
  - assert (Hz : (m1 <= j * g)%Z).
    { assert (Hq : (inject_Z m1 < inject_Z (j * g) + 1)%Q).
      { rewrite inject_Z_mult.
        set (qm := inject_Z m1) in *. set (qj := inject_Z j) in *.
        set (G := inject_Z g) in *. clearbody qm qj G.
        assert (H1 : (qm * t * G <= (qj + t * (1 # 2)) * G)%Q) by nra.
        assert (E3 : (t * (1 # 2) * G == 1 # 2)%Q)
          by (assert (E4 : (t * (1 # 2) * G == (t * G) * (1 # 2))%Q) by ring;
              rewrite E4, Ht; reflexivity).
        assert (E5 : (qm * t * G == qm)%Q)
          by (assert (E6 : (qm * t * G == qm * (t * G))%Q) by ring;
              rewrite E6, Ht; ring).
        nra. }
      change 1%Q with (inject_Z 1) in Hq.
      rewrite <- inject_Z_plus, <- Zlt_Qlt in Hq. lia. }
    rewrite Zle_Qle, inject_Z_mult in Hz.
    assert (E2 : (inject_Z j == inject_Z j * inject_Z g * t)%Q)
      by (assert (E4 : (inject_Z j * inject_Z g * t == inject_Z j * (t * inject_Z g))%Q)
            by ring; rewrite E4, Ht; ring).
    rewrite E2. apply Qmult_le_compat_r; [exact Hz|apply Qlt_le_weak, Hte].
Qed.

(** The binary32 product of a positive value and a positive value of 24
    significant bits, below [2^k]: finite, on the grid of some [2^E] with
    [E <= k - 24], and within half a grid step of the exact product. *)
Lemma SFmul_pos_error (mx my : positive) (ex ey k : Z) :
  let x := S754_finite false mx ex in
  let y := S754_finite false my ey in
  Z.pos (digits2_pos my) = 24%Z ->
  (value_of x * value_of y < 2 ^ k)%Q ->
  (-125 <= k < 128)%Z ->
  let r := SFmul 24 128 x y in
  nonneg_finite r = true
  /\ exists m1 E : Z,
       (E <= k - 24)%Z
       /\ (value_of r == inject_Z m1 * 2 ^ E)%Q
       /\ (Qabs (value_of r - value_of x * value_of y) <= 2 ^ (E - 1))%Q.
Proof.
  intros x y Hdy Hlt Hk r. unfold r, x, y, SFmul. cbn [xorb].
  assert (Hprod : (inject_Z (Z.pos (mx * my)) * 2 ^ (ex + ey)
                   == value_of x * value_of y)%Q).
  { unfold x, y. cbn [value_of cond_Zopp].
    rewrite Pos2Z.inj_mul, inject_Z_mult, Qpower_2_plus. ring. }
  fold x y in Hlt. rewrite <- Hprod in Hlt. apply digits_of_bound in Hlt.
  pose proof (digits2_pos_mul_ge mx my) as Hge. rewrite Hdy in Hge.
  destruct (binary_round_aux_error 24 128 (mx * my) (ex + ey) ltac:(lia))
    as (Hfin & (m1 & _ & Hgrid) & Herr).
  { unfold fexp, emin. lia. }
  { unfold fexp, emin. lia. }
  cbv zeta in Hfin, Hgrid, Herr. split; [exact Hfin|].
  exists m1, (fexp 24 128 (Z.pos (digits2_pos (mx * my)) + (ex + ey))).
  split; [unfold fexp, emin; lia|]. split; [exact Hgrid|].
  fold x y. rewrite <- Hprod. exact Herr.
Qed.

Lemma within_one_decode (reg v s : Q) :
  (0 < s)%Q -> (-1 < reg - v * s < 1)%Q ->
  (Qabs (reg / s - v) < 1 / s)%Q.
Proof.
  intros Hs [Hlo Hhi].
  assert (E : (reg / s - v == (reg - v * s) / s)%Q) by (field; lra).
  rewrite E. apply Qabs_Qlt_condition. split.
  - apply Qlt_shift_div_l; [exact Hs|].
    assert (E1 : (- (1 / s) * s == - (1))%Q) by (field; lra).
    rewrite E1. lra.
  - apply Qlt_shift_div_r; [exact Hs|].
    assert (E1 : (1 / s * s == 1)%Q) by (field; lra).
    rewrite E1. lra.
Qed.

(** ** The noise clamp of the fast tick *)

Lemma corrected_Irms_below (raw nf : Q) :
  (raw - nf < 0.01)%Q -> corrected_Irms raw nf = 0%Q.
Proof.
  intros H. unfold corrected_Irms.
  apply Qlt_bool_iff in H. rewrite H. reflexivity.
Qed.

Lemma corrected_Irms_above (raw nf : Q) :
  (0.01 <= raw - nf)%Q -> corrected_Irms raw nf = (raw - nf)%Q.
Proof.
  intros H. unfold corrected_Irms.
  apply Qlt_bool_false_iff in H. rewrite H. reflexivity.
Qed.

Lemma corrected_Irms_nonneg (raw nf : Q) : (0 <= corrected_Irms raw nf)%Q.
Proof.
  unfold corrected_Irms.
  destruct (Qlt_bool (raw - nf) 0.01) eqn:E.
  - apply Qle_refl.
  - apply Qlt_bool_false_iff in E. lra.
Qed.

Lemma reported_watts_below (Irms : Q) :
  (Irms * gridVoltage < 1.0)%Q -> reported_watts Irms = 0%Q.
Proof.
  intros H. unfold reported_watts.
  apply Qlt_bool_iff in H. rewrite H. reflexivity.
Qed.

Lemma reported_watts_nonneg (Irms : Q) : (0 <= reported_watts Irms)%Q.
Proof.
  unfold reported_watts.
  destruct (Qlt_bool (Irms * gridVoltage) 1.0) eqn:E.
  - apply Qle_refl.
  - apply Qlt_bool_false_iff in E. lra.
Qed.

Lemma fast_tick_current (r : LoopReads) (g : Globals) :
  current_rms (scadaData (fast_tick r g))
  = corrected_Irms (irms r) (noiseFloor g).
Proof. reflexivity. Qed.

Lemma fast_tick_power (r : LoopReads) (g : Globals) :
  ac_power_kw (scadaData (fast_tick r g))
  = (reported_watts (corrected_Irms (irms r) (noiseFloor g)) / 1000.0)%Q.
Proof. reflexivity. Qed.

(** C3: a corrected current below 0.01 A is reported as exactly 0; and
    the power follows the same rule at 1 W: whatever the current [Irms],
    when [watts = Irms * gridVoltage] is below 1 W the reported power is
    exactly 0, the snapshot storing the reported power of the reported
    current, in kW.  The same holds of the binary values: when the
    [double] difference tests below 0.01 the stored current is +0, and
    when the [float] [watts] tests below 1.0 the reported power is +0 W,
    stored as +0 kW. *)
Theorem sub_threshold_reads_zero (r : LoopReads) (g : Globals) (Irms : Q)
    (rawCurrent Irms_ieee : double) (noiseFloor_ieee : float) :
  let c := (irms r - noiseFloor g)%Q in
  let watts := (Irms * gridVoltage)%Q in
  let s' := scadaData (fast_tick r g) in
  let c_ieee := SFsub 53 1024 rawCurrent (double_of_float noiseFloor_ieee) in
  ((c < 0.01)%Q -> current_rms s' = 0%Q)
  /\ ((watts < 1.0)%Q -> reported_watts Irms = 0%Q)
  /\ ac_power_kw s' = (reported_watts (current_rms s') / 1000.0)%Q
  /\ ((current_rms s' * gridVoltage < 1.0)%Q -> (ac_power_kw s' == 0)%Q)
  /\ (SFltb c_ieee (double_literal 1 100) = true ->
      current_rms_ieee rawCurrent noiseFloor_ieee = S754_zero false
      /\ ac_power_kw_ieee rawCurrent noiseFloor_ieee = S754_zero false)
  /\ (SFltb (double_of_float (watts_ieee Irms_ieee)) (double_literal 1 1) = true ->
      reported_watts_ieee Irms_ieee = S754_zero false).
Proof.
  intros c watts s' c_ieee. unfold s'.
  rewrite fast_tick_current, fast_tick_power.
  split; [apply corrected_Irms_below|].
  split; [apply reported_watts_below|].
  split; [reflexivity|].
  split; [intros H; rewrite (reported_watts_below _ H); reflexivity|].
  split.
  - intros H.
    unfold ac_power_kw_ieee, current_rms_ieee, corrected_Irms_ieee.
    fold c_ieee. rewrite H. split; reflexivity.
  - intros H. unfold reported_watts_ieee. rewrite H. reflexivity.
Qed.

Lemma sub_threshold_reads_zero_witness :
  let r := reads_at 122000 0.045 None in
  let g := set_noiseFloor 0.04 true (setup 0) in
  let floor_004 := float_of_double (double_literal 4 100) in
  current_rms (scadaData (fast_tick r g)) = 0%Q
  /\ (0.004 * gridVoltage == 0.88)%Q
  /\ reported_watts 0.004 = 0%Q
  /\ (ac_power_kw (scadaData (fast_tick r g)) == 0)%Q
  /\ current_rms_ieee (double_literal 45 1000) floor_004 = S754_zero false
  /\ (0.87 < value_of (watts_ieee (double_literal 4 1000)) < 0.89)%Q
  /\ reported_watts_ieee (double_literal 4 1000) = S754_zero false.
Proof.
  intros r g floor_004.
  destruct (sub_threshold_reads_zero r g 0.004
              (double_literal 45 1000) (double_literal 4 1000) floor_004)
    as (Hc & Hw & _ & Hp & Hci & Hwi).
  split; [apply Hc; reflexivity|].
  split; [reflexivity|].
  split; [apply Hw; reflexivity|].
  split; [apply Hp; reflexivity|].
  split; [apply Hci; vm_compute; reflexivity|].
  split; [vm_compute; split; reflexivity|].
  apply Hwi. vm_compute. reflexivity.
Defined.

(** C4, as stated, fails: with a noise floor of 0.04 A (one calibration
    reading of 0.04 A) and a raw reading of 0.05 A the corrected current
    is 0.01 A and the snapshot reports it, not 0. *)
Lemma boundary_current_not_zeroed :
  let g := run [reads_at 2000 0.04 None; reads_at 122000 0.05 None] (setup 0) in
  (noiseFloor g == 0.04)%Q
  /\ (0.05 - noiseFloor g == 0.01)%Q
  /\ ~ (current_rms (scadaData g) == 0)%Q.
Proof.
  vm_compute. repeat split; intros H; discriminate H.
Qed.

(** C4, amended: the clamp [Irms < 0.01] is strict and is applied to the
    difference as computed: a difference that is not below the [double]
    0.01 is stored as it is, a difference below it is stored as 0.  For a
    raw reading of 0.05 A and a noise floor of 0.04 A the noise floor is
    the [float] 0.0399999991, the difference is 0.0100000009 A, just above
    the threshold, and the reported current is that value as a [float],
    0.0100000007 A, not 0; for
    0.06 A and a noise floor of 0.05 A (the [float] 0.0500000007) the
    difference falls below the threshold and 0 is reported.  A difference
    equal to the threshold (0.01 A over a noise floor of 0) is reported
    too, as the [float] nearest to 0.01. *)
Theorem boundary_current_reported (rawCurrent : double) (noiseFloor : float) :
  let Irms := SFsub 53 1024 rawCurrent (double_of_float noiseFloor) in
  let floor_004 := float_of_double (double_literal 4 100) in
  let floor_005 := float_of_double (double_literal 5 100) in
  (SFltb Irms (double_literal 1 100) = false ->
   current_rms_ieee rawCurrent noiseFloor = float_of_double Irms)
  /\ (SFltb Irms (double_literal 1 100) = true ->
      current_rms_ieee rawCurrent noiseFloor = S754_zero false)
  /\ (value_of floor_004 == 10737418 # 268435456)%Q
  /\ SFsub 53 1024 (double_literal 5 100) (double_of_float floor_004)
     = S754_finite false 5764608038430312 (-59)
  /\ (0.0100000008 < value_of (S754_finite false 5764608038430312 (-59))
      < 0.0100000009)%Q
  /\ current_rms_ieee (double_literal 5 100) floor_004
     = S754_finite false 10737419 (-30)
  /\ (0.0100000007 < value_of (S754_finite false 10737419 (-30))
      < 0.0100000008)%Q
  /\ current_rms_ieee (double_literal 6 100) floor_005 = S754_zero false
  /\ current_rms_ieee (double_literal 1 100) (S754_zero false)
     = float_of_double (double_literal 1 100)
  /\ float_of_double (double_literal 1 100) = S754_finite false 10737418 (-30).
Proof.
  intros Irms floor_004 floor_005.
  split; [|split].
  - intros H. unfold current_rms_ieee, corrected_Irms_ieee.
    fold Irms. rewrite H. reflexivity.
  - intros H. unfold current_rms_ieee, corrected_Irms_ieee.
    fold Irms. rewrite H. reflexivity.
  - vm_compute. repeat split; reflexivity.
Qed.

Lemma boundary_current_reported_witness :
  SFltb (SFsub 53 1024 (double_literal 5 100)
           (double_of_float (float_of_double (double_literal 4 100))))
    (double_literal 1 100) = false
  /\ current_rms_ieee (double_literal 5 100)
       (float_of_double (double_literal 4 100))
     = float_of_double
         (SFsub 53 1024 (double_literal 5 100)
            (double_of_float (float_of_double (double_literal 4 100)))).
Proof.
  assert (H : SFltb (SFsub 53 1024 (double_literal 5 100)
                       (double_of_float (float_of_double (double_literal 4 100))))
                (double_literal 1 100) = false)
    by (vm_compute; reflexivity).
  split; [exact H|].
  destruct (boundary_current_reported (double_literal 5 100)
              (float_of_double (double_literal 4 100))) as (Hkept & _).
  exact (Hkept H).
Defined.

(** ** The structure of one loop iteration *)

Lemma dispatch_globals (rq : Request) (g : Globals) :
  fst (dispatch setupSCADAServers rq g) = g.
Proof.
  unfold setupSCADAServers. cbn [dispatch].
  repeat (match goal with |- context [if ?b then _ else _] => destruct b end;
          [reflexivity|]).
  reflexivity.
Qed.

Lemma handleClient_globals (p : option Request) (g : Globals) :
  fst (handleClient p g) = g.
Proof.
  destruct p as [rq|]; [|reflexivity].
  unfold handleClient.
  pose proof (dispatch_globals rq g) as H.
  destruct (dispatch setupSCADAServers rq g) as [g' resp].
  exact H.
Qed.

Lemma loop_globals (r : LoopReads) (g : Globals) :
  fst (loop r g)
  = if calibrating r g then calibration_sample r g
    else
      let g1 := finish_calibration g in
      let g2 := if slow_tick_due r g1 then slow_tick r g1 else g1 in
      if fast_tick_due r g2 then fast_tick r g2 else g2.
Proof.
  unfold loop. destruct (calibrating r g); [reflexivity|].
  pose proof (handleClient_globals (pending r) (finish_calibration g)) as H.
  destruct (handleClient (pending r) (finish_calibration g)) as [g' sent].
  cbn [fst] in *. subst g'. reflexivity.
Qed.

Lemma run_app (rs1 rs2 : list LoopReads) (g : Globals) :
  run (rs1 ++ rs2) g = run rs2 (run rs1 g).
Proof.
  revert g. induction rs1 as [|r rs1 IH]; intros g; [reflexivity|].
  cbn [app run]. apply IH.
Qed.

(** An invariant [P] and a preorder [R] that every branch of the loop
    body respects, for reads satisfying [ok], hold along every iteration
    and every run with such reads. *)
Section Preservation.
Variable ok : LoopReads -> Prop.
Variable P : Globals -> Prop.
Variable R : Globals -> Globals -> Prop.
Hypothesis R_refl : forall g, R g g.
Hypothesis R_trans : forall a b c, R a b -> R b c -> R a c.
Hypothesis calibration_sample_ok :
  forall r g, P g -> P (calibration_sample r g) /\ R g (calibration_sample r g).
Hypothesis finish_calibration_ok :
  forall g, P g -> P (finish_calibration g) /\ R g (finish_calibration g).
Hypothesis slow_tick_ok :
  forall r g, ok r -> P g -> P (slow_tick r g) /\ R g (slow_tick r g).
Hypothesis fast_tick_ok :
  forall r g, P g -> P (fast_tick r g) /\ R g (fast_tick r g).

Lemma loop_preserves (r : LoopReads) (g : Globals) :
  ok r -> P g -> P (fst (loop r g)) /\ R g (fst (loop r g)).
Proof using All.
  intros Hr Hg. rewrite loop_globals.
  destruct (calibrating r g); [apply calibration_sample_ok, Hg|].
  destruct (finish_calibration_ok g Hg) as [H1 R1].
  cbn zeta.
  assert (P (if slow_tick_due r (finish_calibration g)
             then slow_tick r (finish_calibration g)
             else finish_calibration g)
          /\ R g (if slow_tick_due r (finish_calibration g)
                  then slow_tick r (finish_calibration g)
                  else finish_calibration g)) as [H2 R2].
  { destruct (slow_tick_due r (finish_calibration g)); [|auto].
    destruct (slow_tick_ok r _ Hr H1) as [H2 R2]. eauto. }
  match goal with |- context [fast_tick_due r ?g2] =>
    destruct (fast_tick_due r g2); [|auto];
    destruct (fast_tick_ok r g2 H2) as [H3 R3]; eauto
  end.
Qed.

Lemma run_preserves (rs : list LoopReads) (g : Globals) :
  Forall ok rs -> P g -> P (run rs g) /\ R g (run rs g).
Proof using All.
  revert g. induction rs as [|r rs IH]; intros g Hrs Hg; [cbn; auto|].
  inversion Hrs as [|? ? Hr Hrest]; subst.
  cbn [run]. destruct (loop_preserves r g Hr Hg) as [H1 R1].
  destruct (IH _ Hrest H1) as [H2 R2]. eauto.
Qed.
End Preservation.

(** ** The energy accumulator *)

Lemma energy_le_refl (g : Globals) : energy_le g g.
Proof. apply Qle_refl. Qed.

Lemma energy_le_trans (a b c : Globals) :
  energy_le a b -> energy_le b c -> energy_le a c.
Proof. apply Qle_trans. Qed.

Lemma updateSCADAData_measured (t : SlowTickReads) (g : Globals) :
  ac_power_kw (scadaData (updateSCADAData t g)) = ac_power_kw (scadaData g)
  /\ current_rms (scadaData (updateSCADAData t g)) = current_rms (scadaData g)
  /\ voltage (scadaData (updateSCADAData t g)) = voltage (scadaData g).
Proof.
  unfold updateSCADAData, accumulate_energy.
  destruct (0 <? last_energy_update g)%Z; repeat split.
Qed.

Lemma updateSCADAData_first (t : SlowTickReads) (g : Globals) :
  last_energy_update g = 0%Z ->
  total_energy_kwh (scadaData (updateSCADAData t g))
  = total_energy_kwh (scadaData g)
  /\ accumulated_energy (updateSCADAData t g) = accumulated_energy g.
Proof.
  intros H. unfold updateSCADAData, accumulate_energy. rewrite H.
  split; reflexivity.
Qed.

Lemma updateSCADAData_later (t : SlowTickReads) (g : Globals) :
  (0 < last_energy_update g)%Z ->
  let acc := (accumulated_energy g
              + ac_power_kw (scadaData g)
                * hours_elapsed (ms_energy t) (last_energy_update g))%Q in
  total_energy_kwh (scadaData (updateSCADAData t g)) = acc
  /\ accumulated_energy (updateSCADAData t g) = acc.
Proof.
  intros H acc. unfold updateSCADAData, accumulate_energy.
  apply Z.ltb_lt in H. rewrite H. split; reflexivity.
Qed.

Lemma updateSCADAData_status (t : SlowTickReads) (g : Globals) :
  system_status (scadaData (updateSCADAData t g)) = 1%Z.
Proof. reflexivity. Qed.

Lemma updateSCADAData_energy (t : SlowTickReads) (g : Globals) :
  energy_inv g ->
  energy_inv (updateSCADAData t g) /\ energy_le g (updateSCADAData t g).
Proof.
  intros (Htot & Hpow & Hfirst).
  destruct (updateSCADAData_measured t g) as (Hp & _ & _).
  destruct (Z.ltb_spec 0 (last_energy_update g)) as [Hlt|Hle].
  - destruct (updateSCADAData_later t g Hlt) as [Ht Ha].
    split.
    + split; [congruence|]. split; [rewrite Hp; exact Hpow|].
      rewrite updateSCADAData_status. discriminate.
    + unfold energy_le. rewrite Ht, Htot.
      pose proof (hours_elapsed_nonneg (ms_energy t) (last_energy_update g)).
      nra.
  - unfold updateSCADAData, accumulate_energy.
    apply Z.ltb_ge in Hle. rewrite Hle.
    split.
    + split; [exact Htot|]. split; [exact Hpow|].
      cbn. discriminate.
    + unfold energy_le. cbn. apply Qle_refl.
Qed.

Lemma slow_tick_scadaData (r : LoopReads) (g : Globals) :
  scadaData (slow_tick r g) = scadaData (updateSCADAData (slow r) g)
  /\ accumulated_energy (slow_tick r g)
     = accumulated_energy (updateSCADAData (slow r) g)
  /\ last_energy_update (slow_tick r g)
     = last_energy_update (updateSCADAData (slow r) g).
Proof. repeat split. Qed.

Lemma slow_tick_energy (r : LoopReads) (g : Globals) :
  energy_inv g -> energy_inv (slow_tick r g) /\ energy_le g (slow_tick r g).
Proof.
  intros Hg. destruct (updateSCADAData_energy (slow r) g Hg) as [Hi Hl].
  destruct (slow_tick_scadaData r g) as (Hs & Ha & Hu).
  unfold energy_inv, energy_le in *. rewrite Hs, Ha, Hu. auto.
Qed.

Lemma fast_tick_energy (r : LoopReads) (g : Globals) :
  energy_inv g -> energy_inv (fast_tick r g) /\ energy_le g (fast_tick r g).
Proof.
  intros (Htot & Hpow & Hfirst). split; [|apply Qle_refl].
  split; [exact Htot|]. split; [|exact Hfirst].
  rewrite fast_tick_power.
  pose proof (reported_watts_nonneg (corrected_Irms (irms r) (noiseFloor g))).
  apply Qle_shift_div_l; [reflexivity|]. lra.
Qed.

Lemma calibration_sample_energy (r : LoopReads) (g : Globals) :
  energy_inv g ->
  energy_inv (calibration_sample r g) /\ energy_le g (calibration_sample r g).
Proof. intros Hg. split; [exact Hg | apply Qle_refl]. Qed.

Lemma finish_calibration_energy (g : Globals) :
  energy_inv g ->
  energy_inv (finish_calibration g) /\ energy_le g (finish_calibration g).
Proof.
  intros Hg. unfold finish_calibration.
  destruct (negb (calibrated g)); (split; [exact Hg | apply Qle_refl]).
Qed.

Lemma setup_energy (t0 : Z) : energy_inv (setup t0).
Proof.
  split; [reflexivity|]. split; [apply Qle_refl | reflexivity].
Qed.

Lemma run_energy (rs : list LoopReads) (g : Globals) :
  energy_inv g -> energy_inv (run rs g) /\ energy_le g (run rs g).
Proof.
  apply (run_preserves (fun _ => True) energy_inv energy_le
           energy_le_refl energy_le_trans
           calibration_sample_energy finish_calibration_energy
           (fun r g _ => slow_tick_energy r g) fast_tick_energy).
  apply Forall_forall. trivial.
Qed.





(** C2: along every run from boot the energy total never decreases: the
    total in any later state is at least the total in any earlier one.
    The measured power is never negative in a reachable state, so
    non-negative power does not have to be assumed. *)
Theorem total_energy_never_decreases (t0 : Z) (rs1 rs2 : list LoopReads) :
  (0 <= ac_power_kw (scadaData (run rs1 (setup t0))))%Q
  /\ (total_energy_kwh (scadaData (run rs1 (setup t0)))
      <= total_energy_kwh (scadaData (run (rs1 ++ rs2) (setup t0))))%Q.
Proof.
  destruct (run_energy rs1 (setup t0) (setup_energy t0)) as [Hinv _].
  split; [apply Hinv|].
  rewrite run_app.
  apply (run_energy rs2 _ Hinv).
Qed.

(** ** The calibration phase *)

Lemma finish_calibration_calibrated (g : Globals) :
  calibrated (finish_calibration g) = true.
Proof.
  unfold finish_calibration. destruct (calibrated g) eqn:E; [exact E|reflexivity].
Qed.

Lemma finish_calibration_noiseFloor (g : Globals) :
  noiseFloor (finish_calibration g)
  = if calibrated g then noiseFloor g
    else (calibrationSum g / inject_Z (calibrationReadings g))%Q.
Proof.
  unfold finish_calibration. destruct (calibrated g); reflexivity.
Qed.

Lemma finish_calibration_start (g : Globals) :
  calibrationStart (finish_calibration g) = calibrationStart g.
Proof.
  unfold finish_calibration. destruct (calibrated g); reflexivity.
Qed.

Lemma slow_tick_calibration (r : LoopReads) (g : Globals) :
  calibrationStart (slow_tick r g) = calibrationStart g
  /\ calibrated (slow_tick r g) = calibrated g
  /\ noiseFloor (slow_tick r g) = noiseFloor g.
Proof.
  unfold slow_tick, updateSCADAData, accumulate_energy.
  destruct (0 <? last_energy_update g)%Z; repeat split.
Qed.

Lemma fast_tick_calibration (r : LoopReads) (g : Globals) :
  calibrationStart (fast_tick r g) = calibrationStart g
  /\ calibrated (fast_tick r g) = calibrated g
  /\ noiseFloor (fast_tick r g) = noiseFloor g.
Proof. repeat split. Qed.

(** The calibration globals after one iteration. *)
Lemma loop_calibration (r : LoopReads) (g : Globals) :
  let g' := fst (loop r g) in
  calibrationStart g' = calibrationStart g
  /\ (calibrating r g = true ->
      calibrated g' = calibrated g
      /\ noiseFloor g' = noiseFloor g
      /\ calibrationReadings g' = (calibrationReadings g + 1)%Z
      /\ calibrationSum g' = (calibrationSum g + cal_irms r)%Q)
  /\ (calibrating r g = false ->
      calibrated g' = true
      /\ noiseFloor g' = noiseFloor (finish_calibration g)).
Proof.
  intros g'. unfold g'. rewrite loop_globals.
  destruct (calibrating r g).
  - split; [reflexivity|]. split; [|discriminate].
    intros _. repeat split.
  - cbn zeta.
    pose proof (finish_calibration_calibrated g) as Hc.
    pose proof (finish_calibration_start g) as Hs.
    set (g1 := finish_calibration g) in *.
    assert (H2 : forall g2,
               g2 = (if slow_tick_due r g1 then slow_tick r g1 else g1) ->
               calibrationStart g2 = calibrationStart g
               /\ calibrated g2 = true /\ noiseFloor g2 = noiseFloor g1).
    { intros g2 ->. destruct (slow_tick_due r g1); [|auto].
      destruct (slow_tick_calibration r g1) as (-> & -> & ->). auto. }
    specialize (H2 _ eq_refl).
    set (g2 := if slow_tick_due r g1 then slow_tick r g1 else g1) in *.
    assert (H3 : calibrationStart
                   (if fast_tick_due r g2 then fast_tick r g2 else g2)
                 = calibrationStart g
                 /\ calibrated (if fast_tick_due r g2 then fast_tick r g2 else g2)
                    = true
                 /\ noiseFloor (if fast_tick_due r g2 then fast_tick r g2 else g2)
                    = noiseFloor g1).
    { destruct (fast_tick_due r g2); [|exact H2].
      destruct (fast_tick_calibration r g2) as (-> & -> & ->). exact H2. }
    destruct H3 as (Ha & Hb & Hd).
    split; [exact Ha|]. split; [discriminate|]. intros _. split; assumption.
Qed.

Lemma loop_calibrated_stays (r : LoopReads) (g : Globals) :
  calibrated g = true ->
  calibrated (fst (loop r g)) = true
  /\ noiseFloor (fst (loop r g)) = noiseFloor g.
Proof.
  intros Hc.
  assert (Hn : calibrating r g = false)
    by (unfold calibrating; rewrite Hc; reflexivity).
  destruct (loop_calibration r g) as (_ & _ & H).
  destruct (H Hn) as [H1 H2]. split; [exact H1|].
  rewrite H2, finish_calibration_noiseFloor, Hc. reflexivity.
Qed.

Lemma loop_turns_calibrated (r : LoopReads) (g : Globals) :
  calibrated g = false -> calibrated (fst (loop r g)) = true ->
  (120000 <= ulong_sub (ms_calibration r) (calibrationStart g))%Z
  /\ noiseFloor (fst (loop r g))
     = (calibrationSum g / inject_Z (calibrationReadings g))%Q.
Proof.
  intros Hc Hc'.
  destruct (loop_calibration r g) as (_ & Hin & Hout).
  destruct (calibrating r g) eqn:E.
  - destruct (Hin eq_refl) as [H _]. congruence.
  - destruct (Hout eq_refl) as [_ H]. split.
    + unfold calibrating in E. rewrite Hc in E. cbn in E.
      apply Z.ltb_ge in E. exact E.
    + rewrite H, finish_calibration_noiseFloor, Hc. reflexivity.
Qed.

Lemma loop_calibration_inv (r : LoopReads) (g : Globals) :
  calibration_inv g -> calibration_inv (fst (loop r g)).
Proof.
  intros Hg Hc'.
  destruct (loop_calibration r g) as (_ & Hin & Hout).
  destruct (calibrating r g) eqn:E.
  - destruct (Hin eq_refl) as (H1 & _ & H2 & _).
    rewrite H2. rewrite H1 in Hc'. specialize (Hg Hc'). lia.
  - destruct (Hout eq_refl) as [H _]. congruence.
Qed.

Lemma run_calibration_inv (rs : list LoopReads) (g : Globals) :
  calibration_inv g -> calibration_inv (run rs g).
Proof.
  revert g. induction rs as [|r rs IH]; intros g Hg; [exact Hg|].
  cbn [run]. apply IH, loop_calibration_inv, Hg.
Qed.

Lemma steps_reachable (rs : list LoopReads) (g0 g g' : Globals) (r : LoopReads) :
  In (g, r, g') (steps rs g0) ->
  g' = fst (loop r g) /\ exists rs1, g = run rs1 g0.
Proof.
  revert g0. induction rs as [|r0 rs IH]; intros g0 Hin; [destruct Hin|].
  cbn [steps] in Hin. destruct Hin as [Heq|Hin].
  - inversion Heq; subst. split; [reflexivity|]. exists []. reflexivity.
  - destruct (IH _ Hin) as [H1 [rs1 H2]]. split; [exact H1|].
    exists (r0 :: rs1). exact H2.
Qed.

Lemma calibrations_when_calibrated (rs : list LoopReads) (g : Globals) :
  calibrated g = true -> calibrations rs g = O.
Proof.
  revert g. induction rs as [|r rs IH]; intros g Hc; [reflexivity|].
  cbn [calibrations]. cbn zeta. rewrite Hc. cbn [negb andb].
  apply IH. apply (loop_calibrated_stays r g Hc).
Qed.

Lemma calibrations_at_most_once (rs : list LoopReads) (g : Globals) :
  (calibrations rs g <= 1)%nat
  /\ (calibrated g = false -> calibrated (run rs g) = true ->
      calibrations rs g = 1%nat).
Proof.
  revert g. induction rs as [|r rs IH]; intros g.
  - cbn. split; [lia|congruence].
  - cbn [calibrations run]. cbn zeta.
    destruct (calibrated g) eqn:Hc.
    + destruct (loop_calibrated_stays r g Hc) as [Hc' _].
      rewrite (calibrations_when_calibrated rs _ Hc').
      cbn. split; [lia|discriminate].
    + destruct (calibrated (fst (loop r g))) eqn:Hc'.
      * rewrite (calibrations_when_calibrated rs _ Hc').
        cbn. split; [lia|reflexivity].
      * destruct (IH (fst (loop r g))) as [H1 H2].
        cbn [negb andb]. cbn [Nat.add]. split; [exact H1|].
        intros _ Hr. apply H2; [exact Hc'|exact Hr].
Qed.

Lemma run_calibrationStart (rs : list LoopReads) (g : Globals) :
  calibrationStart (run rs g) = calibrationStart g.
Proof.
  revert g. induction rs as [|r rs IH]; intros g; [reflexivity|].
  cbn [run]. rewrite IH. apply (loop_calibration r g).
Qed.

Lemma first_iteration_calibrates (t0 : Z) (r0 : LoopReads) :
  calibrating r0 (setup t0) = true ->
  calibrated (fst (loop r0 (setup t0))) = false
  /\ calibration_inv (fst (loop r0 (setup t0)))
  /\ calibrationStart (fst (loop r0 (setup t0))) = t0.
Proof.
  intros H.
  destruct (loop_calibration r0 (setup t0)) as (Hs & Hin & _).
  destruct (Hin H) as (Hc & _ & Hn & _).
  split; [rewrite Hc; reflexivity|].
  split; [|rewrite Hs; reflexivity].
  intros _. rewrite Hn. cbn. lia.
Qed.

(** C5: in a run from boot whose first iteration starts inside the 120 s
    window (setup returns about 2 s after taking [calibrationStart]),
    [calibrated] turns true in at most one iteration, and in exactly one
    once the run has left the calibration phase; that iteration finds the
    window elapsed and at least one reading taken, and sets [noiseFloor]
    to [calibrationSum / calibrationReadings]; every iteration that
    starts with [calibrated] true leaves [calibrated] and [noiseFloor] as
    they are. *)
Theorem calibration_happens_once (t0 : Z) (r0 : LoopReads) (rs : list LoopReads) :
  calibrating r0 (setup t0) = true ->
  (calibrations (r0 :: rs) (setup t0) <= 1)%nat
  /\ (calibrated (run (r0 :: rs) (setup t0)) = true ->
      calibrations (r0 :: rs) (setup t0) = 1%nat)
  /\ (forall g r g', In (g, r, g') (steps (r0 :: rs) (setup t0)) ->
      (calibrated g = false -> calibrated g' = true ->
         (120000 <= ulong_sub (ms_calibration r) t0)%Z
         /\ (0 < calibrationReadings g)%Z
         /\ noiseFloor g'
            = (calibrationSum g / inject_Z (calibrationReadings g))%Q)
      /\ (calibrated g = true ->
          calibrated g' = true /\ noiseFloor g' = noiseFloor g)).
Proof.
  intros Hfirst.
  destruct (calibrations_at_most_once (r0 :: rs) (setup t0)) as [Hle Hone].
  split; [exact Hle|]. split; [apply Hone; reflexivity|].
  intros g r g' Hin.
  destruct (first_iteration_calibrates t0 r0 Hfirst) as (Hc1 & Hinv1 & Hs1).
  cbn [steps] in Hin. destruct Hin as [Heq|Hin].
  - inversion Heq; subst. split; [congruence|discriminate].
  - destruct (steps_reachable _ _ _ _ _ Hin) as [-> [rs1 ->]].
    split.
    + intros Hc Hc'.
      destruct (loop_turns_calibrated r _ Hc Hc') as [Hw Hnf].
      rewrite run_calibrationStart, Hs1 in Hw.
      split; [exact Hw|]. split; [|exact Hnf].
      pose proof (run_calibration_inv rs1 _ Hinv1 Hc). lia.
    + apply loop_calibrated_stays.
Qed.

Lemma calibration_happens_once_witness :
  let r0 := reads_at 2000 0.04 None in
  let rs := [reads_at 2200 0.06 None; reads_at 122000 0.05 None;
             reads_at 123000 0.05 None] in
  calibrations (r0 :: rs) (setup 0) = 1%nat
  /\ (noiseFloor (run (r0 :: rs) (setup 0)) == 0.05)%Q.
Proof.
  intros r0 rs.
  destruct (calibration_happens_once 0 r0 rs eq_refl) as (_ & Hone & Hsteps).
  split; [apply Hone; reflexivity|].
  set (g2 := run [r0; reads_at 2200 0.06 None] (setup 0)).
  set (g3 := fst (loop (reads_at 122000 0.05 None) g2)).
  set (g4 := fst (loop (reads_at 123000 0.05 None) g3)).
  assert (H3 : In (g2, reads_at 122000 0.05 None, g3) (steps (r0 :: rs) (setup 0)))
    by (right; right; left; reflexivity).
  assert (H4 : In (g3, reads_at 123000 0.05 None, g4) (steps (r0 :: rs) (setup 0)))
    by (right; right; right; left; reflexivity).
  destruct (Hsteps _ _ _ H3) as [Hturn _].
  destruct (Hsteps _ _ _ H4) as [_ Hstay].
  destruct (Hturn eq_refl eq_refl) as (_ & _ & Hnf).
  destruct (Hstay eq_refl) as [_ Hkeep].
  change (run (r0 :: rs) (setup 0)) with g4.
  rewrite Hkeep, Hnf. reflexivity.
Defined.

(** ** The irradiance model *)

Lemma random_range_spec (lo hi r : Z) :
  random_range lo hi r = true <-> (lo <= r < hi)%Z.
Proof.
  unfold random_range. rewrite andb_true_iff, Z.leb_le, Z.ltb_lt. tauto.
Qed.

Lemma time_of_day_no_wrap (ms : Z) :
  is_ulong ms -> time_of_day ms = ((ms / 1000 + offsetSeconds) mod 86400)%Z.
Proof.
  unfold is_ulong, time_of_day, offsetSeconds, ULONG_MODULUS. intros H.
  rewrite (Z.mod_small (ms / 1000 + 8 * 3600)); [reflexivity|].
  assert (0 <= ms / 1000 < 4294968)%Z; [|lia].
  split; [apply Z.div_pos; lia|].
  apply Z.div_lt_upper_bound; lia.
Qed.

Lemma hour_of_spec (ms : Z) : is_ulong ms -> hour_of ms = spec_hourOfDay ms.
Proof.
  intros H. unfold hour_of, spec_hourOfDay.
  rewrite (time_of_day_no_wrap ms H). reflexivity.
Qed.

Lemma simulateIrradiance_spec (ms rnd : Z) :
  simulateIrradiance ms rnd = spec_irradiance (hour_of ms) (IZR rnd).
Proof.
  unfold simulateIrradiance, spec_irradiance. cbn zeta.
  destruct (Rlt_dec (hour_of ms) 6); [reflexivity|].
  destruct (Rgt_dec (hour_of ms) 18); reflexivity.
Qed.

Lemma spec_irradiance_night (h j : R) :
  (h < 6 \/ h > 18)%R -> spec_irradiance h j = 0%R.
Proof.
  intros H. unfold spec_irradiance.
  destruct (Rlt_dec h 6); [reflexivity|].
  destruct (Rgt_dec h 18); [reflexivity|].
  destruct H; contradiction.
Qed.

Lemma spec_irradiance_day (h j : R) :
  (6 <= h <= 18)%R ->
  spec_irradiance h j = Rmax 0 (1200 * sin (PI * (h - 6) / 12) + j).
Proof.
  intros [H6 H18]. unfold spec_irradiance.
  destruct (Rlt_dec h 6); [lra|].
  destruct (Rgt_dec h 18); [lra|reflexivity].
Qed.

Lemma spec_irradiance_noon (j : R) :
  (-100 <= j <= 100)%R -> spec_irradiance 12 j = (1200 + j)%R.
Proof.
  intros Hj. rewrite spec_irradiance_day by lra.
  replace (PI * (12 - 6) / 12)%R with (PI / 2)%R by lra.
  rewrite sin_PI2. rewrite Rmax_right; lra.
Qed.

Lemma night_spec (ms : Z) :
  night ms = true <-> (hour_of ms < 6 \/ hour_of ms > 18)%R.
Proof.
  unfold night, hour_of. rewrite orb_true_iff, !Z.ltb_lt.
  set (tod := time_of_day ms).
  split; intros [H|H].
  - left. apply IZR_lt in H. change (6 * 3600)%Z with 21600%Z in H. lra.
  - right. apply IZR_lt in H. change (18 * 3600)%Z with 64800%Z in H. lra.
  - left. apply lt_IZR. change (6 * 3600)%Z with 21600%Z. lra.
  - right. apply lt_IZR. change (18 * 3600)%Z with 64800%Z. lra.
Qed.

Lemma simulateIrradiance_night (ms rnd : Z) :
  night ms = true -> simulateIrradiance ms rnd = 0%R.
Proof.
  intros H. rewrite simulateIrradiance_spec.
  apply spec_irradiance_night, night_spec, H.
Qed.

Lemma simulateIrradiance_nonneg (ms rnd : Z) : (0 <= simulateIrradiance ms rnd)%R.
Proof.
  unfold simulateIrradiance. cbn zeta.
  destruct (Rlt_dec (hour_of ms) 6); [lra|].
  destruct (Rgt_dec (hour_of ms) 18); [lra|].
  apply Rmax_l.
Qed.

(** C6: for every clock reading the simulated irradiance is the
    specification's model at [hourOfDay = ((ms/1000 + 28800) mod 86400) /
    3600] with the random draw as jitter: 0 before 6 h and after 18 h,
    [max(0, 1200 sin(pi (hourOfDay - 6) / 12) + jitter)] in between, the
    jitter within 100 W/m2 of 0, and within 100 W/m2 of 1200 at noon. *)
Theorem irradiance_follows_sine_arc (ms rnd : Z) :
  is_ulong ms -> random_range (-100) 100 rnd = true ->
  let h := spec_hourOfDay ms in
  let jitter := IZR rnd in
  let irr := simulateIrradiance ms rnd in
  irr = spec_irradiance h jitter
  /\ (-100 <= jitter <= 100)%R
  /\ ((h < 6 \/ h > 18)%R -> irr = 0%R)
  /\ ((6 <= h <= 18)%R ->
      irr = Rmax 0 (1200 * sin (PI * (h - 6) / 12) + jitter))
  /\ (h = 12%R -> (Rabs (irr - 1200) <= 100)%R).
Proof.
  intros Hms Hrnd h jitter irr.
  assert (Hirr : irr = spec_irradiance h jitter).
  { unfold irr, h. rewrite simulateIrradiance_spec, (hour_of_spec ms Hms).
    reflexivity. }
  assert (Hj : (-100 <= jitter <= 100)%R).
  { apply random_range_spec in Hrnd. unfold jitter.
    split; [apply (IZR_le (-100)); lia|].
    apply (IZR_le _ 100); lia. }
  split; [exact Hirr|]. split; [exact Hj|].
  rewrite Hirr.
  split; [apply spec_irradiance_night|].
  split; [apply spec_irradiance_day|].
  intros ->. rewrite (spec_irradiance_noon jitter Hj).
  apply Rabs_le. lra.
Qed.

Lemma irradiance_follows_sine_arc_witness :
  (Rabs (simulateIrradiance 14400000 50 - 1200) <= 100)%R
  /\ simulateIrradiance 0 50 = Rmax 0 (1200 * sin (PI * (8 - 6) / 12) + 50)
  /\ simulateIrradiance 43200000 50 = 0%R.
Proof.
  assert (Hu : forall ms, (0 <=? ms)%Z && (ms <? ULONG_MODULUS)%Z = true -> is_ulong ms).
  { intros ms H. apply andb_true_iff in H. destruct H as [H1 H2].
    apply Z.leb_le in H1. apply Z.ltb_lt in H2. split; assumption. }
  destruct (irradiance_follows_sine_arc 14400000 50 (Hu 14400000%Z eq_refl) eq_refl)
    as (_ & _ & _ & _ & Hnoon).
  destruct (irradiance_follows_sine_arc 0 50 (Hu 0%Z eq_refl) eq_refl)
    as (_ & _ & _ & Hday & _).
  destruct (irradiance_follows_sine_arc 43200000 50 (Hu 43200000%Z eq_refl) eq_refl)
    as (_ & _ & Hnight & _ & _).
  assert (H12 : spec_hourOfDay 14400000 = 12%R).
  { unfold spec_hourOfDay.
    replace ((14400000 / 1000 + offsetSeconds) mod 86400)%Z with 43200%Z
      by reflexivity.
    lra. }
  assert (H8 : spec_hourOfDay 0 = 8%R).
  { unfold spec_hourOfDay.
    replace ((0 / 1000 + offsetSeconds) mod 86400)%Z with 28800%Z by reflexivity.
    lra. }
  assert (H20 : spec_hourOfDay 43200000 = 20%R).
  { unfold spec_hourOfDay.
    replace ((43200000 / 1000 + offsetSeconds) mod 86400)%Z with 72000%Z
      by reflexivity.
    lra. }
  split; [apply Hnoon, H12|]. split.
  - rewrite Hday; rewrite H8; [reflexivity|lra].
  - apply Hnight. rewrite H20. right. lra.
Defined.

(** ** The holding registers *)

Lemma Reg_lookup_eq {V : Type} (a : Z) (v : V) (bank : gmap Z V) :
  is_Some (bank !! a) -> Reg a v bank !! a = Some v.
Proof.
  intros [w Hw]. unfold Reg. rewrite Hw. apply lookup_insert_eq.
Qed.

Lemma Reg_lookup_ne {V : Type} (a b : Z) (v : V) (bank : gmap Z V) :
  a <> b -> Reg a v bank !! b = bank !! b.
Proof.
  intros Hne. unfold Reg. destruct (bank !! a); [|reflexivity].
  apply lookup_insert_ne. exact Hne.
Qed.

Lemma Reg_is_Some {V : Type} (a b : Z) (v : V) (bank : gmap Z V) :
  is_Some (bank !! b) -> is_Some (Reg a v bank !! b).
Proof.
  intros H. destruct (decide (a = b)) as [->|Hne].
  - rewrite Reg_lookup_eq; [eexists; reflexivity | exact H].
  - rewrite Reg_lookup_ne; assumption.
Qed.

Lemma uint16_of_float_floor (x : Q) :
  (0 <= x)%Q -> (x < 65536)%Q -> uint16_of_float x = Qfloor x.
Proof.
  intros H0 H1. unfold uint16_of_float.
  assert (Hq : (Qnum x ÷ Z.pos (Qden x))%Z = Qfloor x).
  { destruct x as [n d]. cbn [Qnum Qden Qfloor].
    apply Z.quot_div_nonneg; [|lia].
    unfold Qle in H0. cbn in H0. lia. }
  rewrite Hq. apply Z.mod_small. split.
  - change 0%Z with (Qfloor 0). apply Qfloor_resp_le. exact H0.
  - rewrite Zlt_Qlt. apply Qle_lt_trans with x; [apply Qfloor_le|exact H1].
Qed.

Lemma uint16_of_float_unscaled (x : Q) :
  uint16_of_float (x * inject_Z 1) = uint16_of_float x.
Proof.
  destruct x as [n d]. unfold uint16_of_float. cbn [Qnum Qden Qmult inject_Z].
  rewrite Z.mul_1_r, Pos.mul_1_r. reflexivity.
Qed.

Lemma updateModbusRegisters_hregs (g : Globals) :
  let s := scadaData g in
  hregs (mbServer (updateModbusRegisters g))
  = Reg 30010 (uint16_of_int (system_status s))
      (Reg 30009 (encode (efficiency s) 1000)
      (Reg 30008 (uint16_of_float (irradiance s))
      (Reg 30007 (encode (ambient_temp s) 10)
      (Reg 30006 (encode (power_factor s) 1000)
      (Reg 30005 (uint16_of_float (voltage s))
      (Reg 30004 (encode (current_rms s) 1000)
      (Reg 30003 (encode (grid_frequency s) 100)
      (Reg 30002 (encode (total_energy_kwh s) 100)
      (Reg 30001 (encode (ac_power_kw s) 1000)
         (hregs (mbServer g))))))))))).
Proof. reflexivity. Qed.

Lemma updateModbusRegisters_register (g : Globals) (addr : Z)
    (fld : SCADAData -> Q) (S : Z) :
  In (addr, fld, S) register_map ->
  is_Some (hregs (mbServer g) !! addr) ->
  hregs (mbServer (updateModbusRegisters g)) !! addr
  = Some (encode (fld (scadaData g)) S).
Proof.
  intros Hin Hsome. rewrite updateModbusRegisters_hregs. cbn zeta.
  unfold register_map in Hin. cbn [In] in Hin.
  repeat (destruct Hin as [Hin|Hin];
          [inversion Hin; subst; clear Hin;
           repeat (rewrite Reg_lookup_ne by discriminate);
           rewrite Reg_lookup_eq;
           [ try reflexivity; unfold encode;
             rewrite uint16_of_float_unscaled; reflexivity
           | repeat apply Reg_is_Some; exact Hsome ]
          |]).
  destruct Hin.
Qed.

Lemma register_map_scales (addr : Z) (fld : SCADAData -> Q) (S : Z) :
  In (addr, fld, S) register_map -> (0 < S)%Z.
Proof.
  unfold register_map. cbn [In]. intros Hin.
  repeat (destruct Hin as [Hin|Hin]; [inversion Hin; lia|]).
  destruct Hin.
Qed.

(** With 16 bits no register value stands for an energy of 656 kWh or
    more at 0.01 kWh per count, whatever the cast does out of range. *)
Lemma no_register_decodes_above (reg : Z) (v : Q) :
  (0 <= reg < 65536)%Z -> (656 <= v)%Q ->
  ~ (Qabs (decode reg 100 - v) <= 1 / 100)%Q.
Proof.
  intros Hreg Hv H. apply Qabs_Qle_condition in H. destruct H as [H _].
  unfold decode in H.
  assert (Hq : (inject_Z reg < 65536)%Q)
    by (change 65536%Q with (inject_Z 65536); rewrite <- Zlt_Qlt; lia).
  assert (Hd : (inject_Z reg / inject_Z 100 == inject_Z reg * (1 # 100))%Q)
    by reflexivity.
  rewrite Hd in H. clear Hd.
  set (q := inject_Z reg) in *. clearbody q.
  assert (Hc : (- (1 / 100) == - (1 # 100))%Q) by reflexivity.
  rewrite Hc in H. lra.
Qed.

(** C7, as stated, fails: after 32 hours at 22 kW the total is 704 kWh;
    the energy register holds 70400 cut to 16 bits, 4864, which decodes
    to 48.64 kWh (and by [no_register_decodes_above] no 16-bit value
    would decode to within 0.01 kWh of the total). *)
Lemma energy_register_overflows :
  let g := run [reads_at 2000 0 None; reads_at 122000 100 None;
                reads_at 115322000 100 None] (setup 0) in
  (total_energy_kwh (scadaData g) == 704)%Q
  /\ hregs (mbServer g) !! 30002%Z = Some 4864%Z
  /\ encode (total_energy_kwh (scadaData g)) 100 = 4864%Z
  /\ ~ (Qabs (decode 4864 100 - total_energy_kwh (scadaData g)) <= 1 / 100)%Q.
Proof.
  vm_compute. repeat split. intros H. apply H. reflexivity.
Qed.

Lemma updateModbusRegisters_registers_exist (g : Globals) :
  registers_exist g -> registers_exist (updateModbusRegisters g).
Proof.
  intros H a Ha. rewrite updateModbusRegisters_hregs. cbn zeta.
  repeat apply Reg_is_Some. apply H, Ha.
Qed.

Lemma slow_tick_registers_exist (r : LoopReads) (g : Globals) :
  registers_exist g -> registers_exist (slow_tick r g) /\ True.
Proof.
  intros H. split; [|exact I].
  assert (Hmb : mbServer (updateSCADAData (slow r) g) = mbServer g).
  { unfold updateSCADAData, accumulate_energy.
    destruct (0 <? last_energy_update g)%Z; reflexivity. }
  assert (H' : registers_exist (updateSCADAData (slow r) g))
    by (intros a Ha; rewrite Hmb; apply H, Ha).
  apply (updateModbusRegisters_registers_exist _ H').
Qed.

Lemma setup_registers_exist (t0 : Z) : registers_exist (setup t0).
Proof.
  intros a Ha.
  assert (Hcases : (a = 30001 \/ a = 30002 \/ a = 30003 \/ a = 30004
                    \/ a = 30005 \/ a = 30006 \/ a = 30007 \/ a = 30008
                    \/ a = 30009 \/ a = 30010)%Z) by lia.
  repeat (destruct Hcases as [->|Hcases]; [exists 0%Z; reflexivity|]).
  subst a. exists 0%Z. reflexivity.
Qed.

Lemma run_registers_exist (t0 : Z) (rs : list LoopReads) :
  registers_exist (run rs (setup t0)).
Proof.
  apply (run_preserves (fun _ => True) registers_exist (fun _ _ => True)
           (fun _ => I) (fun _ _ _ _ _ => I)).
  - intros r g H. split; [exact H|exact I].
  - intros g H. split; [|exact I].
    unfold finish_calibration. destruct (negb (calibrated g)); exact H.
  - intros r g _. apply slow_tick_registers_exist.
  - intros r g H. split; [exact H|exact I].
  - apply Forall_forall. trivial.
  - apply setup_registers_exist.
Qed.

Lemma register_map_addresses (addr : Z) (fld : SCADAData -> Q) (S : Z) :
  In (addr, fld, S) register_map -> (30001 <= addr <= 30010)%Z.
Proof.
  unfold register_map. cbn [In]. intros Hin.
  repeat (destruct Hin as [Hin|Hin]; [inversion Hin; lia|]).
  destruct Hin.
Qed.

Lemma decode_encode_within (v : Q) (S : Z) :
  (0 < S)%Z -> (0 <= v)%Q -> (v * inject_Z S <= 65535)%Q ->
  (Qabs (decode (encode v S) S - v) < 1 / inject_Z S)%Q.
Proof.
  intros HS H0 H1.
  assert (HSq : (0 < inject_Z S)%Q)
    by (change 0%Q with (inject_Z 0); rewrite <- Zlt_Qlt; exact HS).
  assert (Hx : (0 <= v * inject_Z S)%Q) by nra.
  assert (Hlt : (v * inject_Z S < 65536)%Q) by lra.
  unfold decode, encode. apply within_one_decode; [exact HSq|].
  rewrite (uint16_of_float_floor _ Hx Hlt).
  pose proof (Qfloor_le (v * inject_Z S)) as Hlo.
  pose proof (Qlt_floor (v * inject_Z S)) as Hhi.
  rewrite inject_Z_plus in Hhi. change (inject_Z 1) with 1%Q in Hhi.
  split; lra.
Qed.

Lemma register_map_is_scale (addr : Z) (fld : SCADAData -> Q) (S : Z) :
  In (addr, fld, S) register_map -> is_scale S = true.
Proof.
  unfold register_map. cbn [In]. intros Hin.
  repeat (destruct Hin as [Hin|Hin]; [inversion Hin; reflexivity|]).
  destruct Hin.
Qed.

Lemma float_of_int_scale (S : Z) :
  is_scale S = true -> S <> 1%Z ->
  exists (m : positive) (e : Z),
    float_of_int S = S754_finite false m e
    /\ Z.pos (digits2_pos m) = 24%Z
    /\ (value_of (float_of_int S) == inject_Z S)%Q.
Proof.
  unfold is_scale. intros H H1.
  repeat (apply orb_true_iff in H; destruct H as [H|H]);
    apply Z.eqb_eq in H; subst S; try congruence;
    eexists; eexists; (split; [vm_compute; reflexivity|]);
    split; reflexivity.
Qed.

(** In binary32 the register of a non-negative value that fits 16 bits
    decodes to less than one count away from the value. *)
Lemma encode_ieee_round_trip (v : float) (S : Z) :
  nonneg_finite v = true -> is_scale S = true ->
  (value_of v * inject_Z S <= 65535)%Q ->
  (Qabs (decode (encode_ieee v S) S - value_of v) < 1 / inject_Z S)%Q.
Proof.
  intros Hnn HS Hfit.
  assert (HSpos : (0 < S)%Z).
  { unfold is_scale in HS.
    repeat (apply orb_true_iff in HS; destruct HS as [HS|HS]);
      apply Z.eqb_eq in HS; lia. }
  assert (HSq : (0 < inject_Z S)%Q)
    by (change 0%Q with (inject_Z 0); rewrite <- Zlt_Qlt; exact HSpos).
  assert (Hv0 : (0 <= value_of v)%Q).
  { destruct v as [s|s| |[|] m e]; try discriminate Hnn; cbn [value_of cond_Zopp];
      try apply Qle_refl.
    apply Qmult_le_0_compat; [discriminate|apply Qlt_le_weak, Qpower_2_pos]. }
  assert (Hx0 : (0 <= value_of v * inject_Z S)%Q) by nra.
  unfold decode. apply within_one_decode; [exact HSq|].
  unfold encode_ieee. destruct (Z.eqb_spec S 1) as [->|Hne].
  - change (inject_Z 1) with 1%Q in *.
    assert (Hlt : (value_of v < 65536)%Q) by lra.
    rewrite (uint16_of_float_ieee_floor v Hnn Hlt).
    pose proof (Qfloor_le (value_of v)) as Hf.
    pose proof (Qlt_floor (value_of v)) as Hg.
    rewrite inject_Z_plus in Hg. change (inject_Z 1) with 1%Q in Hg.
    split; lra.
  - destruct (float_of_int_scale S HS Hne) as (mS & eS & HfS & HdS & HvS).
    rewrite HfS in *.
    destruct v as [s|s| |[|] m e]; try discriminate Hnn.
    + cbn [SFmul xorb uint16_of_float_ieee value_of].
      change (inject_Z 0) with 0%Q. split; lra.
    + destruct (SFmul_pos_error m mS e eS 16 HdS) as (Hfin & m1 & E & HE & Hgrid & Herr).
      { rewrite HvS. change (2 ^ 16)%Q with 65536%Q.
        eapply Qle_lt_trans; [exact Hfit|reflexivity]. }
      { lia. }
      cbv zeta in Hfin, Hgrid, Herr.
      set (p := SFmul 24 128 (S754_finite false m e) (S754_finite false mS eS)) in *.
      rewrite HvS in Herr.
      set (x := (value_of (S754_finite false m e) * inject_Z S)%Q) in *.
      rewrite Hgrid in Herr.
      assert (HE0 : (E <= 0)%Z) by lia.
      pose proof (Qfloor_le x) as Hkx.
      assert (Hxk : (x <= inject_Z (Qfloor x + 1))%Q) by apply Qlt_le_weak, Qlt_floor.
      destruct (grid_side m1 (Qfloor x) E x HE0 Herr) as [Hlo Htie].
      destruct (grid_side m1 (Qfloor x + 1) E x HE0 Herr) as [_ Hhi].
      destruct (grid_side m1 65535 E x HE0 Herr) as [_ Hmax].
      specialize (Hlo Hkx). specialize (Hhi Hxk). specialize (Hmax Hfit).
      rewrite inject_Z_plus in Hhi. change (inject_Z 1) with 1%Q in Hhi.
      rewrite <- Hgrid in Hlo, Hhi, Htie, Hmax.
      destruct (floor_within_one x (value_of p) Hx0 Hfit Hlo Hhi Htie Hmax)
        as (_ & Hlt & Hone).
      rewrite (uint16_of_float_ieee_floor p Hfin Hlt). exact Hone.
Qed.


(** In binary32 the register of a value can be one count above the
    floor: the power factor of draw -5, stored as 0.9449999928, is scaled
    to 945.0 and written as 945, which decodes to 0.945. *)
Lemma power_factor_register_rounds_up :
  let pf := power_factor_ieee (-5) in
  (0.9449999 < value_of pf < 0.945)%Q
  /\ encode_ieee pf 1000 = 945%Z
  /\ encode (value_of pf) 1000 = 944%Z
  /\ (Qabs (decode (encode_ieee pf 1000) 1000 - value_of pf) < 1 / 1000)%Q.
Proof.
  vm_compute. repeat split; reflexivity.
Qed.

(** C7, amended: in every state reached from boot, each float field of
    the register map is written to its holding register as
    [encode value S], and while [0 <= value] and [value * S <= 65535]
    (the range of a 16-bit register) the register decodes to less than
    one count, [1/S], away from the value.  The same holds in binary32,
    of every [float] that is zero or positive and of the register the
    source's cast writes for it. *)
Theorem register_round_trip_in_range (t0 : Z) (rs : list LoopReads)
    (addr : Z) (fld : SCADAData -> Q) (S : Z) (value : float) :
  let g := run rs (setup t0) in
  let v := fld (scadaData g) in
  In (addr, fld, S) register_map ->
  hregs (mbServer (updateModbusRegisters g)) !! addr = Some (encode v S)
  /\ ((0 <= v)%Q -> (v * inject_Z S <= 65535)%Q ->
      (Qabs (decode (encode v S) S - v) < 1 / inject_Z S)%Q)
  /\ (nonneg_finite value = true ->
      (value_of value * inject_Z S <= 65535)%Q ->
      (Qabs (decode (encode_ieee value S) S - value_of value)
       < 1 / inject_Z S)%Q).
Proof.
  intros g v Hin. split; [|split].
  - apply updateModbusRegisters_register; [exact Hin|].
    apply run_registers_exist, (register_map_addresses addr fld S Hin).
  - intros H0 H1. apply decode_encode_within; try assumption.
    apply (register_map_scales addr fld S Hin).
  - intros Hnn Hfit. apply encode_ieee_round_trip; try assumption.
    apply (register_map_is_scale addr fld S Hin).
Qed.

Lemma register_round_trip_in_range_witness :
  let g := run [reads_at 2000 0 None; reads_at 122000 (60 # 11) None;
                reads_at 3722000 (60 # 11) None] (setup 0) in
  let pf := power_factor_ieee (-5) in
  hregs (mbServer (updateModbusRegisters g)) !! 30002%Z = Some 120%Z
  /\ (Qabs (decode 120 100 - total_energy_kwh (scadaData g)) < 1 / inject_Z 100)%Q
  /\ (Qabs (decode (encode_ieee pf 1000) 1000 - value_of pf) < 1 / inject_Z 1000)%Q.
Proof.
  intros g pf.
  assert (Hin : In (30002%Z, total_energy_kwh, 100%Z) register_map)
    by (right; left; reflexivity).
  assert (Hpf : In (30006%Z, power_factor, 1000%Z) register_map)
    by (do 5 right; left; reflexivity).
  assert (H0 : (0 <= total_energy_kwh (scadaData g))%Q)
    by (vm_compute; discriminate).
  assert (H1 : (total_energy_kwh (scadaData g) * inject_Z 100 <= 65535)%Q)
    by (vm_compute; discriminate).
  assert (Hnn : nonneg_finite pf = true) by (vm_compute; reflexivity).
  assert (Hfit : (value_of pf * inject_Z 1000 <= 65535)%Q)
    by (vm_compute; discriminate).
  destruct (register_round_trip_in_range 0
              [reads_at 2000 0 None; reads_at 122000 (60 # 11) None;
               reads_at 3722000 (60 # 11) None]
              30002 total_energy_kwh 100 pf Hin) as (Hreg & Hrt & _).
  destruct (register_round_trip_in_range 0 [] 30006 power_factor 1000 pf Hpf)
    as (_ & _ & Hieee).
  assert (E : encode (total_energy_kwh (scadaData g)) 100 = 120%Z)
    by (vm_compute; reflexivity).
  specialize (Hrt H0 H1). fold g in Hreg, Hrt. rewrite E in Hreg, Hrt.
  split; [exact Hreg|]. split; [exact Hrt|exact (Hieee Hnn Hfit)].
Defined.

(** ** Reads of /scada/data between ticks *)

Lemma finish_calibration_rest (g : Globals) :
  scadaData (finish_calibration g) = scadaData g
  /\ last_scada_update (finish_calibration g) = last_scada_update g
  /\ lastSendTime (finish_calibration g) = lastSendTime g
  /\ mbServer (finish_calibration g) = mbServer g.
Proof.
  unfold finish_calibration. destruct (negb (calibrated g)); repeat split.
Qed.

Lemma slow_tick_lastSendTime (r : LoopReads) (g : Globals) :
  lastSendTime (slow_tick r g) = lastSendTime g.
Proof.
  unfold slow_tick, updateSCADAData, accumulate_energy.
  destruct (0 <? last_energy_update g)%Z; reflexivity.
Qed.

Lemma loop_ticks (r : LoopReads) (g : Globals) :
  calibrating r g = false ->
  let g1 := finish_calibration g in
  let g2 := if slow_tick_fires r g then slow_tick r g1 else g1 in
  fst (loop r g) = (if fast_tick_fires r g then fast_tick r g2 else g2)
  /\ snd (loop r g) = snd (handleClient (pending r) g1).
Proof.
  intros Hc g1 g2. split.
  - rewrite loop_globals, Hc. cbn zeta. fold g1.
    destruct (finish_calibration_rest g) as (_ & Hs & Hf & _). fold g1 in Hs, Hf.
    assert (E1 : slow_tick_due r g1 = slow_tick_fires r g).
    { unfold slow_tick_fires, slow_tick_due. rewrite Hc, Hs. reflexivity. }
    rewrite E1. fold g2.
    assert (E2 : fast_tick_due r g2 = fast_tick_fires r g).
    { unfold fast_tick_fires, fast_tick_due. rewrite Hc. cbn [negb andb].
      unfold g2. destruct (slow_tick_fires r g);
        [rewrite slow_tick_lastSendTime|]; rewrite Hf; reflexivity. }
    rewrite E2. reflexivity.
  - unfold loop. rewrite Hc. fold g1.
    destruct (handleClient (pending r) g1) as [g' sent]. reflexivity.
Qed.

Lemma loop_scadaData_kept (r : LoopReads) (g : Globals) :
  slow_tick_fires r g = false ->
  slow_tick_fields (scadaData (fst (loop r g))) = slow_tick_fields (scadaData g)
  /\ (fast_tick_fires r g = false -> scadaData (fst (loop r g)) = scadaData g).
Proof.
  intros Hs. destruct (calibrating r g) eqn:Hc.
  - rewrite loop_globals, Hc. split; reflexivity.
  - destruct (loop_ticks r g Hc) as [-> _]. rewrite Hs.
    destruct (finish_calibration_rest g) as (Hd & _).
    destruct (fast_tick_fires r g).
    + split; [|discriminate].
      unfold slow_tick_fields. cbn. rewrite Hd. reflexivity.
    + split; [rewrite Hd; reflexivity | intros _; exact Hd].
Qed.

Lemma run_scadaData_kept (rs : list LoopReads) (g : Globals) :
  no_slow_tick rs g = true ->
  slow_tick_fields (scadaData (run rs g)) = slow_tick_fields (scadaData g)
  /\ (no_fast_tick rs g = true -> scadaData (run rs g) = scadaData g).
Proof.
  revert g. induction rs as [|r rs IH]; intros g Hs; [split; reflexivity|].
  cbn [no_slow_tick] in Hs. apply andb_true_iff in Hs. destruct Hs as [Hs Hrest].
  apply negb_true_iff in Hs.
  destruct (loop_scadaData_kept r g Hs) as [H1 H2].
  destruct (IH _ Hrest) as [H3 H4].
  cbn [run]. split; [congruence|].
  cbn [no_fast_tick]. intros Hf. apply andb_true_iff in Hf.
  destruct Hf as [Hf Hfrest]. apply negb_true_iff in Hf.
  rewrite (H4 Hfrest). apply H2, Hf.
Qed.

Lemma served_scada_data (r : LoopReads) (g : Globals) :
  calibrating r g = false -> pending r = GET "/scada/data" ->
  snd (loop r g) = Some (scada_data_response (scadaData g)).
Proof.
  intros Hc Hp. destruct (loop_ticks r g Hc) as [_ ->]. rewrite Hp.
  destruct (finish_calibration_rest g) as (<- & _). reflexivity.
Qed.

Lemma slow_tick_fields_keys (s1 s2 : SCADAData) (k : string) :
  slow_tick_fields s1 = slow_tick_fields s2 -> In k slow_tick_keys ->
  field k (scada_data_doc s1) = field k (scada_data_doc s2).
Proof.
  unfold slow_tick_fields. intros H Hin. inversion H.
  unfold slow_tick_keys in Hin. cbn [In] in Hin.
  repeat (destruct Hin as [<-|Hin]; [cbn; congruence|]).
  destruct Hin.
Qed.

Lemma run_calibrated_stays (rs : list LoopReads) (g : Globals) :
  calibrated g = true -> calibrated (run rs g) = true.
Proof.
  revert g. induction rs as [|r rs IH]; intros g Hc; [exact Hc|].
  cbn [run]. apply IH. apply (loop_calibrated_stays r g Hc).
Qed.

Lemma field_current_rms (s : SCADAData) :
  field "current_rms" (scada_data_doc s) = Some (JFloat (current_rms s)).
Proof. reflexivity. Qed.

(** C8, as stated, fails: two polls 500 ms apart, with no slow tick at or
    between them, are answered with different [current_rms] and
    [ac_power_kw], because the 1 s block ran in between and stored a new
    measurement. *)
Lemma polls_differ_within_slow_interval :
  let g := run [reads_at 2000 0 None; reads_at 122000 1 None] (setup 0) in
  let rA := reads_at 123500 2 (GET "/scada/data") in
  let rB := reads_at 124000 2 (GET "/scada/data") in
  no_slow_tick [rA; rB] g = true
  /\ responses [rA; rB] g
     = [ Some (scada_data_response (scadaData g));
         Some (scada_data_response (scadaData (fst (loop rA g)))) ]
  /\ (exists a b,
        field "current_rms" (scada_data_doc (scadaData g)) = Some (JFloat a)
        /\ field "current_rms" (scada_data_doc (scadaData (fst (loop rA g))))
           = Some (JFloat b)
        /\ (a == 1)%Q /\ (b == 2)%Q)
  /\ nth 0 (responses [rA; rB] g) None <> nth 1 (responses [rA; rB] g) None.
Proof.
  intros g rA rB.
  split; [vm_compute; reflexivity|]. split; [vm_compute; reflexivity|]. split.
  - exists (current_rms (scadaData g)), (current_rms (scadaData (fst (loop rA g)))).
    split; [apply field_current_rms|]. split; [apply field_current_rms|].
    split; vm_compute; reflexivity.
  - vm_compute. intros H. discriminate H.
Qed.

(** C8, amended: two reads of /scada/data with no slow tick between them
    agree on every field that the slow tick writes (energy, frequency,
    power factor, temperature, irradiance, status, efficiency,
    timestamp); they are identical in every field when no fast tick ran
    between them either.  [current_rms], [voltage] and [ac_power_kw] are
    rewritten by each fast tick. *)
Theorem polls_agree_between_ticks (g : Globals) (r1 r2 : LoopReads)
    (rs : list LoopReads) :
  calibrating r1 g = false ->
  pending r1 = GET "/scada/data" -> pending r2 = GET "/scada/data" ->
  no_slow_tick (r1 :: rs) g = true ->
  let g' := run (r1 :: rs) g in
  snd (loop r1 g) = Some (scada_data_response (scadaData g))
  /\ snd (loop r2 g') = Some (scada_data_response (scadaData g'))
  /\ (forall k, In k slow_tick_keys ->
      field k (scada_data_doc (scadaData g'))
      = field k (scada_data_doc (scadaData g)))
  /\ (no_fast_tick (r1 :: rs) g = true -> snd (loop r2 g') = snd (loop r1 g)).
Proof.
  intros Hc Hp1 Hp2 Hslow g'.
  assert (Hc' : calibrating r2 g' = false).
  { unfold calibrating, g'. cbn [run].
    rewrite run_calibrated_stays; [reflexivity|].
    destruct (loop_calibration r1 g) as (_ & _ & H). apply (H Hc). }
  destruct (run_scadaData_kept (r1 :: rs) g Hslow) as [Hk Hall]. fold g' in Hk, Hall.
  pose proof (served_scada_data r1 g Hc Hp1) as H1.
  pose proof (served_scada_data r2 g' Hc' Hp2) as H2.
  split; [exact H1|]. split; [exact H2|]. split.
  - intros k Hin. apply slow_tick_fields_keys; assumption.
  - intros Hfast. rewrite H1, H2, (Hall Hfast). reflexivity.
Qed.

Lemma polls_agree_between_ticks_witness :
  let g := run [reads_at 2000 0 None; reads_at 122000 1 None] (setup 0) in
  let r1 := reads_at 122500 2 (GET "/scada/data") in
  let r2 := reads_at 122900 2 (GET "/scada/data") in
  snd (loop r2 (run [r1; reads_at 122700 2 None] g)) = snd (loop r1 g).
Proof.
  intros g r1 r2.
  destruct (polls_agree_between_ticks g r1 r2 [reads_at 122700 2 None]
              eq_refl eq_refl eq_refl eq_refl) as (_ & _ & _ & H).
  apply H. reflexivity.
Defined.

(** ** The derived report *)

(** C9, as stated, fails: /scada/report is not a registered route; the
    server answers it with 404. *)
Lemma scada_report_not_found :
  let g := run [reads_at 2000 0 None; reads_at 122000 1 None] (setup 0) in
  snd (loop (reads_at 123500 2 (GET "/scada/report")) g)
  = Some (mkResponse 404 [cors] "text/plain" (Text "SCADA Endpoint Not Found")).
Proof. vm_compute. reflexivity. Qed.

(** C9, amended: the derived report is served at GET /scada/guardian, as
    a nested document: [monitoring_data] holds gross_generation_mwh (the
    energy total / 1000), net_export_mwh (0.98 x gross), capacity_factor
    (power / 0.001 MW x 100), average_irradiance and current_rms, and
    [calculations] holds baseline_emissions_tco2 and
    emission_reductions_tco2 (net export x 0.81) and
    project_emissions_tco2 (0); none of these is a top-level field, and
    serving the request leaves the globals as they are. *)
Theorem guardian_report_is_pure_transform (g : Globals) :
  let s := scadaData g in
  exists doc gross net cf er,
    handleClient (GET "/scada/guardian") g
    = (g, Some (mkResponse 200 [cors; json_header] "application/json" (Json doc)))
    /\ field_in "monitoring_data" "gross_generation_mwh" doc = Some (JFloat gross)
    /\ field_in "monitoring_data" "net_export_mwh" doc = Some (JFloat net)
    /\ field_in "monitoring_data" "capacity_factor" doc = Some (JFloat cf)
    /\ field_in "monitoring_data" "average_irradiance" doc
       = Some (JFloat (irradiance s))
    /\ field_in "monitoring_data" "current_rms" doc = Some (JFloat (current_rms s))
    /\ field_in "calculations" "baseline_emissions_tco2" doc = Some (JFloat er)
    /\ field_in "calculations" "project_emissions_tco2" doc = Some (JInteger 0)
    /\ field_in "calculations" "emission_reductions_tco2" doc = Some (JFloat er)
    /\ field "gross_generation_mwh" doc = None
    /\ field "emission_reductions_tco2" doc = None
    /\ (gross == total_energy_kwh s / 1000)%Q
    /\ (net == 0.98 * gross)%Q
    /\ (cf == ac_power_kw s / 0.001 * 100)%Q
    /\ (er == net * morocco_ef)%Q.
Proof.
  intros s.
  exists (scada_guardian_doc s), (total_energy_kwh s / 1000.0)%Q,
    ((total_energy_kwh s * 0.98) / 1000.0)%Q,
    ((ac_power_kw s / 0.001) * 100)%Q,
    ((total_energy_kwh s * 0.98) / 1000.0 * morocco_ef)%Q.
  repeat (split; [reflexivity|]).
  split; [field|]. split; [field|]. split; reflexivity.
Qed.

(** ** Simulated ranges and alarms *)

Lemma jitter_bounds (lo hi r : Z) :
  random_range lo hi r = true ->
  (inject_Z lo <= inject_Z r <= inject_Z (hi - 1))%Q.
Proof.
  intros H. apply random_range_spec in H.
  rewrite <- !Zle_Qle. lia.
Qed.

Lemma updateSCADAData_in_range (t : SlowTickReads) (g : Globals) :
  slow_reads_ok t = true -> simulated_in_range (scadaData (updateSCADAData t g)).
Proof.
  intros H. unfold slow_reads_ok in H.
  apply andb_true_iff in H. destruct H as [H He].
  apply andb_true_iff in H. destruct H as [H Ht].
  apply andb_true_iff in H. destruct H as [Hf Hp].
  apply jitter_bounds in Hf, Hp, Ht, He.
  unfold simulated_in_range, updateSCADAData.
  cbn [scadaData set_scadaData set_simulated grid_frequency power_factor
       efficiency ambient_temp].
  set (f := inject_Z (rnd_frequency t)) in *.
  set (p := inject_Z (rnd_power_factor t)) in *.
  set (e := inject_Z (rnd_efficiency t)) in *.
  set (c := inject_Z (rnd_temp t)) in *.
  clearbody f p e c.
  change (inject_Z (-10)) with (-10 # 1)%Q in Hf.
  change (inject_Z (10 - 1)) with 9%Q in Hf.
  change (inject_Z (-5)) with (-5 # 1)%Q in Hp.
  change (inject_Z (5 - 1)) with 4%Q in Hp.
  change (inject_Z (-50)) with (-50 # 1)%Q in Ht.
  change (inject_Z (150 - 1)) with 149%Q in Ht.
  change (inject_Z (-20)) with (-20 # 1)%Q in He.
  change (inject_Z (20 - 1)) with 19%Q in He.
  assert (Ef : (f / 100.0 == f * (1 # 100))%Q) by (apply Qmult_comp; reflexivity).
  assert (Ep : (p / 1000.0 == p * (1 # 1000))%Q) by (apply Qmult_comp; reflexivity).
  assert (Ee : (e / 1000.0 == e * (1 # 1000))%Q) by (apply Qmult_comp; reflexivity).
  assert (Ec : (c / 10.0 == c * (1 # 10))%Q) by (apply Qmult_comp; reflexivity).
  rewrite Ef, Ep, Ee, Ec.
  repeat split; lra.
Qed.

Lemma updateModbusRegisters_flags (g : Globals) :
  let s := scadaData g in
  coils (mbServer (updateModbusRegisters g))
  = Reg 4 (Qlt_bool 49.5 (grid_frequency s) && Qlt_bool (grid_frequency s) 50.5)
      (Reg 3 (Qlt_bool 100 (irradiance s))
      (Reg 2 (Qlt_bool 0.1 (ac_power_kw s))
      (Reg 1 (system_status s =? 1)%Z (coils (mbServer g)))))
  /\ ists (mbServer (updateModbusRegisters g))
     = Reg 4 false
         (Reg 3 (Qlt_bool (efficiency s) 0.9)
         (Reg 2 (Qlt_bool (power_factor s) 0.9)
         (Reg 1 (Qlt_bool 40 (ambient_temp s)) (ists (mbServer g)))))
  /\ scadaData (updateModbusRegisters g) = s.
Proof. repeat split. Qed.

Lemma updateModbusRegisters_no_alarm (g : Globals) :
  simulated_in_range (scadaData g) ->
  alarms_clear (mbServer g) -> is_Some (coils (mbServer g) !! 4%Z) ->
  alarms_clear (mbServer (updateModbusRegisters g))
  /\ grid_ok (mbServer (updateModbusRegisters g)).
Proof.
  intros (Hf & Hp & He & Ht) (H1 & H2 & H3 & H4) Hc.
  destruct (updateModbusRegisters_flags g) as (Ec & Ei & _).
  assert (S1 : is_Some (ists (mbServer g) !! 1%Z)) by (rewrite H1; eauto).
  assert (S2 : is_Some (ists (mbServer g) !! 2%Z)) by (rewrite H2; eauto).
  assert (S3 : is_Some (ists (mbServer g) !! 3%Z)) by (rewrite H3; eauto).
  assert (S4 : is_Some (ists (mbServer g) !! 4%Z)) by (rewrite H4; eauto).
  assert (Bt : Qlt_bool 40 (ambient_temp (scadaData g)) = false)
    by (apply Qlt_bool_false_iff; lra).
  assert (Bp : Qlt_bool (power_factor (scadaData g)) 0.9 = false)
    by (apply Qlt_bool_false_iff; lra).
  assert (Be : Qlt_bool (efficiency (scadaData g)) 0.9 = false)
    by (apply Qlt_bool_false_iff; lra).
  assert (Bf : Qlt_bool 49.5 (grid_frequency (scadaData g))
               && Qlt_bool (grid_frequency (scadaData g)) 50.5 = true).
  { apply andb_true_iff. split; apply Qlt_bool_iff; lra. }
  unfold alarms_clear, grid_ok. rewrite Ec, Ei. cbn zeta.
  rewrite Bt, Bp, Be, Bf.
  repeat split;
    repeat (rewrite Reg_lookup_ne by discriminate);
    rewrite Reg_lookup_eq; try reflexivity;
    repeat apply Reg_is_Some; assumption.
Qed.

Lemma slow_tick_no_alarm (r : LoopReads) (g : Globals) :
  loop_reads_ok r -> no_alarm_inv g ->
  no_alarm_inv (slow_tick r g) /\ True.
Proof.
  intros Hr (Ha & Hc & _). split; [|exact I].
  pose proof (updateSCADAData_in_range (slow r) g Hr) as Hrange.
  assert (Hmb : mbServer (updateSCADAData (slow r) g) = mbServer g).
  { unfold updateSCADAData, accumulate_energy.
    destruct (0 <? last_energy_update g)%Z; reflexivity. }
  destruct (updateModbusRegisters_no_alarm (updateSCADAData (slow r) g) Hrange)
    as [Ha' Hg']; [rewrite Hmb; exact Ha | rewrite Hmb; exact Hc |].
  assert (Hs : scadaData (slow_tick r g) = scadaData (updateSCADAData (slow r) g))
    by reflexivity.
  assert (Hm : mbServer (slow_tick r g)
               = mbServer (updateModbusRegisters (updateSCADAData (slow r) g)))
    by reflexivity.
  unfold no_alarm_inv. rewrite Hs, Hm.
  split; [exact Ha'|]. split; [rewrite Hg'; eauto|].
  intros _. split; assumption.
Qed.

Lemma fast_tick_no_alarm (r : LoopReads) (g : Globals) :
  no_alarm_inv g -> no_alarm_inv (fast_tick r g) /\ True.
Proof. intros H. split; [exact H|exact I]. Qed.

Lemma calibration_sample_no_alarm (r : LoopReads) (g : Globals) :
  no_alarm_inv g -> no_alarm_inv (calibration_sample r g) /\ True.
Proof. intros H. split; [exact H|exact I]. Qed.

Lemma finish_calibration_no_alarm (g : Globals) :
  no_alarm_inv g -> no_alarm_inv (finish_calibration g) /\ True.
Proof.
  intros H. split; [|exact I].
  unfold finish_calibration. destruct (negb (calibrated g)); exact H.
Qed.

Lemma setup_no_alarm (t0 : Z) : no_alarm_inv (setup t0).
Proof.
  split; [repeat split|]. split; [exists false; reflexivity|].
  cbn. discriminate.
Qed.

Lemma run_no_alarm (rs : list LoopReads) (g : Globals) :
  Forall loop_reads_ok rs -> no_alarm_inv g -> no_alarm_inv (run rs g).
Proof.
  intros Hrs Hg.
  apply (run_preserves loop_reads_ok no_alarm_inv (fun _ _ => True)
           (fun _ => I) (fun _ _ _ _ _ => I)
           calibration_sample_no_alarm finish_calibration_no_alarm
           slow_tick_no_alarm fast_tick_no_alarm rs g Hrs Hg).
Qed.

Lemma slow_tick_fires_status (r : LoopReads) (g : Globals) :
  slow_tick_fires r g = true ->
  system_status (scadaData (fst (loop r g))) = 1%Z.
Proof.
  intros Hs.
  assert (Hc : calibrating r g = false).
  { unfold slow_tick_fires in Hs. apply andb_true_iff in Hs.
    destruct Hs as [Hs _]. apply negb_true_iff in Hs. exact Hs. }
  destruct (loop_ticks r g Hc) as [-> _]. rewrite Hs.
  destruct (fast_tick_fires r g); reflexivity.
Qed.

Lemma draws_spec (lo : Z) (n : nat) (p : Z -> bool) (r : Z) :
  below n (fun k => p (lo + k)%Z) = true ->
  random_range lo (lo + Z.of_nat n) r = true -> p r = true.
Proof.
  intros Hall Hr. apply random_range_spec in Hr.
  replace r with (lo + (r - lo))%Z by lia.
  apply (below_spec n _ Hall). lia.
Qed.

Lemma within_spec (margin lo hi : Q) (x : float) :
  within margin lo hi x = true ->
  is_finite x = true /\ (lo - margin <= value_of x <= hi + margin)%Q.
Proof.
  unfold within. intros H.
  apply andb_true_iff in H. destruct H as [H Hhi].
  apply andb_true_iff in H. destruct H as [Hfin Hlo].
  apply Qle_bool_iff in Hlo, Hhi. auto.
Qed.

Lemma frequency_draws (r : Z) :
  random_range (-10) 10 r = true -> frequency_draw_ok r = true.
Proof.
  apply (draws_spec (-10) 20 frequency_draw_ok). vm_compute. reflexivity.
Qed.

Lemma power_factor_draws (r : Z) :
  random_range (-5) 5 r = true -> power_factor_draw_ok r = true.
Proof.
  apply (draws_spec (-5) 10 power_factor_draw_ok). vm_compute. reflexivity.
Qed.

Lemma temp_draws (r : Z) :
  random_range (-50) 150 r = true -> temp_draw_ok r = true.
Proof.
  apply (draws_spec (-50) 200 temp_draw_ok). vm_compute. reflexivity.
Qed.

Lemma efficiency_draws (r : Z) :
  random_range (-20) 20 r = true -> efficiency_draw_ok r = true.
Proof.
  apply (draws_spec (-20) 40 efficiency_draw_ok). vm_compute. reflexivity.
Qed.

(** C10, as stated, fails for the stored values: the [float] a draw
    leaves in a field can lie outside the decimal range.  The frequency
    of draw 9 is stored as 50.0900002, the temperature of draw 149 as
    39.9000015, the power factor of draw -5 as 0.9449999928 and the
    efficiency of draw -20 as 0.9399999976. *)
Lemma simulated_fields_leave_ranges :
  slow_reads_ok (mkSlowTickReads 0 0 9 (-5) 149 0 (-20) 0) = true
  /\ (50.09 < value_of (grid_frequency_ieee 9))%Q
  /\ (39.9 < value_of (ambient_temp_ieee 149))%Q
  /\ (value_of (power_factor_ieee (-5)) < 0.945)%Q
  /\ (value_of (efficiency_ieee (-20)) < 0.940)%Q.
Proof.
  vm_compute. repeat split; reflexivity.
Qed.

(** C10, amended: in every run from boot whose random draws are in the
    ranges [random] promises, the three alarm inputs are never set, and
    once a slow tick has run (status 1, which every slow tick sets) the
    Grid OK coil is set.  The [float]s that a slow tick stores are finite
    and within [float_margin] of the ranges: the grid frequency of
    [49.90, 50.09], the power factor of [0.945, 0.954], the efficiency of
    [0.940, 0.979], the ambient temperature of [20.0, 39.9]; and on them
    the Grid OK test of updateModbusRegisters() succeeds and its three
    alarm tests fail. *)
Theorem simulation_raises_no_alarm (t0 : Z) (rs : list LoopReads)
    (t : SlowTickReads) :
  Forall loop_reads_ok rs ->
  slow_reads_ok t = true ->
  let g := run rs (setup t0) in
  let s := scadaData g in
  let mb := mbServer g in
  let f := grid_frequency_ieee (rnd_frequency t) in
  let pf := power_factor_ieee (rnd_power_factor t) in
  let eff := efficiency_ieee (rnd_efficiency t) in
  let temp := ambient_temp_ieee (rnd_temp t) in
  (ists mb !! 1%Z = Some false /\ ists mb !! 2%Z = Some false
   /\ ists mb !! 3%Z = Some false)
  /\ (system_status s = 1%Z -> coils mb !! 4%Z = Some true)
  /\ (forall r, slow_tick_fires r g = true ->
      system_status (scadaData (fst (loop r g))) = 1%Z)
  /\ (is_finite f = true /\ is_finite pf = true
      /\ is_finite eff = true /\ is_finite temp = true)
  /\ (49.90 - float_margin <= value_of f <= 50.09 + float_margin)%Q
  /\ (0.945 - float_margin <= value_of pf <= 0.954 + float_margin)%Q
  /\ (0.940 - float_margin <= value_of eff <= 0.979 + float_margin)%Q
  /\ (20.0 - float_margin <= value_of temp <= 39.9 + float_margin)%Q
  /\ grid_ok_ieee f = true
  /\ high_temp_ieee temp = false
  /\ low_power_factor_ieee pf = false
  /\ low_efficiency_ieee eff = false.
Proof.
  intros Hrs Ht g s mb f pf eff temp.
  destruct (run_no_alarm rs (setup t0) Hrs (setup_no_alarm t0))
    as ((H1 & H2 & H3 & _) & _ & Hticked).
  split; [repeat split; assumption|].
  split; [intros Hst; apply (Hticked Hst)|].
  split; [intros r; apply slow_tick_fires_status|].
  unfold slow_reads_ok in Ht.
  apply andb_true_iff in Ht. destruct Ht as [Ht He].
  apply andb_true_iff in Ht. destruct Ht as [Ht Hc].
  apply andb_true_iff in Ht. destruct Ht as [Hf Hp].
  apply frequency_draws in Hf. apply power_factor_draws in Hp.
  apply temp_draws in Hc. apply efficiency_draws in He.
  apply andb_true_iff in Hf, Hp, Hc, He.
  destruct Hf as [Hf Hf']. destruct Hp as [Hp Hp'].
  destruct Hc as [Hc Hc']. destruct He as [He He'].
  apply within_spec in Hf, Hp, Hc, He.
  apply negb_true_iff in Hp', Hc', He'.
  destruct Hf as [Ff Hf]. destruct Hp as [Fp Hp].
  destruct Hc as [Fc Hc]. destruct He as [Fe He].
  repeat split;
    solve [assumption | apply Hf | apply Hp | apply Hc | apply He].
Qed.

Lemma simulation_raises_no_alarm_witness :
  let g := run [reads_at 2000 0 None; reads_at 122000 1 None] (setup 0) in
  coils (mbServer g) !! 4%Z = Some true
  /\ ists (mbServer g) !! 1%Z = Some false
  /\ (49.90 - float_margin <= value_of (grid_frequency_ieee 9)
      <= 50.09 + float_margin)%Q
  /\ grid_ok_ieee (grid_frequency_ieee 9) = true.
Proof.
  intros g.
  assert (Hok : Forall loop_reads_ok
                  [reads_at 2000 0 None; reads_at 122000 1 None])
    by (repeat constructor).
  assert (Ht : slow_reads_ok (mkSlowTickReads 0 0 9 (-5) 149 0 (-20) 0) = true)
    by reflexivity.
  destruct (simulation_raises_no_alarm 0 _ _ Hok Ht)
    as ((H1 & _) & Hs & _ & _ & Hf & _ & _ & _ & Hg & _).
  split; [exact (Hs eq_refl)|]. split; [exact H1|].
  cbn [rnd_frequency] in Hf, Hg.
  split; [exact Hf|exact Hg].
Defined.

(** * Further properties of the sketch *)

(** ** Routing *)

(** X1: every HTTP request is answered exactly once, with the CORS header,
    and leaves the globals as they are; the answer is 200 exactly for a
    GET of /scada/data, /scada/guardian or /, and 404 for every other
    method or path. *)
Theorem every_request_is_answered (rq : Request) (g : Globals) :
  exists resp,
    handleClient (Some rq) g = (g, Some resp)
    /\ In cors (headers resp)
    /\ (code resp = 200%Z \/ code resp = 404%Z)
    /\ (code resp = 200%Z <->
        req_method rq = HTTP_GET
        /\ (req_uri rq = "/scada/data"%string
            \/ req_uri rq = "/scada/guardian"%string
            \/ req_uri rq = "/"%string)).
Proof.
  destruct rq as [m u]. unfold handleClient, setupSCADAServers.
  cbn [dispatch req_uri req_method].
  destruct (String.eqb_spec "/scada/data" u) as [E1|E1];
    destruct (String.eqb_spec "/scada/guardian" u) as [E2|E2];
    destruct (String.eqb_spec "/" u) as [E3|E3];
    destruct m; cbn [andb HTTPMethod_eqb];
    eexists; (split; [reflexivity|]); cbn [headers code];
    (split; [left; reflexivity|]);
    (split; [first [left; reflexivity | right; reflexivity]|]);
    intuition (try discriminate; try congruence).
Qed.

(** ** The measured current and power *)

Lemma corrected_Irms_cases (raw nf : Q) :
  (corrected_Irms raw nf = 0%Q /\ (raw - nf < 0.01)%Q)
  \/ (corrected_Irms raw nf = (raw - nf)%Q /\ (0.01 <= raw - nf)%Q).
Proof.
  destruct (Qlt_le_dec (raw - nf) 0.01) as [H|H].
  - left. split; [apply corrected_Irms_below|]; exact H.
  - right. split; [apply corrected_Irms_above|]; exact H.
Qed.

Lemma reported_watts_of_corrected (raw nf : Q) :
  let Irms := corrected_Irms raw nf in
  (reported_watts Irms == Irms * gridVoltage)%Q
  /\ (reported_watts Irms = 0%Q \/ (2.2 <= reported_watts Irms)%Q).
Proof.
  intros Irms. unfold Irms.
  destruct (corrected_Irms_cases raw nf) as [[-> _]|[-> H]].
  - split; [reflexivity|left; reflexivity].
  - assert (Hw : (2.2 <= (raw - nf) * gridVoltage)%Q)
      by (unfold gridVoltage; lra).
    assert (Hn : Qlt_bool ((raw - nf) * gridVoltage) 1.0 = false)
      by (apply Qlt_bool_false_iff; lra).
    unfold reported_watts. cbn zeta. rewrite Hn.
    split; [reflexivity|right; exact Hw].
Qed.

(** X2: the 1 W clamp never changes a value: the reported power is always
    the corrected current times 220 V, and it is either 0 or at least
    2.2 W, because a current that survives the 0.01 A clamp already gives
    2.2 W. *)
Theorem watts_clamp_never_fires (r : LoopReads) (g : Globals) :
  let Irms := corrected_Irms (irms r) (noiseFloor g) in
  (reported_watts Irms == Irms * gridVoltage)%Q
  /\ (reported_watts Irms = 0%Q \/ (2.2 <= reported_watts Irms)%Q)
  /\ (ac_power_kw (scadaData (fast_tick r g)) * 1000
      == current_rms (scadaData (fast_tick r g)) * 220)%Q.
Proof.
  intros Irms.
  destruct (reported_watts_of_corrected (irms r) (noiseFloor g)) as [H1 H2].
  fold Irms in H1, H2. split; [exact H1|]. split; [exact H2|].
  rewrite fast_tick_power, fast_tick_current. fold Irms.
  rewrite H1. unfold gridVoltage. field.
Qed.

Lemma fast_tick_measurement (r : LoopReads) (g : Globals) :
  measurement_inv (fast_tick r g).
Proof.
  unfold measurement_inv. cbn zeta.
  assert (Hv : voltage (scadaData (fast_tick r g)) = gridVoltage) by reflexivity.
  rewrite Hv, fast_tick_power, fast_tick_current.
  destruct (reported_watts_of_corrected (irms r) (noiseFloor g)) as [H1 _].
  cbn zeta in H1.
  split; [|split; [right; reflexivity|]].
  - destruct (corrected_Irms_cases (irms r) (noiseFloor g)) as [[-> _]|[-> H]];
      [left; reflexivity | right; exact H].
  - rewrite H1. field.
Qed.

Lemma slow_tick_measurement (r : LoopReads) (g : Globals) :
  measurement_inv g -> measurement_inv (slow_tick r g).
Proof.
  unfold measurement_inv. cbn zeta.
  destruct (slow_tick_scadaData r g) as (-> & _ & _).
  destruct (updateSCADAData_measured (slow r) g) as (-> & -> & ->).
  auto.
Qed.

Lemma run_measurement (t0 : Z) (rs : list LoopReads) :
  measurement_inv (run rs (setup t0)).
Proof.
  apply (run_preserves (fun _ => True) measurement_inv (fun _ _ => True)
           (fun _ => I) (fun _ _ _ _ _ => I)).
  - intros r g H. split; [exact H|exact I].
  - intros g H. split; [|exact I].
    unfold finish_calibration. destruct (negb (calibrated g)); exact H.
  - intros r g _ H. split; [apply slow_tick_measurement, H|exact I].
  - intros r g _. split; [apply fast_tick_measurement|exact I].
  - apply Forall_forall. trivial.
  - unfold measurement_inv. cbn.
    split; [left; reflexivity|]. split; [left; split; reflexivity|reflexivity].
Qed.

(** Storing a [double] current of 0.01 A to 1000 A in a [float] leaves
    more than 0.0099 A. *)
Lemma stored_current_above (m : positive) (e : Z) :
  let Irms := S754_finite false m e in
  (0.01 <= value_of Irms <= 1000)%Q ->
  nonneg_finite (float_of_double Irms) = true
  /\ (0.0099 < value_of (float_of_double Irms))%Q.
Proof.
  intros Irms [Hlo Hhi].
  destruct (float_of_double_error m e 10) as [Hfin Herr].
  - fold Irms. eapply Qle_lt_trans; [exact Hhi|reflexivity].
  - lia.
  - cbv zeta in Hfin, Herr. fold Irms in Hfin, Herr. split; [exact Hfin|].
    assert (Hb : (2 ^ (10 - 25) < 0.0001)%Q) by reflexivity.
    set (b := (2 ^ (10 - 25))%Q) in *.
    set (v := value_of Irms) in *. set (w := value_of (float_of_double Irms)) in *.
    clearbody b v w. apply Qabs_Qle_condition in Herr. lra.
Qed.

(** X3: in every state reached from boot the snapshot's measurement is
    consistent: the current is 0 or more than 0.0099 A, the voltage is
    220 V as soon as a measurement has been stored, and
    [ac_power_kw * 1000] is the current times the voltage.  In binary32 a
    corrected current between 0.01 A and 1000 A is stored as more than
    0.0099 A, but not always as 0.01 A or more: the [double] 0.01 is
    stored as 0.0099999998. *)
Theorem measurement_is_consistent (t0 : Z) (rs : list LoopReads)
    (rawCurrent : double) (noiseFloor : float) (m : positive) (e : Z) :
  let s := scadaData (run rs (setup t0)) in
  let Irms := corrected_Irms_ieee rawCurrent noiseFloor in
  ((current_rms s == 0)%Q \/ (0.0099 < current_rms s)%Q)
  /\ ((voltage s == 0)%Q /\ (current_rms s == 0)%Q \/ voltage s = 220%Q)
  /\ (ac_power_kw s * 1000 == current_rms s * voltage s)%Q
  /\ (Irms = S754_finite false m e -> (0.01 <= value_of Irms <= 1000)%Q ->
      nonneg_finite (current_rms_ieee rawCurrent noiseFloor) = true
      /\ (0.0099 < value_of (current_rms_ieee rawCurrent noiseFloor))%Q)
  /\ (0.0099 < value_of (current_rms_ieee (double_literal 1 100) (S754_zero false))
      < 0.01)%Q.
Proof.
  intros s Irms.
  destruct (run_measurement t0 rs) as (Hi & Hv & Hp).
  cbn zeta in Hi, Hv, Hp. fold s in Hi, Hv, Hp.
  split; [destruct Hi as [Hi|Hi]; [left; exact Hi|right; lra]|].
  split; [exact Hv|]. split; [exact Hp|]. split.
  - intros HI Hrange. unfold current_rms_ieee. fold Irms.
    rewrite HI in Hrange |- *. apply stored_current_above, Hrange.
  - vm_compute. split; reflexivity.
Qed.

Lemma measurement_is_consistent_witness :
  let Irms := corrected_Irms_ieee (double_literal 1 100) (S754_zero false) in
  Irms = S754_finite false 5764607523034235 (-59)
  /\ (0.01 <= value_of Irms <= 1000)%Q
  /\ (0.0099 < value_of (current_rms_ieee (double_literal 1 100) (S754_zero false)))%Q.
Proof.
  intros Irms.
  assert (HI : Irms = S754_finite false 5764607523034235 (-59))
    by (vm_compute; reflexivity).
  assert (Hr : (0.01 <= value_of Irms <= 1000)%Q)
    by (vm_compute; split; discriminate).
  split; [exact HI|]. split; [exact Hr|].
  destruct (measurement_is_consistent 0 [] (double_literal 1 100) (S754_zero false)
              5764607523034235 (-59)) as (_ & _ & _ & H & _).
  apply (H HI Hr).
Defined.

(** ** The status code *)

Lemma slow_tick_status (r : LoopReads) (g : Globals) :
  status_inv g -> status_inv (slow_tick r g).
Proof.
  intros Hg. right.
  assert (Hh : is_Some (hregs (mbServer g) !! 30010%Z))
    by (destruct Hg as [(_ & -> & _)|(_ & -> & _)]; eauto).
  assert (Hc : is_Some (coils (mbServer g) !! 1%Z))
    by (destruct Hg as [(_ & _ & ->)|(_ & _ & ->)]; eauto).
  assert (Hmb : mbServer (updateSCADAData (slow r) g) = mbServer g).
  { unfold updateSCADAData, accumulate_energy.
    destruct (0 <? last_energy_update g)%Z; reflexivity. }
  assert (Hm : mbServer (slow_tick r g)
               = mbServer (updateModbusRegisters (updateSCADAData (slow r) g)))
    by reflexivity.
  destruct (updateModbusRegisters_flags (updateSCADAData (slow r) g))
    as (Ec & _ & _).
  split; [reflexivity|]. rewrite Hm. split.
  - rewrite updateModbusRegisters_hregs. cbn zeta.
    rewrite Reg_lookup_eq; [reflexivity|].
    repeat apply Reg_is_Some. rewrite Hmb. exact Hh.
  - rewrite Ec. cbn zeta.
    repeat (rewrite Reg_lookup_ne by discriminate).
    rewrite Reg_lookup_eq; [reflexivity|]. rewrite Hmb. exact Hc.
Qed.

Lemma run_status (t0 : Z) (rs : list LoopReads) : status_inv (run rs (setup t0)).
Proof.
  apply (run_preserves (fun _ => True) status_inv (fun _ _ => True)
           (fun _ => I) (fun _ _ _ _ _ => I)).
  - intros r g H. split; [exact H|exact I].
  - intros g H. split; [|exact I].
    unfold finish_calibration. destruct (negb (calibrated g)); exact H.
  - intros r g _ H. split; [apply slow_tick_status, H|exact I].
  - intros r g H. split; [exact H|exact I].
  - apply Forall_forall. trivial.
  - left. repeat split.
Qed.

(** X4: in every state reached from boot the status is 0 (Offline, before
    the first slow tick) or 1 (Online), never 2 (Fault), and holding
    register 30010 and the System Online coil show exactly that
    status. *)
Theorem status_is_offline_or_online (t0 : Z) (rs : list LoopReads) :
  let g := run rs (setup t0) in
  (system_status (scadaData g) = 0%Z
   /\ hregs (mbServer g) !! 30010%Z = Some 0%Z
   /\ coils (mbServer g) !! 1%Z = Some false)
  \/ (system_status (scadaData g) = 1%Z
      /\ hregs (mbServer g) !! 30010%Z = Some 1%Z
      /\ coils (mbServer g) !! 1%Z = Some true).
Proof. exact (run_status t0 rs). Qed.

(** ** The register banks *)

Lemma addReg_lookup {V : Type} (n : nat) (offset : Z) (value w : V)
    (bank : gmap Z V) (a : Z) :
  addReg offset value n bank !! a = Some w ->
  bank !! a = Some w \/ ((offset <= a < offset + Z.of_nat n)%Z /\ w = value).
Proof.
  revert offset bank. induction n as [|n IH]; intros offset bank H.
  - left. exact H.
  - cbn [addReg] in H. apply IH in H. destruct H as [H|[Hr ->]].
    + destruct (bank !! offset) eqn:E; [left; exact H|].
      destruct (decide (offset = a)) as [->|Hne].
      * rewrite lookup_insert_eq in H. injection H as <-. right. split; [lia|reflexivity].
      * rewrite lookup_insert_ne in H by exact Hne. left. exact H.
    + right. split; [lia|reflexivity].
Qed.

Lemma Reg_lookup_Some {V : Type} (a b : Z) (v w : V) (bank : gmap Z V) :
  Reg a v bank !! b = Some w ->
  (b = a /\ w = v /\ is_Some (bank !! a)) \/ bank !! b = Some w.
Proof.
  unfold Reg. destruct (bank !! a) as [u|] eqn:E; intros H; [|right; exact H].
  destruct (decide (a = b)) as [Heq|Hne].
  - subst b. rewrite lookup_insert_eq in H. injection H as <-.
    left. split; [reflexivity|]. split; [reflexivity|]. eauto.
  - rewrite lookup_insert_ne in H by exact Hne. right. exact H.
Qed.

Lemma uint16_of_float_range (x : Q) : (0 <= uint16_of_float x < 65536)%Z.
Proof. unfold uint16_of_float. apply Z.mod_pos_bound. lia. Qed.

Lemma uint16_of_int_range (x : Z) : (0 <= uint16_of_int x < 65536)%Z.
Proof. unfold uint16_of_int. apply Z.mod_pos_bound. lia. Qed.

Lemma Reg_keeps_range (a v : Z) (bank : gmap Z Z) :
  (0 <= v < 65536)%Z ->
  (forall b w, bank !! b = Some w ->
     (30001 <= b <= 30010)%Z /\ (0 <= w < 65536)%Z) ->
  forall b w, Reg a v bank !! b = Some w ->
    (30001 <= b <= 30010)%Z /\ (0 <= w < 65536)%Z.
Proof.
  intros Hv Hbank b w H. apply Reg_lookup_Some in H.
  destruct H as [(-> & -> & [u Hu])|H]; [|apply (Hbank b w H)].
  split; [apply (Hbank a u Hu)|exact Hv].
Qed.

Lemma updateModbusRegisters_hregs_inv (g : Globals) :
  hregs_inv g -> hregs_inv (updateModbusRegisters g).
Proof.
  unfold hregs_inv. intros H. rewrite updateModbusRegisters_hregs. cbn zeta.
  unfold encode.
  repeat (apply Reg_keeps_range;
          [first [apply uint16_of_float_range | apply uint16_of_int_range]|]).
  exact H.
Qed.

Lemma slow_tick_mbServer (r : LoopReads) (g : Globals) :
  mbServer (slow_tick r g)
  = mbServer (updateModbusRegisters
                (set_scadaData (scadaData (updateSCADAData (slow r) g)) g)).
Proof.
  unfold slow_tick, updateSCADAData, accumulate_energy.
  destruct (0 <? last_energy_update g)%Z; reflexivity.
Qed.

Lemma run_hregs_inv (t0 : Z) (rs : list LoopReads) : hregs_inv (run rs (setup t0)).
Proof.
  apply (run_preserves (fun _ => True) hregs_inv (fun _ _ => True)
           (fun _ => I) (fun _ _ _ _ _ => I)).
  - intros r g H. split; [exact H|exact I].
  - intros g H. split; [|exact I].
    unfold finish_calibration. destruct (negb (calibrated g)); exact H.
  - intros r g _ H. split; [|exact I].
    unfold hregs_inv. rewrite slow_tick_mbServer.
    apply updateModbusRegisters_hregs_inv. exact H.
  - intros r g H. split; [exact H|exact I].
  - apply Forall_forall. trivial.
  - intros a v H.
    change (hregs (mbServer (setup t0))) with (addReg 30001%Z 0%Z 10 (∅ : gmap Z Z)) in H.
    apply addReg_lookup in H. destruct H as [H|[Hr ->]].
    + rewrite lookup_empty in H. discriminate H.
    + split; lia.
Qed.

(** X5: in every state reached from boot a holding register exists only
    at the addresses 30001 to 30010 created in setup, and whatever it
    holds is a 16-bit value. *)
Theorem holding_registers_stay_16_bit (t0 : Z) (rs : list LoopReads)
    (a v : Z) :
  hregs (mbServer (run rs (setup t0))) !! a = Some v ->
  (30001 <= a <= 30010)%Z /\ (0 <= v < 65536)%Z.
Proof. apply (run_hregs_inv t0 rs). Qed.

Lemma holding_registers_stay_16_bit_witness :
  (30001 <= 30002 <= 30010)%Z /\ (0 <= 4864 < 65536)%Z.
Proof.
  apply (holding_registers_stay_16_bit 0
           [reads_at 2000 0 None; reads_at 122000 100 None;
            reads_at 115322000 100 None] 30002 4864).
  vm_compute. reflexivity.
Defined.

Lemma updateModbusRegisters_untouched (g : Globals) :
  untouched_inv g -> untouched_inv (updateModbusRegisters g).
Proof.
  intros [Hi Hf]. split; [exact Hi|].
  intros a Ha. destruct (Hf a Ha) as [Hc Hs].
  destruct (updateModbusRegisters_flags g) as (-> & -> & _). cbn zeta.
  split; repeat (rewrite Reg_lookup_ne by lia); assumption.
Qed.

Lemma run_untouched (t0 : Z) (rs : list LoopReads) :
  untouched_inv (run rs (setup t0)).
Proof.
  apply (run_preserves (fun _ => True) untouched_inv (fun _ _ => True)
           (fun _ => I) (fun _ _ _ _ _ => I)).
  - intros r g H. split; [exact H|exact I].
  - intros g H. split; [|exact I].
    unfold finish_calibration. destruct (negb (calibrated g)); exact H.
  - intros r g _ H. split; [|exact I].
    unfold untouched_inv. rewrite slow_tick_mbServer.
    apply (updateModbusRegisters_untouched
             (set_scadaData (scadaData (updateSCADAData (slow r) g)) g)).
    exact H.
  - intros r g H. split; [exact H|exact I].
  - apply Forall_forall. trivial.
  - split; [reflexivity|]. intros a Ha.
    assert (Hcases : (a = 5 \/ a = 6 \/ a = 7 \/ a = 8)%Z) by lia.
    destruct Hcases as [-> | [-> | [-> | ->]]]; split; reflexivity.
Qed.

(** X6: what the sketch creates but never writes stays as setup left it
    in every state reached from boot: the ten input registers (all 0),
    coils 5 to 8 and discrete inputs 5 to 8 (all false). *)
Theorem unused_registers_never_change (t0 : Z) (rs : list LoopReads) :
  let mb := mbServer (run rs (setup t0)) in
  (forall a, (30001 <= a <= 30010)%Z -> iregs mb !! a = Some 0%Z)
  /\ (forall a, (5 <= a <= 8)%Z ->
      coils mb !! a = Some false /\ ists mb !! a = Some false).
Proof.
  intros mb. destruct (run_untouched t0 rs) as [Hi Hf]. fold mb in Hi, Hf.
  split; [|exact Hf].
  intros a Ha. rewrite Hi.
  assert (Hcases : (a = 30001 \/ a = 30002 \/ a = 30003 \/ a = 30004
                    \/ a = 30005 \/ a = 30006 \/ a = 30007 \/ a = 30008
                    \/ a = 30009 \/ a = 30010)%Z) by lia.
  repeat (destruct Hcases as [->|Hcases]; [reflexivity|]).
  subst a. reflexivity.
Qed.

Lemma unused_registers_never_change_witness :
  iregs (mbServer (run [reads_at 2000 0 None; reads_at 122000 100 None] (setup 0)))
    !! 30005%Z = Some 0%Z
  /\ coils (mbServer (run [reads_at 2000 0 None; reads_at 122000 100 None] (setup 0)))
       !! 6%Z = Some false.
Proof.
  destruct (unused_registers_never_change 0
              [reads_at 2000 0 None; reads_at 122000 100 None]) as [Hi Hf].
  split; [apply Hi; lia | apply (Hf 6%Z); lia].
Defined.

Lemma Reg_same {V : Type} (a : Z) (v : V) (bank : gmap Z V) :
  bank !! a = Some v \/ bank !! a = None -> Reg a v bank = bank.
Proof.
  unfold Reg. intros [H|H]; rewrite H; [apply insert_id; exact H|reflexivity].
Qed.

Lemma Reg_lookup_cases {V : Type} (a : Z) (v : V) (bank : gmap Z V) :
  Reg a v bank !! a = Some v \/ Reg a v bank !! a = None.
Proof.
  unfold Reg. destruct (bank !! a) eqn:E;
    [left; apply lookup_insert_eq | right; exact E].
Qed.

Lemma ModbusIP_eq (a b : ModbusIP) :
  hregs a = hregs b -> iregs a = iregs b -> coils a = coils b ->
  ists a = ists b -> a = b.
Proof.
  destruct a, b. cbn. intros -> -> -> ->. reflexivity.
Qed.

Lemma updateModbusRegisters_rest (g : Globals) :
  iregs (mbServer (updateModbusRegisters g)) = iregs (mbServer g)
  /\ updateModbusRegisters g
     = set_mbServer (mbServer (updateModbusRegisters g)) g.
Proof. split; reflexivity. Qed.

Lemma set_mbServer_same (g : Globals) : set_mbServer (mbServer g) g = g.
Proof. destruct g. reflexivity. Qed.

Lemma set_mbServer_twice (mb mb' : ModbusIP) (g : Globals) :
  set_mbServer mb' (set_mbServer mb g) = set_mbServer mb' g.
Proof. reflexivity. Qed.

(** Drops a second write of the same values on top of the bank [M], whose
    shape is given by the equation [E]. *)
Ltac drop_rewrites M E :=
  repeat (rewrite (Reg_same _ _ M)
            by (rewrite E;
                repeat (rewrite Reg_lookup_ne by discriminate);
                apply Reg_lookup_cases)).

(** X7: refreshing the registers twice from the same snapshot is the same
    as refreshing them once: a second [updateModbusRegisters] changes
    nothing. *)
Theorem updateModbusRegisters_idempotent (g : Globals) :
  updateModbusRegisters (updateModbusRegisters g) = updateModbusRegisters g.
Proof.
  destruct (updateModbusRegisters_flags g) as (Ec1 & Ei1 & Es1).
  pose proof (updateModbusRegisters_hregs g) as Eh1.
  destruct (updateModbusRegisters_rest g) as [Er1 Eg1].
  remember (updateModbusRegisters g) as g1 eqn:Hg1.
  destruct (updateModbusRegisters_flags g1) as (Ec2 & Ei2 & _).
  pose proof (updateModbusRegisters_hregs g1) as Eh2.
  destruct (updateModbusRegisters_rest g1) as [Er2 Eg2].
  cbn zeta in Ec1, Ei1, Eh1, Ec2, Ei2, Eh2. rewrite Es1 in Ec2, Ei2, Eh2.
  assert (Hm : mbServer (updateModbusRegisters g1) = mbServer g1).
  { apply ModbusIP_eq.
    - rewrite Eh2. remember (hregs (mbServer g1)) as M eqn:HM.
      drop_rewrites M Eh1. reflexivity.
    - exact Er2.
    - rewrite Ec2. remember (coils (mbServer g1)) as M eqn:HM.
      drop_rewrites M Ec1. reflexivity.
    - rewrite Ei2. remember (ists (mbServer g1)) as M eqn:HM.
      drop_rewrites M Ei1. reflexivity. }
  rewrite Eg2, Hm. apply set_mbServer_same.
Qed.

(** X8: when an iteration runs the 5 s block, the current and power
    registers it leaves behind carry the measurement the snapshot held
    when the iteration began: the registers are written before the 1 s
    block of the same iteration measures, so they lag the snapshot. *)
Theorem registers_carry_previous_measurement (t0 : Z) (rs : list LoopReads)
    (r : LoopReads) :
  let g := run rs (setup t0) in
  let g' := fst (loop r g) in
  slow_tick_fires r g = true ->
  hregs (mbServer g') !! 30004%Z = Some (encode (current_rms (scadaData g)) 1000)
  /\ hregs (mbServer g') !! 30001%Z = Some (encode (ac_power_kw (scadaData g)) 1000)
  /\ (fast_tick_fires r g = true ->
      current_rms (scadaData g') = corrected_Irms (irms r) (noiseFloor g')).
Proof.
  intros g g' Hs.
  assert (Hc : calibrating r g = false).
  { unfold slow_tick_fires in Hs. apply andb_true_iff in Hs.
    destruct Hs as [Hs _]. apply negb_true_iff in Hs. exact Hs. }
  destruct (loop_ticks r g Hc) as [Hg' _]. fold g' in Hg'. rewrite Hs in Hg'.
  cbn zeta in Hg'.
  destruct (finish_calibration_rest g) as (Hd & _ & _ & Hmb).
  set (g1 := finish_calibration g) in *.
  assert (Hex : registers_exist
                  (set_scadaData (scadaData (updateSCADAData (slow r) g1)) g1)).
  { intros a Ha. cbn [mbServer set_scadaData]. rewrite Hmb.
    apply (run_registers_exist t0 rs), Ha. }
  assert (Hm : mbServer g' = mbServer (slow_tick r g1))
    by (rewrite Hg'; destruct (fast_tick_fires r g); reflexivity).
  destruct (updateSCADAData_measured (slow r) g1) as (Hp & Hi & _).
  rewrite Hm, slow_tick_mbServer. split; [|split].
  - rewrite (updateModbusRegisters_register _ 30004 current_rms 1000);
      [ cbn [scadaData set_scadaData]; rewrite Hi, Hd; reflexivity
      | right; right; right; left; reflexivity
      | apply Hex; lia ].
  - rewrite (updateModbusRegisters_register _ 30001 ac_power_kw 1000);
      [ cbn [scadaData set_scadaData]; rewrite Hp, Hd; reflexivity
      | left; reflexivity
      | apply Hex; lia ].
  - intros Hf. rewrite Hg', Hf. rewrite fast_tick_current.
    destruct (fast_tick_calibration r (slow_tick r g1)) as (_ & _ & ->).
    reflexivity.
Qed.

Lemma registers_carry_previous_measurement_witness :
  let rs := [reads_at 2000 0 None; reads_at 122000 1 None] in
  let g' := fst (loop (reads_at 128000 2 None) (run rs (setup 0))) in
  hregs (mbServer g') !! 30004%Z = Some 1000%Z
  /\ (current_rms (scadaData g') == 2)%Q.
Proof.
  intros rs g'.
  destruct (registers_carry_previous_measurement 0 rs (reads_at 128000 2 None)
              eq_refl) as (H4 & _ & Hf).
  split.
  - fold g' in H4. rewrite H4. vm_compute. reflexivity.
  - fold g' in Hf. rewrite (Hf eq_refl). vm_compute. reflexivity.
Defined.

(** ** The calibration phase, as a whole *)

Lemma loop_calibrating (r : LoopReads) (g : Globals) :
  calibrating r g = true -> loop r g = (calibration_sample r g, None).
Proof. intros H. unfold loop. rewrite H. reflexivity. Qed.

Lemma set_calibration_same (g : Globals) :
  set_calibration (calibrationSum g) (calibrationReadings g) g = g.
Proof. destruct g. reflexivity. Qed.

Lemma run_all_calibrating (rs : list LoopReads) (g : Globals) :
  all_calibrating rs g = true ->
  run rs g
  = set_calibration
      (fold_left (fun acc r => (acc + cal_irms r)%Q) rs (calibrationSum g))
      (calibrationReadings g + Z.of_nat (length rs))%Z g
  /\ responses rs g = repeat None (length rs).
Proof.
  revert g. induction rs as [|r rs IH]; intros g H.
  - cbn [run fold_left length responses repeat Z.of_nat].
    rewrite Z.add_0_r, set_calibration_same. split; reflexivity.
  - cbn [all_calibrating] in H. apply andb_true_iff in H. destruct H as [Hc H].
    rewrite (loop_calibrating r g Hc) in H. cbn [fst] in H.
    cbn [run responses]. rewrite (loop_calibrating r g Hc). cbn [fst snd].
    destruct (IH _ H) as [-> ->]. split; [|reflexivity].
    cbn [fold_left length].
    replace (calibrationReadings (calibration_sample r g)
             + Z.of_nat (length rs))%Z
      with (calibrationReadings g + Z.of_nat (S (length rs)))%Z
      by (cbn [calibration_sample calibrationReadings set_calibration]; lia).
    reflexivity.
Qed.

Lemma fold_left_Qsum (l : list LoopReads) (acc : Q) :
  (fold_left (fun a r => a + cal_irms r) l acc
   == acc + Qsum (map cal_irms l))%Q.
Proof.
  revert acc. induction l as [|r l IH]; intros acc; cbn [fold_left map].
  - unfold Qsum. cbn. ring.
  - rewrite IH. unfold Qsum. cbn [fold_right]. ring.
Qed.

(** X9: the noise floor is the arithmetic mean of the raw readings taken
    while calibrating: after a run of calibration iterations (at least
    one), the iteration that ends calibration sets [noiseFloor] to the
    sum of those readings divided by their number. *)
Theorem noise_floor_is_mean_reading (t0 : Z) (rs : list LoopReads)
    (r : LoopReads) :
  rs <> [] ->
  all_calibrating rs (setup t0) = true ->
  calibrating r (run rs (setup t0)) = false ->
  (noiseFloor (fst (loop r (run rs (setup t0))))
   == Qsum (map cal_irms rs) / inject_Z (Z.of_nat (length rs)))%Q.
Proof.
  intros _ Hall Hend.
  destruct (loop_calibration r (run rs (setup t0))) as (_ & _ & Hout).
  destruct (Hout Hend) as [_ ->].
  rewrite finish_calibration_noiseFloor.
  destruct (run_all_calibrating rs (setup t0) Hall) as [-> _].
  cbn [calibrated set_calibration calibrationSum calibrationReadings setup
       set_calibrationStart set_mbServer globals0].
  rewrite fold_left_Qsum. rewrite Qplus_0_l. reflexivity.
Qed.

Lemma noise_floor_is_mean_reading_witness :
  (noiseFloor
     (fst (loop (reads_at 122000 1 None)
             (run [reads_at 2000 0.04 None; reads_at 2200 0.06 None;
                   reads_at 2400 0.02 None] (setup 0))))
   == 0.04)%Q.
Proof.
  rewrite (noise_floor_is_mean_reading 0
             [reads_at 2000 0.04 None; reads_at 2200 0.06 None;
              reads_at 2400 0.02 None] (reads_at 122000 1 None));
    [reflexivity | discriminate | reflexivity | reflexivity].
Defined.

(** X10: while the sketch calibrates it serves nothing and changes
    neither the snapshot nor the register banks: a pending request gets
    no answer in any calibrating iteration, and a GET /scada/data served
    by the iteration that ends the calibration phase after boot is
    answered with the all-zero snapshot, status 0. *)
Theorem calibration_phase_is_silent (rs : list LoopReads) (g : Globals) :
  all_calibrating rs g = true ->
  responses rs g = repeat None (length rs)
  /\ scadaData (run rs g) = scadaData g
  /\ mbServer (run rs g) = mbServer g
  /\ (forall t0 r, g = setup t0 ->
      calibrating r (run rs g) = false -> pending r = GET "/scada/data" ->
      snd (loop r (run rs g)) = Some (scada_data_response scadaData0)).
Proof.
  intros Hall. destruct (run_all_calibrating rs g Hall) as [Hrun Hresp].
  split; [exact Hresp|].
  assert (Hs : scadaData (run rs g) = scadaData g) by (rewrite Hrun; reflexivity).
  split; [exact Hs|]. split; [rewrite Hrun; reflexivity|].
  intros t0 r Hg Hend Hp.
  rewrite (served_scada_data r _ Hend Hp), Hs, Hg. reflexivity.
Qed.

Lemma calibration_phase_is_silent_witness :
  let rs := [reads_at 2000 0.04 (GET "/scada/data");
             reads_at 2200 0.06 (GET "/")] in
  responses rs (setup 0) = [None; None]
  /\ snd (loop (reads_at 122000 1 (GET "/scada/data")) (run rs (setup 0)))
     = Some (scada_data_response scadaData0).
Proof.
  intros rs.
  destruct (calibration_phase_is_silent rs (setup 0) eq_refl)
    as (Hresp & _ & _ & Hfirst).
  split; [exact Hresp|].
  apply (Hfirst 0%Z); reflexivity.
Defined.

(** ** The irradiance model, further *)

(** X11: whatever the clock reads, the simulated irradiance lies between
    0 and 1299 W/m2 when the random draw is in [random]'s range. *)
Theorem irradiance_is_bounded (ms rnd : Z) :
  random_range (-100) 100 rnd = true ->
  (0 <= simulateIrradiance ms rnd <= 1299)%R.
Proof.
  intros H. apply random_range_spec in H.
  split; [apply simulateIrradiance_nonneg|].
  unfold simulateIrradiance. cbn zeta.
  destruct (Rlt_dec (hour_of ms) 6); [lra|].
  destruct (Rgt_dec (hour_of ms) 18); [lra|].
  assert (Hr : (IZR rnd <= 99)%R) by (apply IZR_le; lia).
  pose proof (SIN_bound (PI * (hour_of ms - 6) / 12)) as [_ Hs].
  apply Rmax_lub; lra.
Qed.

Lemma irradiance_is_bounded_witness :
  (0 <= simulateIrradiance 14400000 99 <= 1299)%R.
Proof.
  apply irradiance_is_bounded. reflexivity.
Defined.

Lemma time_of_day_next_day (ms : Z) :
  is_ulong ms -> is_ulong (ms + 86400000) ->
  time_of_day (ms + 86400000) = time_of_day ms.
Proof.
  intros H1 H2. rewrite !time_of_day_no_wrap by assumption.
  replace (ms + 86400000)%Z with (ms + 86400 * 1000)%Z by lia.
  rewrite Z.div_add by lia.
  replace (ms / 1000 + 86400 + offsetSeconds)%Z
    with (ms / 1000 + offsetSeconds + 1 * 86400)%Z by lia.
  apply Z.mod_add. lia.
Qed.

(** X12: the irradiance model has a period of one day: 86400000 ms later
    (as long as the 32-bit clock has not wrapped) the same random draw
    gives the same irradiance. *)
Theorem irradiance_repeats_daily (ms rnd : Z) :
  is_ulong ms -> is_ulong (ms + 86400000) ->
  simulateIrradiance (ms + 86400000) rnd = simulateIrradiance ms rnd.
Proof.
  intros H1 H2. unfold simulateIrradiance, hour_of.
  rewrite (time_of_day_next_day ms H1 H2). reflexivity.
Qed.

Lemma irradiance_repeats_daily_witness :
  simulateIrradiance (14400000 + 86400000) 50 = simulateIrradiance 14400000 50.
Proof.
  apply irradiance_repeats_daily; split; vm_compute; congruence.
Defined.

(** ** The energy accumulator, further *)

Lemma updateSCADAData_mark (t : SlowTickReads) (g : Globals) :
  last_energy_update (updateSCADAData t g) = ms_energy_mark t.
Proof.
  unfold updateSCADAData, accumulate_energy.
  destruct (0 <? last_energy_update g)%Z; reflexivity.
Qed.

Lemma ulong_sub_wrapped (a b : Z) :
  is_ulong a -> is_ulong b -> (a < b)%Z ->
  ulong_sub a b = (a + ULONG_MODULUS - b)%Z.
Proof.
  unfold is_ulong, ulong_sub. intros Ha Hb Hlt.
  replace (a - b)%Z with ((a + ULONG_MODULUS - b) + (-1) * ULONG_MODULUS)%Z by lia.
  rewrite Z.mod_add by (unfold ULONG_MODULUS; lia).
  apply Z.mod_small. lia.
Qed.

(** X13: the accumulator survives the rollover of the 32-bit millisecond
    clock: when the clock reads less than the stored timestamp, the tick
    still integrates the time that really passed,
    [now + 2^32 - prev] ms. *)
Theorem energy_tick_across_rollover (t : SlowTickReads) (g : Globals) :
  let prev := last_energy_update g in
  let now := ms_energy t in
  is_ulong prev -> is_ulong now -> (0 < prev)%Z -> (now < prev)%Z ->
  (accumulated_energy (updateSCADAData t g)
   == accumulated_energy g
      + ac_power_kw (scadaData g)
        * (inject_Z (now + 2 ^ 32 - prev) / 3600000))%Q
  /\ total_energy_kwh (scadaData (updateSCADAData t g))
     = accumulated_energy (updateSCADAData t g).
Proof.
  intros prev now Hp Hn H0 Hlt.
  destruct (updateSCADAData_later t g H0) as [Ht Ha].
  split; [|rewrite Ht, Ha; reflexivity].
  rewrite Ha. unfold hours_elapsed. fold prev now.
  rewrite (ulong_sub_wrapped now prev Hn Hp Hlt).
  apply Qplus_comp; [reflexivity|].
  apply Qmult_comp; [reflexivity|].
  apply Qmult_comp; reflexivity.
Qed.

Lemma energy_tick_across_rollover_witness :
  let g := set_last_energy_update 4294966296
             (set_scadaData (set_measurement 5 220 1.1 scadaData0) (setup 0)) in
  (accumulated_energy (updateSCADAData (slow_reads_at 4000) g)
   == 1.1 * (5000 / 3600000))%Q.
Proof.
  intros g.
  assert (Hp : is_ulong (last_energy_update g)) by (vm_compute; split; congruence).
  assert (Hn : is_ulong (ms_energy (slow_reads_at 4000)))
    by (vm_compute; split; congruence).
  destruct (energy_tick_across_rollover (slow_reads_at 4000) g Hp Hn
              eq_refl eq_refl) as [H _].
  eapply Qeq_trans; [exact H|]. reflexivity.
Defined.

(** X14: a stored timestamp of 0 counts as no timestamp: if [millis()]
    reads 0 when a tick stores [last_energy_update], the next tick adds
    no energy, whatever the power and the time that passed. *)
Theorem zero_timestamp_skips_a_tick (t1 t2 : SlowTickReads) (g : Globals) :
  ms_energy_mark t1 = 0%Z ->
  let g1 := updateSCADAData t1 g in
  let g2 := updateSCADAData t2 g1 in
  accumulated_energy g2 = accumulated_energy g1
  /\ total_energy_kwh (scadaData g2) = total_energy_kwh (scadaData g1).
Proof.
  intros H g1 g2.
  assert (H0 : last_energy_update g1 = 0%Z)
    by (unfold g1; rewrite updateSCADAData_mark; exact H).
  destruct (updateSCADAData_first t2 g1 H0) as [Ht Ha].
  split; assumption.
Qed.

Lemma zero_timestamp_skips_a_tick_witness :
  let g := set_last_energy_update 4294962296
             (set_scadaData (set_measurement 5 220 1.1 scadaData0) (setup 0)) in
  let t1 := mkSlowTickReads 4294967295 0 0 0 0 0 0 0 in
  accumulated_energy (updateSCADAData (slow_reads_at 5000) (updateSCADAData t1 g))
  = accumulated_energy (updateSCADAData t1 g).
Proof.
  intros g t1.
  apply (zero_timestamp_skips_a_tick t1 (slow_reads_at 5000) g). reflexivity.
Defined.



(** ** The derived report, further *)

Lemma run_total_nonneg (t0 : Z) (rs : list LoopReads) :
  (0 <= total_energy_kwh (scadaData (run rs (setup t0))))%Q.
Proof.
  destruct (run_energy rs (setup t0) (setup_energy t0)) as [_ H].
  exact H.
Qed.

Lemma run_power_zero_or_more (t0 : Z) (rs : list LoopReads) :
  let P := ac_power_kw (scadaData (run rs (setup t0))) in
  (P == 0)%Q \/ (0.0022 <= P)%Q.
Proof.
  intros P. destruct (run_measurement t0 rs) as (Hi & Hv & Hp).
  cbn zeta in Hi, Hv, Hp. fold P in Hp.
  set (i := current_rms (scadaData (run rs (setup t0)))) in *.
  set (v := voltage (scadaData (run rs (setup t0)))) in *.
  destruct Hv as [[Hv0 Hi0]|Hv].
  - left. rewrite Hi0 in Hp. lra.
  - rewrite Hv in Hp. unfold gridVoltage in Hp.
    destruct Hi as [Hi|Hi]; [left; rewrite Hi in Hp; lra|right; lra].
Qed.

(** X16: in every state reached from boot the report served at
    /scada/guardian is sound in sign and order: net export is between 0
    and gross generation, emission reductions equal baseline emissions
    and are between 0 and net export; the capacity factor, being the
    power over 0.001 MW times 100, is either 0 or more than 219.9.  In
    binary floating point the smallest current that survives the clamp,
    the [double] 0.01, gives a power of 0.0021999999 kW and a capacity
    factor of 219.9999988, just below 220. *)
Theorem guardian_report_values (t0 : Z) (rs : list LoopReads) :
  let g := run rs (setup t0) in
  let P_min := ac_power_kw_ieee (double_literal 1 100) (S754_zero false) in
  (exists doc gross net cf er,
    snd (handleClient (GET "/scada/guardian") g)
    = Some (mkResponse 200 [cors; json_header] "application/json" (Json doc))
    /\ field_in "monitoring_data" "gross_generation_mwh" doc = Some (JFloat gross)
    /\ field_in "monitoring_data" "net_export_mwh" doc = Some (JFloat net)
    /\ field_in "monitoring_data" "capacity_factor" doc = Some (JFloat cf)
    /\ field_in "calculations" "baseline_emissions_tco2" doc = Some (JFloat er)
    /\ field_in "calculations" "emission_reductions_tco2" doc = Some (JFloat er)
    /\ (0 <= net <= gross)%Q
    /\ (0 <= er <= net)%Q
    /\ ((cf == 0)%Q \/ (219.9 < cf)%Q))
  /\ (0.0021999999 < value_of P_min < 0.0022)%Q
  /\ (219.9999988 < value_of (capacity_factor_ieee P_min) < 220)%Q.
Proof.
  intros g P_min. split; [|vm_compute; repeat split; reflexivity].
  set (s := scadaData g).
  exists (scada_guardian_doc s), (total_energy_kwh s / 1000.0)%Q,
    ((total_energy_kwh s * 0.98) / 1000.0)%Q,
    ((ac_power_kw s / 0.001) * 100)%Q,
    ((total_energy_kwh s * 0.98) / 1000.0 * morocco_ef)%Q.
  repeat (split; [reflexivity|]).
  pose proof (run_total_nonneg t0 rs) as Ht.
  pose proof (run_power_zero_or_more t0 rs) as Hp.
  cbn zeta in Hp. fold g in Ht, Hp. fold s in Ht, Hp.
  set (e := total_energy_kwh s) in *. set (P := ac_power_kw s) in *.
  assert (Eg : (e / 1000.0 == e * (1 # 1000))%Q) by field.
  assert (En : (e * 0.98 / 1000.0 == e * (98 # 100000))%Q) by field.
  assert (Ec : (P / 0.001 * 100 == P * 100000)%Q) by field.
  unfold morocco_ef. rewrite Eg, En, Ec.
  split; [split; lra|]. split; [split; lra|].
  destruct Hp as [Hp|Hp]; [left; rewrite Hp; reflexivity|right; lra].
Qed.

(** ** Text output of the 1 s block *)

Lemma prefix_append (a b : string) : String.prefix a (a ++ b) = true.
Proof.
  induction a as [|c a IH]; [destruct b; reflexivity|].
  change (String c a ++ b)%string with (String c (a ++ b)).
  cbn [String.prefix]. destruct (Ascii.ascii_dec c c); [exact IH|congruence].
Qed.

(** X17: the uplink timestamp has no date of its own: it always starts
    with 2025-01-20T, and its time of day comes back after every whole
    day of uptime: as long as the 32-bit clock has not wrapped, readings
    any number of days apart carry the same timestamp. *)
Theorem isoTimestamp_repeats_daily (ms_h ms_m ms_s days : Z) :
  is_ulong ms_h -> is_ulong ms_m -> is_ulong ms_s ->
  (0 <= days)%Z ->
  is_ulong (ms_h + days * 86400000) -> is_ulong (ms_m + days * 86400000) ->
  is_ulong (ms_s + days * 86400000) ->
  isoTimestamp (ms_h + days * 86400000) (ms_m + days * 86400000)
    (ms_s + days * 86400000)
  = isoTimestamp ms_h ms_m ms_s
  /\ String.prefix "2025-01-20T" (isoTimestamp ms_h ms_m ms_s) = true.
Proof.
  intros _ _ _ _ _ _ _.
  split; [|apply prefix_append].
  unfold isoTimestamp.
  replace (ms_h + days * 86400000)%Z with (ms_h + (days * 24) * 3600000)%Z by lia.
  replace (ms_m + days * 86400000)%Z with (ms_m + (days * 1440) * 60000)%Z by lia.
  replace (ms_s + days * 86400000)%Z with (ms_s + (days * 86400) * 1000)%Z by lia.
  rewrite !Z.div_add by lia.
  replace (ms_h / 3600000 + days * 24)%Z with (ms_h / 3600000 + days * 24)%Z by lia.
  replace (ms_m / 60000 + days * 1440)%Z with (ms_m / 60000 + (days * 24) * 60)%Z by lia.
  replace (ms_s / 1000 + days * 86400)%Z with (ms_s / 1000 + (days * 1440) * 60)%Z by lia.
  rewrite !Z.mod_add by lia. reflexivity.
Qed.

Lemma isoTimestamp_repeats_daily_witness :
  isoTimestamp 176523000 176523001 176523002 = "2025-01-20T1:2:3.000Z"%string
  /\ isoTimestamp 176523000 176523001 176523002 = isoTimestamp 3723000 3723001 3723002.
Proof.
  split; [vm_compute; reflexivity|].
  apply (isoTimestamp_repeats_daily 3723000 3723001 3723002 2);
    unfold is_ulong, ULONG_MODULUS; lia.
Defined.

Lemma length_append (a b : string) :
  String.length (a ++ b) = (String.length a + String.length b)%nat.
Proof.
  induction a as [|c a IH]; [reflexivity|].
  change (String c a ++ b)%string with (String c (a ++ b)).
  cbn [String.length]. rewrite IH. reflexivity.
Qed.

Lemma String_of_int_digits (z : Z) :
  (0 <= z < 100)%Z ->
  String.length (String_of_int z) = if (z <? 10)%Z then 1%nat else 2%nat.
Proof.
  intros Hz.
  assert (H : below 100
                (fun n => Nat.eqb (String.length (String_of_int n))
                            (if (n <? 10)%Z then 1 else 2)) = true)
    by (vm_compute; reflexivity).
  apply Nat.eqb_eq. apply (below_spec 100 _ H z). lia.
Qed.

(** X18: during the first 100 hours of uptime the time shown on the LCD
    is exactly 8 characters long, [hh:mm:ss] with each part padded to two
    digits. *)
Theorem timeStr_is_eight_characters (ms : Z) :
  (0 <= ms < 360000000)%Z -> String.length (timeStr ms) = 8%nat.
Proof.
  intros Hms. unfold timeStr. cbn zeta.
  set (u := (ms / 1000)%Z).
  assert (Hu : (0 <= u < 360000)%Z).
  { unfold u. split; [apply Z.div_pos; lia|].
    apply Z.div_lt_upper_bound; lia. }
  assert (Hh : (0 <= u / 3600 < 100)%Z).
  { split; [apply Z.div_pos; lia|]. apply Z.div_lt_upper_bound; lia. }
  assert (Hm : (0 <= (u mod 3600) / 60 < 100)%Z).
  { pose proof (Z.mod_pos_bound u 3600 ltac:(lia)).
    split; [apply Z.div_pos; lia|]. apply Z.div_lt_upper_bound; lia. }
  assert (Hs : (0 <= u mod 60 < 100)%Z)
    by (pose proof (Z.mod_pos_bound u 60 ltac:(lia)); lia).
  pose proof (String_of_int_digits _ Hh) as Lh.
  pose proof (String_of_int_digits _ Hm) as Lm.
  pose proof (String_of_int_digits _ Hs) as Ls.
  destruct (u / 3600 <? 10)%Z; destruct (u mod 3600 / 60 <? 10)%Z;
    destruct (u mod 60 <? 10)%Z;
    rewrite !length_append, Lh, Lm, Ls; reflexivity.
Qed.

Lemma timeStr_is_eight_characters_witness :
  String.length (timeStr 3723000) = 8%nat /\ timeStr 3723000 = "01:02:03"%string.
Proof.
  split; [apply timeStr_is_eight_characters; lia|reflexivity].
Defined.

(** ** The status page and the routes *)

(** X19: the status page and the server agree: every URL the page's
    script requests is answered 200, every member it formats as a number
    is present in the /scada/data document as a number, and the status it
    tests is present as an integer. *)
Theorem status_page_is_served (g : Globals) :
  (forall u, In u page_urls ->
     exists resp, handleClient (GET u) g = (g, Some resp) /\ code resp = 200%Z)
  /\ (forall k, In k page_number_keys ->
      exists x, field k (scada_data_doc (scadaData g)) = Some (JFloat x))
  /\ (exists n, field page_status_key (scada_data_doc (scadaData g))
                = Some (JInteger n)).
Proof.
  split; [|split].
  - unfold page_urls. cbn [In]. intros u [<-|[<-|[]]];
      eexists; split; reflexivity.
  - unfold page_number_keys. cbn [In]. intros k Hin.
    repeat (destruct Hin as [<-|Hin]; [eexists; reflexivity|]).
    destruct Hin.
  - eexists. reflexivity.
Qed.

Lemma status_page_is_served_witness :
  exists x, field "irradiance_w_m2" (scada_data_doc (scadaData (setup 0)))
            = Some (JFloat x).
Proof.
  destruct (status_page_is_served (setup 0)) as (_ & Hk & _).
  apply Hk. right; right; right; right; left. reflexivity.
Defined.

(** ** The cadence of the 5 s block *)

Lemma loop_last_scada_update (r : LoopReads) (g : Globals) :
  last_scada_update (fst (loop r g))
  = if slow_tick_fires r g then ms_scada_mark r else last_scada_update g.
Proof.
  destruct (calibrating r g) eqn:Hc.
  - rewrite loop_globals, Hc. unfold slow_tick_fires. rewrite Hc. reflexivity.
  - destruct (loop_ticks r g Hc) as [-> _].
    destruct (finish_calibration_rest g) as (_ & Hs & _).
    destruct (slow_tick_fires r g), (fast_tick_fires r g);
      cbn; try rewrite Hs; reflexivity.
Qed.

Lemma no_slow_tick_within_5s (rs : list LoopReads) (g : Globals) :
  (0 <= last_scada_update g)%Z ->
  Forall (fun r' => is_ulong (ms_scada r')
                    /\ (last_scada_update g <= ms_scada r'
                        <= last_scada_update g + 5000)%Z) rs ->
  no_slow_tick rs g = true.
Proof.
  revert g. induction rs as [|r rs IH]; intros g Hm Hrs; [reflexivity|].
  inversion Hrs as [|? ? [Hu Hr] Hrest]; subst.
  assert (Hq : slow_tick_fires r g = false).
  { unfold slow_tick_fires, slow_tick_due.
    rewrite (ulong_sub_no_wrap _ _ Hu) by lia.
    replace (5000 <? ms_scada r - last_scada_update g)%Z with false
      by (symmetry; apply Z.ltb_ge; lia).
    apply andb_false_r. }
  cbn [no_slow_tick]. rewrite Hq. cbn [negb andb].
  pose proof (loop_last_scada_update r g) as Hl. rewrite Hq in Hl.
  apply IH; rewrite Hl; assumption.
Qed.

(** X20: the 5 s block does not run twice within 5000 ms: after an
    iteration that ran it and stored the clock reading [m], it runs in no
    later iteration whose clock reading lies between [m] and
    [m + 5000]. *)
Theorem slow_ticks_are_5s_apart (r : LoopReads) (rs : list LoopReads)
    (g : Globals) :
  slow_tick_fires r g = true ->
  (0 <= ms_scada_mark r)%Z ->
  Forall (fun r' => is_ulong (ms_scada r')
                    /\ (ms_scada_mark r <= ms_scada r'
                        <= ms_scada_mark r + 5000)%Z) rs ->
  no_slow_tick rs (fst (loop r g)) = true.
Proof.
  intros Hs Hm Hrs.
  pose proof (loop_last_scada_update r g) as Hl. rewrite Hs in Hl.
  apply no_slow_tick_within_5s; rewrite Hl; assumption.
Qed.

Lemma slow_ticks_are_5s_apart_witness :
  no_slow_tick [reads_at 123000 1 None; reads_at 127000 1 None]
    (fst (loop (reads_at 122000 1 None) (run [reads_at 2000 0 None] (setup 0))))
  = true.
Proof.
  apply slow_ticks_are_5s_apart; [reflexivity | vm_compute; congruence |].
  repeat constructor; vm_compute; congruence.
Defined.

(** ** Registers of the simulated fields *)

Lemma slow_register_map_incl (addr : Z) (fld : SCADAData -> Q) (S : Z) :
  In (addr, fld, S) slow_register_map -> In (addr, fld, S) register_map.
Proof.
  unfold slow_register_map, register_map. cbn [In]. intros H.
  repeat (destruct H as [H|H]; [rewrite <- H; tauto|]).
  destruct H.
Qed.

Lemma slow_register_map_fast_tick (addr : Z) (fld : SCADAData -> Q) (S : Z)
    (r : LoopReads) (g : Globals) :
  In (addr, fld, S) slow_register_map ->
  fld (scadaData (fast_tick r g)) = fld (scadaData g).
Proof.
  unfold slow_register_map. cbn [In]. intros H.
  repeat (destruct H as [H|H]; [inversion H; reflexivity|]).
  destruct H.
Qed.

Lemma slow_tick_slow_registers (r : LoopReads) (g : Globals) :
  slow_registers_inv g -> slow_registers_inv (slow_tick r g).
Proof.
  intros [Hex _].
  destruct (slow_tick_registers_exist r g Hex) as [Hex' _].
  split; [exact Hex'|].
  intros addr fld S Hin. rewrite slow_tick_mbServer.
  apply (updateModbusRegisters_register
           (set_scadaData (scadaData (updateSCADAData (slow r) g)) g)).
  - apply slow_register_map_incl, Hin.
  - apply Hex. apply (register_map_addresses addr fld S).
    apply slow_register_map_incl, Hin.
Qed.

Lemma run_slow_registers (t0 : Z) (rs : list LoopReads) :
  slow_registers_inv (run rs (setup t0)).
Proof.
  apply (run_preserves (fun _ => True) slow_registers_inv (fun _ _ => True)
           (fun _ => I) (fun _ _ _ _ _ => I)).
  - intros r g H. split; [exact H|exact I].
  - intros g H. split; [|exact I].
    unfold finish_calibration. destruct (negb (calibrated g)); exact H.
  - intros r g _ H. split; [apply slow_tick_slow_registers, H|exact I].
  - intros r g [Hex H]. split; [|exact I]. split; [exact Hex|].
    intros addr fld S Hin.
    rewrite (slow_register_map_fast_tick addr fld S r g Hin).
    apply (H addr fld S Hin).
  - apply Forall_forall. trivial.
  - split; [apply setup_registers_exist|].
    unfold slow_register_map. cbn [In]. intros addr fld S Hin.
    repeat (destruct Hin as [Hin|Hin]; [inversion Hin; reflexivity|]).
    destruct Hin.
Qed.

(** X21: the registers of energy, frequency, power factor, temperature,
    irradiance and efficiency never lag: in every state reached from boot
    each of them holds the encoding of the value the snapshot holds, so
    Modbus and /scada/data agree on these fields. *)
Theorem simulated_registers_match_snapshot (t0 : Z) (rs : list LoopReads)
    (addr : Z) (fld : SCADAData -> Q) (S : Z) :
  In (addr, fld, S) slow_register_map ->
  let g := run rs (setup t0) in
  hregs (mbServer g) !! addr = Some (encode (fld (scadaData g)) S).
Proof.
  intros Hin g. apply (run_slow_registers t0 rs), Hin.
Qed.

Lemma simulated_registers_match_snapshot_witness :
  let g := run [reads_at 2000 0 None; reads_at 122000 1 None;
                reads_at 123500 2 None] (setup 0) in
  hregs (mbServer g) !! 30003%Z = Some (encode (grid_frequency (scadaData g)) 100).
Proof.
  intros g.
  apply (simulated_registers_match_snapshot 0 _ 30003 grid_frequency 100).
  right; left; reflexivity.
Defined.
